(** * KPSM_Regis: identifiers, custody ledger, device attributes, fingerprints

    A shallow embedding of the parts of [forensics/models.py] and
    [forensics/views.py] that mint case and evidence numbers, log custody
    transfers, normalise the device-specific attribute bag and freeze the
    file digests, together with the properties the specification states
    about them.

    Text is modelled as ASCII strings; a database table is the list of its
    rows in insertion order; dictionaries are finite maps. *)

From Stdlib Require Import ZArith NArith Lia Bool.
From Stdlib Require Import Strings.Ascii Strings.String Strings.Byte.
From Stdlib Require Import Numbers.DecimalString Numbers.DecimalN Numbers.DecimalFacts.
From stdpp Require Import base option list gmap strings.

Local Open Scope string_scope.
Local Open Scope Z_scope.
Local Open Scope list_scope.

(** ** The Python built-ins the code relies on *)

Module Py.

(** [str.isspace] on ASCII: TAB..CR, FS..US and the blank. *)
Definition isspace (c : ascii) : bool :=
  let n := N_of_ascii c in
  ((9 <=? n) && (n <=? 13) || (28 <=? n) && (n <=? 32))%N.

(** The blanks [int()] skips around an ASCII literal: TAB..CR and the
    blank only. *)
Definition isspace_c (c : ascii) : bool :=
  let n := N_of_ascii c in
  ((9 <=? n) && (n <=? 13) || (n =? 32))%N.

Definition isdigit (c : ascii) : bool :=
  let n := N_of_ascii c in ((48 <=? n) && (n <=? 57))%N.

Definition nonempty (s : string) : bool :=
  match s with EmptyString => false | String _ _ => true end.

Fixpoint lstrip_by (sp : ascii -> bool) (s : string) : string :=
  match s with
  | EmptyString => EmptyString
  | String c r => if sp c then lstrip_by sp r else s
  end.

Fixpoint rstrip_by (sp : ascii -> bool) (s : string) : string :=
  match s with
  | EmptyString => EmptyString
  | String c r =>
      let r' := rstrip_by sp r in
      if sp c && negb (nonempty r') then EmptyString else String c r'
  end.

(** [s.strip()] *)
Definition strip (s : string) : string := rstrip_by isspace (lstrip_by isspace s).

(** [s.startswith(p)] *)
Fixpoint startswith (p s : string) : bool :=
  match p, s with
  | EmptyString, _ => true
  | String a p', String b s' => Ascii.eqb a b && startswith p' s'
  | String _ _, EmptyString => false
  end.

(** [s.split(sep)] for a one-character separator: never empty. *)
Fixpoint split (sep : ascii) (s : string) : list string :=
  match s with
  | EmptyString => [EmptyString]
  | String c r =>
      if Ascii.eqb c sep then EmptyString :: split sep r
      else match split sep r with
           | h :: t => String c h :: t
           | [] => [String c EmptyString]
           end
  end.

(** The digit part of an integer literal: decimal digits, single
    underscores allowed between two digits.  Returns the digits with the
    underscores removed. *)
Fixpoint digit_part (after_digit : bool) (s : string) : option string :=
  match s with
  | EmptyString => if after_digit then Some EmptyString else None
  | String c r =>
      if isdigit c then String c <$> digit_part true r
      else if Ascii.eqb c "_" then
        if after_digit then digit_part false r else None
      else None
  end.

(** [int(s)]: [None] stands for [ValueError]. *)
Definition int (s : string) : option Z :=
  let s1 := lstrip_by isspace_c s in
  let '(neg, s2) :=
    match s1 with
    | String "-" r => (true, r)
    | String "+" r => (false, r)
    | _ => (false, s1)
    end in
  ds ← digit_part false (rstrip_by isspace_c s2);
  d ← NilEmpty.uint_of_string ds;
  Some (if neg then - Z.of_N (N.of_uint d) else Z.of_N (N.of_uint d)).

Fixpoint zeros (n : nat) : string :=
  match n with O => EmptyString | S k => String "0" (zeros k) end.

Definition decimal (n : N) : string := NilEmpty.string_of_uint (N.to_uint n).

(** [f"{z:0Wd}"]: sign, then zeros up to the width, then the digits. *)
Definition format_0d (width : nat) (z : Z) : string :=
  let ds := decimal (Z.abs_N z) in
  let sign := if z <? 0 then "-" else "" in
  sign +:+ zeros (width - String.length sign - String.length ds) +:+ ds.

(** Code-point order of two strings, as [ORDER BY] uses on a text column. *)
Definition str_le (a b : string) : bool :=
  match String.compare a b with Gt => false | _ => true end.

(** The string is made of decimal digits. *)
Fixpoint digits_only (s : string) : bool :=
  match s with
  | EmptyString => true
  | String c r => isdigit c && digits_only r
  end.

(** The character [sep] does not occur in the string. *)
Fixpoint lacks (sep : ascii) (s : string) : bool :=
  match s with
  | EmptyString => true
  | String c r => negb (Ascii.eqb c sep) && lacks sep r
  end.

End Py.

(** ** Exceptions, and values of dynamic type *)

Inductive exn :=
| IntegrityError
| ValueError
| AttributeError
| Http404.

Inductive result (A : Type) :=
| Ok (a : A)
| Raise (e : exn).
Arguments Ok {A} a.
Arguments Raise {A} e.

#[export] Instance result_ret : MRet result := fun A a => Ok a.
#[export] Instance result_bind : MBind result :=
  fun A B f m => match m with Ok a => f a | Raise e => Raise e end.

(** A SIM-card sub-record and the values a device-data bag can hold. *)
Inductive jvalue :=
| JStr (s : string)
| JBool (b : bool)
| JList (l : list (gmap string string)).

#[export] Instance jvalue_eq_dec : EqDecision jvalue.
Proof. solve_decision. Defined.

(** ** Form submissions *)

(** [request.POST] is a [QueryDict]: every key holds the list of the values
    submitted under it.  The same functions can be handed a plain [dict]. *)
Inductive pyobj :=
| QueryDict (q : gmap string (list string))
| Dict (d : gmap string jvalue).

Module Form.

(** [q.get(key)]: the last value, [None] when the key is missing. *)
Definition get (q : gmap string (list string)) (key : string) : option string :=
  q !! key ≫= last.

(** [q.get(key, default)] *)
Definition get_or (q : gmap string (list string)) (key fallback : string) : string :=
  default fallback (get q key).

(** [q.getlist(key)] *)
Definition getlist (q : gmap string (list string)) (key : string) : list string :=
  default [] (q !! key).

End Form.

(** [post_data.get(field)] *)
Definition py_get (post_data : pyobj) (field : string) : option jvalue :=
  match post_data with
  | QueryDict q => JStr <$> Form.get q field
  | Dict d => d !! field
  end.

(** [post_data.getlist(key)]: a [dict] has no such attribute. *)
Definition py_getlist (post_data : pyobj) (key : string) : result (list string) :=
  match post_data with
  | QueryDict q => Ok (Form.getlist q key)
  | Dict _ => Raise AttributeError
  end.

(** Truth value of [value] in [if value and ...]. *)
Definition truthy (value : option jvalue) : bool :=
  match value with
  | None => false
  | Some (JStr s) => Py.nonempty s
  | Some (JBool b) => b
  | Some (JList l) => match l with [] => false | _ => true end
  end.

(** [value.strip()]: only a [str] has the method. *)
Definition py_strip (value : option jvalue) : result string :=
  match value with
  | Some (JStr s) => Ok (Py.strip s)
  | _ => Raise AttributeError
  end.

(** ** [views._extract_device_specific_data] *)

Definition device_specific_fields : list string :=
  [ (* Computer fields *)
    "computer_type"; "os_type"; "os_version"; "cpu"; "ram"; "storage_type";
    "storage_capacity"; "encryption_status"; "write_blocker_used";
    (* Mobile fields *)
    "mobile_os_type"; "mobile_os_version"; "sim_status"; "lock_status"; "battery_level";
    (* Storage fields *)
    "storage_device_type"; "capacity"; "connection_interface"; "filesystem";
    (* Network fields *)
    "network_device_type"; "network_ip_address"; "subnet_mask"; "admin_access_method";
    (* Cloud fields *)
    "service_provider"; "account_identifier"; "legal_authority"; "access_method";
    (* Car fields *)
    "vehicle_make"; "vehicle_model"; "vehicle_year"; "vin_number"; "license_plate"; "odometer";
    (* Video fields *)
    "video_source_type"; "camera_location"; "video_format"; "resolution"; "duration";
    "frame_rate"; "date_diff_value"; "time_diff_value";
    (* Gaming fields *)
    "console_type"; "account_username";
    (* Drone fields *)
    "drone_storage_type"; "controller_serial";
    (* IoT fields *)
    "iot_device_type"; "network_type";
    (* Memory fields *)
    "memory_type"; "system_state"; "memory_size"; "acquisition_duration" ].

(** A [for] loop whose body may raise. *)
Fixpoint for_each {A B : Type} (body : B -> A -> result B) (l : list A) (acc : B) : result B :=
  match l with
  | [] => Ok acc
  | x :: l' => acc' ← body acc x; for_each body l' acc'
  end.

(** The body of the loop over [device_specific_fields]. *)
Definition flat_field (post_data : pyobj) (device_data : gmap string jvalue)
    (field : string) : result (gmap string jvalue) :=
  let value := py_get post_data field in
  if truthy value then
    s ← py_strip value;
    if Py.nonempty s then
      if String.eqb field "write_blocker_used"
      then Ok (<[field := JBool true]> device_data)
      else Ok (<[field := JStr s]> device_data)
    else Ok device_data
  else Ok device_data.

(** [if i < len(column) and column[i].strip(): sim_card[key] = column[i].strip()] *)
Definition sim_field (i : nat) (column : list string) (key : string)
    (sim_card : gmap string string) : gmap string string :=
  match column !! i with
  | Some v => if Py.nonempty (Py.strip v) then <[key := Py.strip v]> sim_card else sim_card
  | None => sim_card
  end.

(** The parallel arrays of the SIM-card form rows. *)
Record sim_columns := SimColumns {
  sim_iccids : list string;
  sim_imsis : list string;
  sim_phone_numbers : list string;
  sim_carriers : list string;
  sim_types : list string;
  sim_pin_statuses : list string;
  sim_notes_list : list string
}.

Definition sim_columns_list (c : sim_columns) : list (list string) :=
  [sim_iccids c; sim_imsis c; sim_phone_numbers c; sim_carriers c;
   sim_types c; sim_pin_statuses c; sim_notes_list c].

(** The dictionary built for index [i]. *)
Definition sim_card_at (c : sim_columns) (i : nat) : gmap string string :=
  sim_field i (sim_notes_list c) "notes"
    (sim_field i (sim_pin_statuses c) "pin_status"
      (sim_field i (sim_types c) "sim_type"
        (sim_field i (sim_carriers c) "carrier"
          (sim_field i (sim_phone_numbers c) "phone_number"
            (sim_field i (sim_imsis c) "imsi"
              (sim_field i (sim_iccids c) "iccid" ∅)))))).

Definition list_nonempty {A : Type} (l : list A) : bool :=
  match l with [] => false | _ => true end.

Definition max_length (c : sim_columns) : nat :=
  foldr Nat.max 0%nat (length <$> sim_columns_list c).

(** [for i in range(max_length): ... if sim_card: sim_cards.append(sim_card)] *)
Definition build_sim_cards (c : sim_columns) : list (gmap string string) :=
  fold_left
    (fun sim_cards i =>
       let sim_card := sim_card_at c i in
       if bool_decide (sim_card ≠ ∅) then sim_cards ++ [sim_card] else sim_cards)
    (seq 0 (max_length c)) [].

(** The SIM part: adds ["sim_cards"] when a card survives. *)
Definition add_sim_cards (c : sim_columns) (device_data : gmap string jvalue)
    : gmap string jvalue :=
  if existsb list_nonempty (sim_columns_list c) then
    let sim_cards := build_sim_cards c in
    if list_nonempty sim_cards then <["sim_cards" := JList sim_cards]> device_data
    else device_data
  else device_data.

Definition _extract_device_specific_data (post_data : pyobj) : result (gmap string jvalue) :=
  device_data ← for_each (flat_field post_data) device_specific_fields ∅;
  iccids ← py_getlist post_data "sim_iccid[]";
  imsis ← py_getlist post_data "sim_imsi[]";
  phone_numbers ← py_getlist post_data "sim_phone_number[]";
  carriers ← py_getlist post_data "sim_carrier[]";
  types ← py_getlist post_data "sim_type[]";
  pin_statuses ← py_getlist post_data "sim_pin_status[]";
  notes_list ← py_getlist post_data "sim_notes[]";
  Ok (add_sim_cards
        (SimColumns iccids imsis phone_numbers carriers types pin_statuses notes_list)
        device_data).

(** ** The data model ([forensics/models.py]) *)

(** A reading of the clock: the calendar year and the instant within it. *)
Record datetime := DateTime { year : N; instant : Z }.

#[export] Instance datetime_eq_dec : EqDecision datetime.
Proof. solve_decision. Defined.

(** [now.strftime('%y')]: the last two digits of the year. *)
Definition strftime_y (now : datetime) : string :=
  Py.format_0d 2 (Z.of_N (year now mod 100)).

(** Rows carry the columns the identifier, custody, attribute and
    fingerprint logic reads or writes; the free-text descriptive columns
    (names of brands, notes, locations), the person links, the
    [created_at] and [updated_at] stamps and the tables of uploaded images
    and documents are left out.  A column the form may leave as [None] has
    an [option] type.  What the views do with the columns and tables left
    out (a person key that names no person, an upload that fails, the
    stamp every save moves) is outside these definitions: statements about
    a request that goes through are made for a request that was answered. *)
Record Case := mkCase {
  case_pk : string;
  case_number : string;
  case_name : option string;
  case_status : option string;
  case_priority : option string;
  case_type : string;
  prosecutor : string;
  case_department : string
}.

Record Evidence := mkEvidence {
  evidence_pk : string;
  evidence_number : string;
  case_id : option string;
  device_type : option string;
  status : option string;
  current_department : string;
  received_by : string;
  received_date : option datetime;
  seizure_date : option datetime;
  acquisition_date : option datetime;
  device_specific_data : gmap string jvalue;
  file_path : option (list byte);
  file_size : option Z;
  hash_md5 : string;
  hash_sha1 : string;
  hash_sha256 : string
}.

Record EvidenceTransfer := mkTransfer {
  evidence : string;
  from_department : string;
  to_department : string;
  transferred_by : string;
  transfer_received_by : string;
  transfer_date : datetime;
  notes : string
}.

Record DB := mkDB {
  cases : list Case;
  evidence_items : list Evidence;
  transfers : list EvidenceTransfer
}.

Definition set_cases (t : list Case) (db : DB) : DB :=
  mkDB t (evidence_items db) (transfers db).
Definition set_evidence_items (t : list Evidence) (db : DB) : DB :=
  mkDB (cases db) t (transfers db).
Definition add_transfer (r : EvidenceTransfer) (db : DB) : DB :=
  mkDB (cases db) (evidence_items db) (transfers db ++ [r]).

(** *** Tables with a primary key, a unique column and NOT NULL columns *)

Section Table.
Context {R : Type} (pk : R -> string) (ukey : R -> string) (not_null : R -> bool).

Definition find_pk (id : string) (t : list R) : option R :=
  List.find (fun r => String.eqb (pk r) id) t.

Definition pk_exists (id : string) (t : list R) : bool :=
  existsb (fun r => String.eqb (pk r) id) t.

(** Some row other than [id] holds the unique value [k]. *)
Definition taken_by_other (id k : string) (t : list R) : bool :=
  existsb (fun r => negb (String.eqb (pk r) id) && String.eqb (ukey r) k) t.

(** [INSERT]: [None] is a constraint violation. *)
Definition sql_insert (r : R) (t : list R) : option (list R) :=
  if not_null r && negb (pk_exists (pk r) t) && negb (taken_by_other (pk r) (ukey r) t)
  then Some (t ++ [r]) else None.

(** [UPDATE ... WHERE pk = r.pk] *)
Definition sql_update (r : R) (t : list R) : option (list R) :=
  if not_null r && negb (taken_by_other (pk r) (ukey r) t)
  then Some ((fun r' => if String.eqb (pk r') (pk r) then r else r') <$> t) else None.

(** [Model.save(force_insert)]: update the row when it exists, insert
    otherwise. *)
Definition model_save (force_insert : bool) (r : R) (t : list R) : option (list R) :=
  if force_insert then sql_insert r t
  else if pk_exists (pk r) t then sql_update r t else sql_insert r t.
End Table.

Definition case_not_null (c : Case) : bool :=
  bool_decide (is_Some (case_name c)) && bool_decide (is_Some (case_status c))
  && bool_decide (is_Some (case_priority c)).

Definition evidence_not_null (e : Evidence) : bool :=
  bool_decide (is_Some (device_type e)) && bool_decide (is_Some (status e)).

(** *** Requests: state, exceptions, responses *)

(** A request runs against the store and either returns or raises; what it
    wrote before raising stays written. *)
Definition M (A : Type) : Type := DB -> result A * DB.

#[export] Instance M_ret : MRet M := fun A a db => (Ok a, db).
#[export] Instance M_bind : MBind M :=
  fun A B f m db => match m db with
                    | (Ok a, db') => f a db'
                    | (Raise e, db') => (Raise e, db')
                    end.

Definition raise {A : Type} (e : exn) : M A := fun db => (Raise e, db).
Definition lift {A : Type} (r : result A) : M A := fun db => (r, db).
Definition read : M DB := fun db => (Ok db, db).

(** A [for] loop of requests' steps. *)
Fixpoint for_each_M {A B : Type} (body : B -> A -> M B) (l : list A) (acc : B) : M B :=
  match l with
  | [] => mret acc
  | x :: l' => acc' ← body acc x; for_each_M body l' acc'
  end.

(** [try: body except ...: handler] where [catches] selects the caught
    classes. *)
Definition try_except {A : Type} (body : M A) (catches : exn -> bool) (handler : M A) : M A :=
  fun db => match body db with
            | (Raise e, db') => if catches e then handler db' else (Raise e, db')
            | r => r
            end.

Inductive response :=
| Success (message : string)          (* [messages.success] and a redirect *)
| FormError (message : string)        (* [messages.error], the form again *)
| JsonResponse (success : bool) (updated : nat).

(** ** [Case.save] and the case views *)

(** [int(case.case_number.split('-')[1])]; [None] when [ValueError] or
    [IndexError] is raised. *)
Definition case_seq (number : string) : option Z :=
  Py.split "-" number !! 1%nat ≫= Py.int.

(** The body of the loop over [cases_this_year]: [try: ... except: continue]. *)
Definition scan_step (max_num : Z) (case : Case) : Z :=
  match case_seq (case_number case) with
  | Some num => if num >? max_num then num else max_num
  | None => max_num
  end.

Definition scan_max_num (cases_this_year : list Case) : Z :=
  fold_left scan_step cases_this_year 0.

(** [Case.objects.filter(case_number__startswith=f"{year}-").exclude(pk=self.pk)] *)
Definition cases_this_year (year self_pk : string) (t : list Case) : list Case :=
  List.filter
    (fun c => Py.startswith (year +:+ "-") (case_number c)
              && negb (String.eqb (case_pk c) self_pk)) t.

Definition with_case_number (n : string) (c : Case) : Case :=
  mkCase (case_pk c) n (case_name c) (case_status c) (case_priority c)
         (case_type c) (prosecutor c) (case_department c).

(** The number [Case.save] mints. *)
Definition next_case_number (now : datetime) (self_pk : string) (t : list Case) : string :=
  let year := strftime_y now in
  let max_num := scan_max_num (cases_this_year year self_pk t) in
  let next_num := max_num + 1 in
  year +:+ "-" +:+ Py.format_0d 4 next_num.

(** [super().save()] on the cases table. *)
Definition Case_super_save (force_insert : bool) (self : Case) : M Case :=
  fun db =>
    match model_save case_pk case_number case_not_null force_insert self (cases db) with
    | Some t => (Ok self, set_cases t db)
    | None => (Raise IntegrityError, db)
    end.

Definition Case_save (now : datetime) (force_insert : bool) (self : Case) : M Case :=
  db ← read;
  let self :=
    if negb (Py.nonempty (case_number self))
    then with_case_number (next_case_number now (case_pk self) (cases db)) self
    else self in
  Case_super_save force_insert self.

(** [Case.objects.create(...)], the primary key drawn by [uuid.uuid4]. *)
Definition Case_objects_create (now : datetime) (new : Case) : M Case :=
  Case_save now true new.

Definition is_IntegrityError (e : exn) : bool :=
  match e with IntegrityError => true | _ => false end.

(** [f'"{s}"'] *)
Definition quoted (s : string) : string :=
  String (ascii_of_nat 34) (s +:+ String (ascii_of_nat 34) EmptyString).

Definition case_create (now : datetime) (uuid : string) (POST : gmap string (list string))
    : M response :=
  let number := Py.strip (Form.get_or POST "case_number" "") in
  try_except
    (case ← Case_objects_create now
        (mkCase uuid
           (if Py.nonempty number then number else "")
           (Form.get POST "case_name")
           (Some (Form.get_or POST "status" "active"))
           (Some (Form.get_or POST "priority" "medium"))
           (Form.get_or POST "case_type" "")
           (Form.get_or POST "prosecutor" "")
           (Form.get_or POST "department" ""));
     mret (Success ("Case " +:+ case_number case +:+ " created successfully!")))
    is_IntegrityError
    (mret (FormError ("Case number " +:+ quoted number
                      +:+ " already exists. Please use a different case number."))).

(** [get_object_or_404(Case, pk=pk)] *)
Definition get_case_or_404 (pk : string) : M Case :=
  fun db => match find_pk case_pk pk (cases db) with
            | Some c => (Ok c, db)
            | None => (Raise Http404, db)
            end.

Definition case_update (now : datetime) (pk : string) (POST : gmap string (list string))
    : M response :=
  case ← get_case_or_404 pk;
  db ← read;
  let new_case_number := Py.strip (Form.get_or POST "case_number" "") in
  let renumber :=
    Py.nonempty new_case_number && negb (String.eqb new_case_number (case_number case)) in
  if renumber && taken_by_other case_pk case_number (case_pk case) new_case_number (cases db)
  then mret (FormError ("Case number " +:+ quoted new_case_number
                        +:+ " already exists. Please choose a different number."))
  else
    _ ← Case_save now false
          (mkCase (case_pk case)
             (if renumber then new_case_number else case_number case)
             (Form.get POST "case_name")
             (Form.get POST "status")
             (Form.get POST "priority")
             (Form.get_or POST "case_type" "")
             (Form.get_or POST "prosecutor" "")
             (Form.get_or POST "department" ""));
    mret (Success "Case updated successfully!").

(** ** [Evidence.save] and the evidence views *)

Section Evidence.

(** [hashlib]'s hexadecimal digests and [django.utils.dateparse.parse_datetime]
    (which returns [None] for text that is not a date and raises
    [ValueError] for an impossible one). *)
Variables md5 sha1 sha256 : list byte -> string.
Variable parse_datetime : string -> result (option datetime).

Definition with_fingerprint (content : list byte) (e : Evidence) : Evidence :=
  mkEvidence (evidence_pk e) (evidence_number e) (case_id e) (device_type e) (status e)
    (current_department e) (received_by e) (received_date e) (seizure_date e)
    (acquisition_date e) (device_specific_data e) (file_path e)
    (Some (Z.of_nat (length content)))
    (md5 content) (sha1 content) (sha256 content).

(** The fingerprinting step at the head of [Evidence.save]. *)
Definition fingerprint (self : Evidence) : Evidence :=
  match file_path self with
  | Some content =>
      if negb (Py.nonempty (hash_md5 self)) then with_fingerprint content self else self
  | None => self
  end.

Definition Evidence_super_save (force_insert : bool) (self : Evidence) : M Evidence :=
  fun db =>
    match model_save evidence_pk evidence_number evidence_not_null force_insert self
            (evidence_items db) with
    | Some t => (Ok self, set_evidence_items t db)
    | None => (Raise IntegrityError, db)
    end.

Definition Evidence_save (force_insert : bool) (self : Evidence) : M Evidence :=
  Evidence_super_save force_insert (fingerprint self).

Definition Evidence_objects_create (new : Evidence) : M Evidence :=
  Evidence_save true new.

(** [EvidenceTransfer.objects.create(...)]: rows are only ever appended. *)
Definition EvidenceTransfer_objects_create (now : datetime) (e : Evidence)
    (from_dept to_dept note : string) : M unit :=
  fun db => (Ok (), add_transfer
               (mkTransfer (evidence_pk e) from_dept to_dept "" (received_by e) now note) db).

Definition get_evidence_or_404 (pk : string) : M Evidence :=
  fun db => match find_pk evidence_pk pk (evidence_items db) with
            | Some e => (Ok e, db)
            | None => (Raise Http404, db)
            end.

Definition with_department (d : string) (e : Evidence) : Evidence :=
  mkEvidence (evidence_pk e) (evidence_number e) (case_id e) (device_type e) (status e)
    d (received_by e) (received_date e) (seizure_date e)
    (acquisition_date e) (device_specific_data e) (file_path e) (file_size e)
    (hash_md5 e) (hash_sha1 e) (hash_sha256 e).

Definition with_received_by (p : string) (e : Evidence) : Evidence :=
  mkEvidence (evidence_pk e) (evidence_number e) (case_id e) (device_type e) (status e)
    (current_department e) p (received_date e) (seizure_date e)
    (acquisition_date e) (device_specific_data e) (file_path e) (file_size e)
    (hash_md5 e) (hash_sha1 e) (hash_sha256 e).

Definition with_received_date (d : option datetime) (e : Evidence) : Evidence :=
  mkEvidence (evidence_pk e) (evidence_number e) (case_id e) (device_type e) (status e)
    (current_department e) (received_by e) d (seizure_date e)
    (acquisition_date e) (device_specific_data e) (file_path e) (file_size e)
    (hash_md5 e) (hash_sha1 e) (hash_sha256 e).

Definition with_status (s : option string) (e : Evidence) : Evidence :=
  mkEvidence (evidence_pk e) (evidence_number e) (case_id e) (device_type e) s
    (current_department e) (received_by e) (received_date e) (seizure_date e)
    (acquisition_date e) (device_specific_data e) (file_path e) (file_size e)
    (hash_md5 e) (hash_sha1 e) (hash_sha256 e).

(** The AJAX view: the JSON body carries [field] and [value], both
    strings here (a body without [value], or with [null], is not covered). *)
Definition evidence_quick_update_department (now : datetime) (pk field value : string)
    : M response :=
  evidence ← get_evidence_or_404 pk;
  evidence ←
    (if String.eqb field "current_department" then
       let old_department := current_department evidence in
       let evidence := with_department value evidence in
       _ ← (if negb (String.eqb old_department value)
            then EvidenceTransfer_objects_create now evidence old_department value
                   "Quick update from location search"
            else mret ());
       mret evidence
     else if String.eqb field "received_by" then mret (with_received_by value evidence)
     else mret evidence);
  _ ← Evidence_save false evidence;
  mret (JsonResponse true 0).

(** One turn of the loop of [evidence_bulk_update]; a missing id is
    skipped ([except Evidence.DoesNotExist: continue]).  The ids are keys
    and [value] is a string (an id that is no key, and a body without
    [value], are not covered). *)
Definition bulk_update_one (now : datetime) (action value : string)
    (updated_count : nat) (evidence_id : string) : M nat :=
  db ← read;
  match find_pk evidence_pk evidence_id (evidence_items db) with
  | None => mret updated_count
  | Some evidence =>
      let old_department := current_department evidence in
      evidence ←
        (if String.eqb action "department" then
           let evidence := with_department value evidence in
           let evidence :=
             match received_date evidence with
             | None => with_received_date (Some now) evidence
             | Some _ => evidence
             end in
           _ ← (if negb (String.eqb old_department value)
                then EvidenceTransfer_objects_create now evidence old_department value
                       "Bulk department assignment"
                else mret ());
           mret evidence
         else if String.eqb action "status" then mret (with_status (Some value) evidence)
         else mret evidence);
      _ ← Evidence_save false evidence;
      mret (S updated_count)
  end.

Definition evidence_bulk_update (now : datetime) (evidence_ids : list string)
    (action value : string) : M response :=
  updated_count ← for_each_M (bulk_update_one now action value) evidence_ids 0%nat;
  mret (JsonResponse true updated_count).

(** [queryset.order_by('-evidence_number').first()], as the number of
    the row found: the greatest one in code-point order. *)
Definition greatest (numbers : list string) : option string :=
  fold_left
    (fun best n =>
       match best with
       | Some b => if Py.str_le b n then Some n else Some b
       | None => Some n
       end)
    numbers None.

(** [int(number.split('-')[-1]) + 1], or 1 when that raises or no row was
    found. *)
Definition next_num_after (found : option string) : Z :=
  match found with
  | Some number =>
      match last (Py.split "-" number) ≫= Py.int with
      | Some last_num => last_num + 1
      | None => 1
      end
  | None => 1
  end.

(** [Evidence.objects.filter(case=case, evidence_number__startswith=case.case_number)] *)
Definition case_evidence_numbers (case : Case) (t : list Evidence) : list string :=
  evidence_number <$>
    List.filter
      (fun e => bool_decide (case_id e = Some (case_pk case))
                && Py.startswith (case_number case) (evidence_number e)) t.

(** [Evidence.objects.filter(evidence_number__startswith=f"{year}-UNASSIGNED-")] *)
Definition unassigned_numbers (year : string) (t : list Evidence) : list string :=
  evidence_number <$>
    List.filter (fun e => Py.startswith (year +:+ "-UNASSIGNED-") (evidence_number e)) t.

Definition str_truthy (v : option string) : bool :=
  match v with Some s => Py.nonempty s | None => false end.

(** The auto-generation block of [evidence_create]; [None] is the early
    return on [Case.DoesNotExist]. *)
Definition auto_evidence_number (now : datetime) (case_ref : option string) (db : DB)
    : option string :=
  if str_truthy case_ref then
    match find_pk case_pk (default "" case_ref) (cases db) with
    | None => None
    | Some case =>
        let case_evidence := greatest (case_evidence_numbers case (evidence_items db)) in
        let next_num := next_num_after case_evidence in
        Some (case_number case +:+ "-" +:+ Py.format_0d 3 next_num)
    end
  else
    let year := strftime_y now in
    let unassigned_evidence := greatest (unassigned_numbers year (evidence_items db)) in
    let next_num := next_num_after unassigned_evidence in
    Some (year +:+ "-UNASSIGNED-" +:+ Py.format_0d 3 next_num).

Definition parse_date_field (POST : gmap string (list string)) (field_name : string)
    : result (option datetime) :=
  let value := Py.strip (Form.get_or POST field_name "") in
  if Py.nonempty value then parse_datetime value else Ok None.

Definition invalid_case : string :=
  "Invalid case selected. Please choose a valid case from the dropdown.".

(** The instance [evidence_create] hands to [Evidence.objects.create], on
    the columns the rows carry. *)
Definition created_evidence (now : datetime) (uuid number : string)
    (POST : gmap string (list string)) (device_data : gmap string jvalue)
    (received seizure acquisition : option datetime) : Evidence :=
  let case_ref := Form.get POST "case" in
  let department := Form.get_or POST "current_department" "" in
  let received :=
    match received with
    | None => if Py.nonempty department then Some now else None
    | Some d => Some d
    end in
  mkEvidence uuid number
    (if str_truthy case_ref then case_ref else None)
    (Some (Form.get_or POST "device_type" "other"))
    (Some (Form.get_or POST "status" "collected"))
    department
    (Form.get_or POST "received_by" "")
    received seizure acquisition device_data
    None None "" "" "".

(** The [POST] branch of [evidence_create], on the three tables.  The
    error answer carries the fixed part of the message (the code appends the
    text of the exception caught). *)
Definition evidence_create (now : datetime) (uuid : string)
    (POST : gmap string (list string)) : M response :=
  let number := Py.strip (Form.get_or POST "evidence_number" "") in
  let case_ref := Form.get POST "case" in
  db ← read;
  match (if negb (Py.nonempty number) then auto_evidence_number now case_ref db
         else Some number) with
  | None => mret (FormError invalid_case)
  | Some number =>
      device_data ← lift (_extract_device_specific_data (QueryDict POST));
      received ← lift (parse_date_field POST "received_date");
      seizure ← lift (parse_date_field POST "seizure_date");
      acquisition ← lift (parse_date_field POST "acquisition_date");
      if str_truthy case_ref && negb (pk_exists case_pk (default "" case_ref) (cases db))
      then mret (FormError invalid_case)
      else
        try_except
          (evidence ← Evidence_objects_create
              (created_evidence now uuid number POST device_data
                 received seizure acquisition);
           _ ← (if Py.nonempty (current_department evidence)
                then EvidenceTransfer_objects_create now evidence ""
                       (current_department evidence) "Initial evidence creation"
                else mret ());
           mret (Success ("Evidence " +:+ evidence_number evidence
                          +:+ " added successfully!")))
          (fun _ => true)
          (mret (FormError "Error creating evidence"))
  end.

(** The instance after the assignments of [evidence_update]. *)
Definition updated_evidence (now : datetime) (evidence : Evidence)
    (POST : gmap string (list string)) (device_data : gmap string jvalue)
    (received seizure acquisition : option datetime) : Evidence :=
  let case_ref := Form.get POST "case" in
  let number := Py.strip (Form.get_or POST "evidence_number" "") in
  let old_department := current_department evidence in
  let new_department := Form.get_or POST "current_department" "" in
  let received :=
    match received with
    | Some d => Some d
    | None =>
        if Py.nonempty new_department && negb (String.eqb old_department new_department)
        then Some now
        else if negb (Py.nonempty new_department) then None
        else received_date evidence
    end in
  mkEvidence (evidence_pk evidence)
    (if Py.nonempty number then number else evidence_number evidence)
    (if str_truthy case_ref then case_ref else None)
    (Form.get POST "device_type")
    (Form.get POST "status")
    new_department
    (Form.get_or POST "received_by" "")
    received seizure acquisition device_data
    (file_path evidence) (file_size evidence)
    (hash_md5 evidence) (hash_sha1 evidence) (hash_sha256 evidence).

Definition evidence_update (now : datetime) (pk : string)
    (POST : gmap string (list string)) : M response :=
  evidence ← get_evidence_or_404 pk;
  device_data ← lift (_extract_device_specific_data (QueryDict POST));
  let case_ref := Form.get POST "case" in
  db ← read;
  if str_truthy case_ref && negb (pk_exists case_pk (default "" case_ref) (cases db))
  then mret (FormError invalid_case)
  else
    let old_department := current_department evidence in
    let new_department := Form.get_or POST "current_department" "" in
    received ← lift (parse_date_field POST "received_date");
    seizure ← lift (parse_date_field POST "seizure_date");
    acquisition ← lift (parse_date_field POST "acquisition_date");
    evidence ← Evidence_save false
      (updated_evidence now evidence POST device_data received seizure acquisition);
    _ ← (if negb (String.eqb old_department new_department)
         then EvidenceTransfer_objects_create now evidence old_department new_department
                "Evidence update"
         else mret ());
    mret (Success "Evidence updated successfully!").

End Evidence.

(** ** Vocabulary of the statements *)

(** [m] is the greatest sequence number read off the case numbers of [t]
    that start with [year-], and 0 when none can be read. *)
Definition is_max_seq (year : string) (t : list Case) (m : Z) : Prop :=
  0 <= m
  /\ (forall c k, c ∈ t -> Py.startswith (year +:+ "-") (case_number c) = true ->
                  case_seq (case_number c) = Some k -> k <= m)
  /\ (m = 0 \/ exists c, c ∈ t /\ Py.startswith (year +:+ "-") (case_number c) = true
                         /\ case_seq (case_number c) = Some m).

(** Cases created one after the other, each with a blank number. *)
Definition create_cases (now : datetime) (news : list Case) : M (list Case) :=
  for_each_M
    (fun created new => case ← Case_objects_create now new; mret (created ++ [case]))
    news [].

Definition blank_case (c : Case) : Prop :=
  case_number c = "" /\ case_not_null c = true.

(** ** Sample data *)

Definition now25 : datetime := DateTime 2025 0.

Definition sample_case (pk number : string) : Case :=
  mkCase pk number (Some "Case") (Some "active") (Some "medium") "" "" "".

(** A store whose 2025 numbers cannot be read as [YY-NNNN]. *)
Definition db_malformed : DB :=
  mkDB [sample_case "c1" "25-abc"; sample_case "c2" "25-"; sample_case "c3" "24-0100"] [] [].

Definition sample_evidence (pk number : string) (case_ref : option string) (dept : string)
    : Evidence :=
  mkEvidence pk number case_ref (Some "mobile") (Some "collected") dept "" None None None
    ∅ None None "" "" "".

Definition case_25_0008 : Case := sample_case "c8" "25-0008".

(** Case 25-0008 with no evidence yet. *)
Definition db_case8 : DB := mkDB [case_25_0008] [] [].

(** Case 25-0008 holding the generated item 001 and an item the operator
    numbered by hand. *)
Definition db_case8_manual : DB :=
  mkDB [case_25_0008]
       [sample_evidence "e1" "25-0008-001" (Some "c8") "";
        sample_evidence "e2" "25-0008-x" (Some "c8") ""]
       [].

(** The form of a new evidence item for case 25-0008, number left blank. *)
Definition post_case8 : gmap string (list string) :=
  {[ "case" := ["c8"]; "device_type" := ["mobile"] ]}.

(** ** The attribute bag of a form *)

(** What the flat loop stores under [field]: the trimmed value when it is
    not blank, [True] for the write-blocker checkbox. *)
Definition flat_value (q : gmap string (list string)) (field : string) : option jvalue :=
  v ← Form.get q field;
  if Py.nonempty (Py.strip v)
  then Some (if String.eqb field "write_blocker_used" then JBool true else JStr (Py.strip v))
  else None.

Definition flat_put (q : gmap string (list string)) (device_data : gmap string jvalue)
    (field : string) : gmap string jvalue :=
  match flat_value q field with
  | Some v => <[field := v]> device_data
  | None => device_data
  end.

Definition form_columns (q : gmap string (list string)) : sim_columns :=
  SimColumns (Form.getlist q "sim_iccid[]") (Form.getlist q "sim_imsi[]")
    (Form.getlist q "sim_phone_number[]") (Form.getlist q "sim_carrier[]")
    (Form.getlist q "sim_type[]") (Form.getlist q "sim_pin_status[]")
    (Form.getlist q "sim_notes[]").

(** The bag [_extract_device_specific_data] returns for a form. *)
Definition extract_form (q : gmap string (list string)) : gmap string jvalue :=
  add_sim_cards (form_columns q) (fold_left (flat_put q) device_specific_fields ∅).

(** The column of the SIM form a sub-record key is filled from. *)
Definition sim_column (c : sim_columns) (key : string) : option (list string) :=
  if String.eqb key "iccid" then Some (sim_iccids c)
  else if String.eqb key "imsi" then Some (sim_imsis c)
  else if String.eqb key "phone_number" then Some (sim_phone_numbers c)
  else if String.eqb key "carrier" then Some (sim_carriers c)
  else if String.eqb key "sim_type" then Some (sim_types c)
  else if String.eqb key "pin_status" then Some (sim_pin_statuses c)
  else if String.eqb key "notes" then Some (sim_notes_list c)
  else None.

(** The value of a column at an index, trimmed, when it is there and not
    blank. *)
Definition sim_value (column : list string) (i : nat) : option string :=
  v ← column !! i; if Py.nonempty (Py.strip v) then Some (Py.strip v) else None.

(** The sub-records of all indices below the longest column, the empty ones
    dropped. *)
Definition surviving_cards (c : sim_columns) : list (gmap string string) :=
  List.filter (fun m => bool_decide (m ≠ ∅)) (sim_card_at c <$> seq 0 (max_length c)).

(** The form of the specification's example for a mobile device. *)
Definition post_mobile : gmap string (list string) :=
  {[ "device_type" := ["mobile"]; "os_type" := [" iOS "]; "cpu" := ["x86"];
     "unknown_key" := ["x"] ]}.

(** The SIM rows of the specification's example. *)
Definition post_two_sims : gmap string (list string) :=
  {[ "sim_iccid[]" := ["A"; "B"]; "sim_imsi[]" := ["X"] ]}.

(** *** Submitting a bag again *)

(** The keys of a SIM-card sub-record. *)
Definition sim_keys : list string :=
  ["iccid"; "imsi"; "phone_number"; "carrier"; "sim_type"; "pin_status"; "notes"].

(** The form values that submit a stored value again: a text as itself, the
    checkbox as the browser sends it when ticked. *)
Definition form_value (v : jvalue) : option (list string) :=
  match v with
  | JStr s => Some [s]
  | JBool true => Some ["on"]
  | _ => None
  end.

Definition bag_cards (d : gmap string jvalue) : list (gmap string string) :=
  match d !! "sim_cards" with
  | Some (JList l) => l
  | _ => []
  end.

(** One column of the SIM form rows: the field of each card, blank when the
    card lacks it. *)
Definition card_column (key : string) (cards : list (gmap string string)) : list string :=
  (fun card => default "" (card !! key)) <$> cards.

Definition columns_of (cards : list (gmap string string)) : sim_columns :=
  SimColumns (card_column "iccid" cards) (card_column "imsi" cards)
    (card_column "phone_number" cards) (card_column "carrier" cards)
    (card_column "sim_type" cards) (card_column "pin_status" cards)
    (card_column "notes" cards).

(** The form that submits the bag [d] again. *)
Definition resubmit (d : gmap string jvalue) : gmap string (list string) :=
  let cards := bag_cards d in
  <["sim_iccid[]" := card_column "iccid" cards]>
    (<["sim_imsi[]" := card_column "imsi" cards]>
      (<["sim_phone_number[]" := card_column "phone_number" cards]>
        (<["sim_carrier[]" := card_column "carrier" cards]>
          (<["sim_type[]" := card_column "sim_type" cards]>
            (<["sim_pin_status[]" := card_column "pin_status" cards]>
              (<["sim_notes[]" := card_column "notes" cards]>
                (omap form_value d))))))).

(** A sub-record as the function builds them: not empty, its keys among
    the seven, its values trimmed and not blank. *)
Definition card_ok (m : gmap string string) : Prop :=
  m <> ∅
  /\ forall key v, m !! key = Some v ->
       key ∈ sim_keys /\ Py.strip v = v /\ Py.nonempty v = true.

(** ** Custody *)

(** The ledger of an evidence item, oldest row first. *)
Definition ledger (pk : string) (db : DB) : list EvidenceTransfer :=
  List.filter (fun r => String.eqb (evidence r) pk) (transfers db).

(** Where the ledger says the item is: the destination of its most recent
    row, nowhere when it has none. *)
Definition last_to_department (pk : string) (db : DB) : string :=
  match last (ledger pk db) with
  | Some r => to_department r
  | None => ""
  end.

Definition custody_consistent (db : DB) : Prop :=
  forall e, e ∈ evidence_items db ->
    current_department e = last_to_department (evidence_pk e) db.

(** The constraints the database keeps on the evidence and transfer tables:
    evidence numbers are unique, the required columns are filled, and a
    transfer row references a stored item. *)
Definition store_ok (db : DB) : Prop :=
  (forall e1 e2, e1 ∈ evidence_items db -> e2 ∈ evidence_items db ->
     evidence_number e1 = evidence_number e2 -> evidence_pk e1 = evidence_pk e2)
  /\ Forall (fun e => evidence_not_null e = true) (evidence_items db)
  /\ Forall (fun r => pk_exists evidence_pk (evidence r) (evidence_items db) = true)
       (transfers db).

(** The ledger row [evidence_update] logs. *)
Definition update_rows (now : datetime) (e : Evidence) (POST : gmap string (list string))
    : list EvidenceTransfer :=
  let new_department := Form.get_or POST "current_department" "" in
  if String.eqb (current_department e) new_department then []
  else [mkTransfer (evidence_pk e) (current_department e) new_department ""
          (Form.get_or POST "received_by" "") now "Evidence update"].

(** The ledger row the quick update logs. *)
Definition quick_rows (now : datetime) (e : Evidence) (value : string)
    : list EvidenceTransfer :=
  if String.eqb (current_department e) value then []
  else [mkTransfer (evidence_pk e) (current_department e) value ""
          (received_by e) now "Quick update from location search"].

(** The ledger row the bulk department action logs for an item. *)
Definition bulk_rows (now : datetime) (e : Evidence) (value : string)
    : list EvidenceTransfer :=
  if String.eqb (current_department e) value then []
  else [mkTransfer (evidence_pk e) (current_department e) value ""
          (received_by e) now "Bulk department assignment"].

(** The item after the bulk department action. *)
Definition bulk_assigned (now : datetime) (value : string) (e : Evidence) : Evidence :=
  match received_date e with
  | None => with_received_date (Some now) (with_department value e)
  | Some _ => with_department value e
  end.

Definition in_order (db : DB) : Prop := store_ok db /\ custody_consistent db.

(** The requests that set an item's department, the ledger row each one
    logs when the department changes. *)
Inductive custody_request :=
| Create (now : datetime) (uuid : string) (POST : gmap string (list string))
| QuickUpdate (now : datetime) (pk field value : string)
| Update (now : datetime) (pk : string) (POST : gmap string (list string))
| BulkUpdate (now : datetime) (evidence_ids : list string) (action value : string).

Section Requests.
Variables md5 sha1 sha256 : list byte -> string.
Variable parse_datetime : string -> result (option datetime).

Definition serve (r : custody_request) : M response :=
  match r with
  | Create now uuid POST => evidence_create md5 sha1 sha256 parse_datetime now uuid POST
  | QuickUpdate now pk field value =>
      evidence_quick_update_department md5 sha1 sha256 now pk field value
  | Update now pk POST => evidence_update md5 sha1 sha256 parse_datetime now pk POST
  | BulkUpdate now ids action value =>
      evidence_bulk_update md5 sha1 sha256 now ids action value
  end.

(** The store after serving the requests one after the other. *)
Definition serve_all (rs : list custody_request) (db : DB) : DB :=
  fold_left (fun db r => (serve r db).2) rs db.

(** Attaching content to a stored item: the file field is assigned and the
    row saved, as the REST serializer does on an upload. *)
Definition with_file_path (f : option (list byte)) (e : Evidence) : Evidence :=
  mkEvidence (evidence_pk e) (evidence_number e) (case_id e) (device_type e) (status e)
    (current_department e) (received_by e) (received_date e) (seizure_date e)
    (acquisition_date e) (device_specific_data e) f (file_size e)
    (hash_md5 e) (hash_sha1 e) (hash_sha256 e).

Definition attach_content (pk : string) (content : list byte) : M Evidence :=
  evidence ← get_evidence_or_404 pk;
  Evidence_save md5 sha1 sha256 false (with_file_path (Some content) evidence).

End Requests.

(** ** More sample data *)

(** Digest functions that are right on the empty file, the only content the
    samples attach first, and a date reader for forms without dates. *)
Definition empty_md5 (_ : list byte) : string := "d41d8cd98f00b204e9800998ecf8427e".
Definition empty_sha1 (_ : list byte) : string := "da39a3ee5e6b4b0d3255bfef95601890afd80709".
Definition empty_sha256 (_ : list byte) : string :=
  "e3b0c44298fc1c149afbf4c8996fb92427ae41e4649b934ca495991b7852b855".
Definition no_dates (_ : string) : result (option datetime) := Ok None.

(** A new item for case 25-0008, handed to department [ar]. *)
Definition post_case8_ar : gmap string (list string) :=
  {[ "case" := ["c8"]; "device_type" := ["mobile"]; "current_department" := ["ar"] ]}.

(** The store after that item is created. *)
Definition db_item_ar : DB :=
  serve_all empty_md5 empty_sha1 empty_sha256 no_dates
    [Create now25 "e1" post_case8_ar] db_case8.

(** The item as stored by that creation. *)
Definition sample_evidence_ar : Evidence :=
  mkEvidence "e1" "25-0008-001" (Some "c8") (Some "mobile") (Some "collected") "ar" ""
    (Some now25) None None ∅ None None "" "" "".

(** A new item for case 25-0008 with an operating system and two SIM cards. *)
Definition post_full : gmap string (list string) :=
  {[ "case" := ["c8"]; "device_type" := ["mobile"]; "os_type" := [" iOS "];
     "sim_iccid[]" := ["A"; "B"]; "sim_imsi[]" := ["X"] ]}.

(** The store after that item is created. *)
Definition db_item_full : DB :=
  serve_all empty_md5 empty_sha1 empty_sha256 no_dates [Create now25 "e1" post_full] db_case8.

(** An edit form that submits none of the device attributes. *)
Definition post_bare : gmap string (list string) :=
  {[ "case" := ["c8"]; "device_type" := ["mobile"]; "status" := ["collected"] ]}.

(** Forms that type a number already in use. *)
Definition post_case_taken : gmap string (list string) :=
  {[ "case_number" := [" 24-0100 "]; "case_name" := ["Case"];
     "status" := ["active"]; "priority" := ["medium"] ]}.

Definition post_evidence_taken : gmap string (list string) :=
  {[ "evidence_number" := ["25-0008-001"]; "case" := ["c8"];
     "device_type" := ["mobile"]; "status" := ["collected"] ]}.


(** ** Deleting records, and the read-only views *)

(** [Model.delete()] removes the row of the primary key. *)
Definition sql_delete {R : Type} (pk : R -> string) (id : string) (t : list R) : list R :=
  List.filter (fun r => negb (String.eqb (pk r) id)) t.

Definition with_case_id (c : option string) (e : Evidence) : Evidence :=
  mkEvidence (evidence_pk e) (evidence_number e) c (device_type e) (status e)
    (current_department e) (received_by e) (received_date e) (seizure_date e)
    (acquisition_date e) (device_specific_data e) (file_path e) (file_size e)
    (hash_md5 e) (hash_sha1 e) (hash_sha256 e).

(** [on_delete=SET_NULL] of [Evidence.case]: the items of the deleted case
    lose their case and nothing else. *)
Definition unbind_case (id : string) (e : Evidence) : Evidence :=
  if bool_decide (case_id e = Some id) then with_case_id None e else e.

(** [case.delete()] on the three tables. *)
Definition Case_delete (self : Case) : M unit :=
  fun db => (Ok (), mkDB (sql_delete case_pk (case_pk self) (cases db))
                         (unbind_case (case_pk self) <$> evidence_items db)
                         (transfers db)).

(** [evidence.delete()]: [on_delete=CASCADE] of [EvidenceTransfer.evidence]
    takes the ledger rows of the item with it. *)
Definition Evidence_delete (self : Evidence) : M unit :=
  fun db => (Ok (), mkDB (cases db)
                         (sql_delete evidence_pk (evidence_pk self) (evidence_items db))
                         (sql_delete evidence (evidence_pk self) (transfers db))).

(** The [POST] branch of [case_delete]. *)
Definition case_delete (pk : string) : M response :=
  case ← get_case_or_404 pk;
  let number := case_number case in
  _ ← Case_delete case;
  mret (Success ("Case " +:+ number +:+ " deleted successfully!")).

(** The [POST] branch of [evidence_delete].  The case of the item is read
    for the redirect only; the foreign key makes that read total. *)
Definition evidence_delete (pk : string) : M response :=
  evidence ← get_evidence_or_404 pk;
  let number := evidence_number evidence in
  _ ← Evidence_delete evidence;
  mret (Success ("Evidence " +:+ number +:+ " deleted successfully!")).

(** [check_case_number]: the [exists] field of the JSON answer. *)
Definition check_case_number (GET : gmap string (list string)) : M bool :=
  let number := Py.strip (Form.get_or GET "case_number" "") in
  if negb (Py.nonempty number) then mret false
  else
    db ← read;
    mret (existsb (fun c => String.eqb (case_number c) number) (cases db)).

(** The department filter of [evidence_location_search]:
    [unassigned] selects the items held by no department. *)
Definition filter_by_location (department : option string) (items : list Evidence)
    : list Evidence :=
  if str_truthy department then
    if String.eqb (default "" department) "unassigned"
    then List.filter (fun e => String.eqb (current_department e) "") items
    else List.filter (fun e => String.eqb (current_department e) (default "" department)) items
  else items.

(** [[imei.strip() for imei in additional_imeis if imei.strip()]] *)
Definition clean_imeis (additional_imeis : list string) : list string :=
  Py.strip <$> List.filter (fun imei => Py.nonempty (Py.strip imei)) additional_imeis.

(** ** Vocabulary of the further statements *)

(** The ledger row [evidence_create] logs for the new item. *)
Definition created_rows (now : datetime) (e : Evidence) : list EvidenceTransfer :=
  if Py.nonempty (current_department e)
  then [mkTransfer (evidence_pk e) "" (current_department e) "" (received_by e) now
          "Initial evidence creation"]
  else [].

(** A form whose three date fields can be read. *)
Definition dates_readable (parse_datetime : string -> result (option datetime))
    (POST : gmap string (list string)) : Prop :=
  (exists d, parse_date_field parse_datetime POST "received_date" = Ok d)
  /\ (exists d, parse_date_field parse_datetime POST "seizure_date" = Ok d)
  /\ (exists d, parse_date_field parse_datetime POST "acquisition_date" = Ok d).

(** A creation form for case [pk] that leaves the evidence number blank. *)
Definition auto_form (parse_datetime : string -> result (option datetime))
    (pk : string) (POST : gmap string (list string)) : Prop :=
  Form.get POST "case" = Some pk
  /\ Py.strip (Form.get_or POST "evidence_number" "") = ""
  /\ dates_readable parse_datetime POST.

Definition auto_create (parse_datetime : string -> result (option datetime))
    (pk : string) (r : custody_request) : Prop :=
  match r with
  | Create _ _ POST => auto_form parse_datetime pk POST
  | _ => False
  end.

Definition request_uuid (r : custody_request) : string :=
  match r with
  | Create _ uuid _ => uuid
  | _ => ""
  end.

(** The [k]-th generated number under a prefix. *)
Definition minted (prefix : string) (k : nat) : string :=
  prefix +:+ "-" +:+ Py.format_0d 3 (Z.of_nat k).

(** ** Sample data of the further statements *)



(** The number of case 25-0008 typed again for a new case, and a new item
    for that case. *)
Definition post_retyped : gmap string (list string) :=
  {[ "case_number" := ["25-0008"]; "case_name" := ["Case"] ]}.

Definition post_case9 : gmap string (list string) :=
  {[ "case" := ["c9"]; "device_type" := ["mobile"] ]}.

(** Case 25-0008 deleted with one item stored, and its number given to a
    new case. *)
Definition db_renumbered : DB :=
  (case_create now25 "c9" post_retyped (case_delete "c8" db_item_ar).2).2.

(** A form that leaves the case number blank. *)
Definition post_unnumbered : gmap string (list string) := {[ "case_name" := ["Case"] ]}.

(** ** The bulk action *)

(** The item one turn of the bulk loop saves, and the ledger rows it logs. *)
Definition bulk_changed (now : datetime) (action value : string) (e : Evidence) : Evidence :=
  if String.eqb action "department" then bulk_assigned now value e
  else if String.eqb action "status" then with_status (Some value) e
  else e.

Definition bulk_logged (now : datetime) (action value : string) (e : Evidence)
    : list EvidenceTransfer :=
  if String.eqb action "department" then bulk_rows now e value else [].

(** The ids of a request that name a stored item, repeats included. *)
Definition stored_ids (ids : list string) (db : DB) : list string :=
  List.filter (fun id => pk_exists evidence_pk id (evidence_items db)) ids.

(** A second item for case 25-0008, in no department. *)
Definition db_two_items : DB :=
  serve_all empty_md5 empty_sha1 empty_sha256 no_dates
    [Create now25 "e1" post_case8_ar; Create now25 "e2" post_case8] db_case8.

(** An edit form for a case that types the number 25-0009. *)
Definition post_renumber : gmap string (list string) :=
  {[ "case_number" := ["25-0009"]; "case_name" := ["Case"]; "status" := ["active"];
     "priority" := ["high"] ]}.

(** A creation form that names no case and leaves the evidence number
    blank. *)
Definition unbound_form (parse_datetime : string -> result (option datetime))
    (POST : gmap string (list string)) : Prop :=
  str_truthy (Form.get POST "case") = false
  /\ Py.strip (Form.get_or POST "evidence_number" "") = ""
  /\ dates_readable parse_datetime POST.

(** Such a creation, made in the year [yy]. *)
Definition unbound_create (parse_datetime : string -> result (option datetime))
    (yy : string) (r : custody_request) : Prop :=
  match r with
  | Create now _ POST => strftime_y now = yy /\ unbound_form parse_datetime POST
  | _ => False
  end.

(** A new item that names no case. *)
Definition post_unbound : gmap string (list string) := {[ "device_type" := ["usb"] ]}.

(** ** The file type of an uploaded document *)

Module PyPath.

(** [s.rfind(c)] scanning from index [i]: the index of the last [c], [found]
    when there is none. *)
Fixpoint rfind_from (c : ascii) (s : string) (i found : Z) : Z :=
  match s with
  | EmptyString => found
  | String a r => rfind_from c r (i + 1) (if Ascii.eqb a c then i else found)
  end.

(** [s.rfind(c)]: -1 when [c] does not occur. *)
Definition rfind (c : ascii) (s : string) : Z := rfind_from c s 0 (-1).

(** [p[i:j]] for [0 <= i]. *)
Definition slice (i j : Z) (p : string) : string :=
  String.substring (Z.to_nat i) (Z.to_nat j - Z.to_nat i) p.

Fixpoint all_dots (s : string) : bool :=
  match s with
  | EmptyString => true
  | String c r => Ascii.eqb c "." && all_dots r
  end.

(** [posixpath.splitext(p)]: the extension starts at the last dot of the
    last path component, leading dots of the component not counted. *)
Definition splitext (p : string) : string * string :=
  let sepIndex := rfind "/" p in
  let dotIndex := rfind "." p in
  if dotIndex >? sepIndex then
    if all_dots (slice (sepIndex + 1) dotIndex p) then (p, "")
    else (slice 0 dotIndex p, slice dotIndex (Z.of_nat (String.length p)) p)
  else (p, "").

Definition lower_c (c : ascii) : ascii :=
  let n := N_of_ascii c in
  if ((65 <=? n) && (n <=? 90))%N then ascii_of_N (n + 32) else c.

(** [s.lower()] on ASCII. *)
Fixpoint lower (s : string) : string :=
  match s with
  | EmptyString => EmptyString
  | String c r => String (lower_c c) (lower r)
  end.

End PyPath.

(** The [file_type] that [document_upload] stores for a file name:
    [os.path.splitext(name)[1].lstrip('.').lower()], or [unknown]. *)
Definition document_file_type (name : string) : string :=
  let file_extension :=
    PyPath.lower (Py.lstrip_by (fun c => Ascii.eqb c ".") (PyPath.splitext name).2) in
  if Py.nonempty file_extension then file_extension else "unknown".

(** ** Invariants of the requests *)

(** A request keeps [I] whether it returns or raises, and what it returns
    meets [Q]. *)
Definition triple {A : Type} (I : DB -> Prop) (m : M A) (Q : A -> Prop) : Prop :=
  forall db, I db -> I (m db).2 /\ forall a, (m db).1 = Ok a -> Q a.

(** The stored file and its fingerprint. *)
Definition digests (e : Evidence)
    : option (list byte) * option Z * string * string * string :=
  (file_path e, file_size e, hash_md5 e, hash_sha1 e, hash_sha256 e).

(** Item [pk] is stored with the file and fingerprint [d]. *)
Definition holds_digests (pk : string)
    (d : option (list byte) * option Z * string * string * string) (db : DB) : Prop :=
  exists e, find_pk evidence_pk pk (evidence_items db) = Some e /\ digests e = d.

(** The ledger starts with the rows [base]. *)
Definition extends_ledger (base : list EvidenceTransfer) (db : DB) : Prop :=
  exists rows, transfers db = base ++ rows.

(** The item of the sample store with the content of an empty file
    attached. *)
Definition db_item_file : DB :=
  (attach_content empty_md5 empty_sha1 empty_sha256 "e1" [] db_item_ar).2.

Definition post_edit : gmap string (list string) :=
  {[ "case" := ["c8"]; "device_type" := ["computer"]; "status" := ["analyzed"];
     "current_department" := ["sur"] ]}.

(** Every request of the run is answered with a success message. *)
Fixpoint all_succeed (serve : custody_request -> M response) (rs : list custody_request)
    (db : DB) : Prop :=
  match rs with
  | [] => True
  | r :: rs' =>
      (exists msg, (serve r db).1 = Ok (Success msg)) /\ all_succeed serve rs' (serve r db).2
  end.

(** An edit form that leaves the item of the sample store in department
    [ar]. *)
Definition post_same : gmap string (list string) :=
  {[ "case" := ["c8"]; "device_type" := ["mobile"]; "status" := ["analyzed"];
     "current_department" := ["ar"] ]}.
(** * Properties *)

(** ** Facts about the built-ins *)

Module PyFacts.
Import Py.

Lemma append_cons c a b : String c a +:+ b = String c (a +:+ b).
Proof. reflexivity. Qed.

Lemma append_nil b : EmptyString +:+ b = b.
Proof. reflexivity. Qed.

Ltac ascii_cases c :=
  destruct c as [[] [] [] [] [] [] [] []]; try discriminate; try reflexivity.

Lemma isdigit_not_space_c c : isdigit c = true -> isspace_c c = false.
Proof. ascii_cases c. Qed.

Lemma isdigit_not_dash c : isdigit c = true -> Ascii.eqb c "-" = false.
Proof. ascii_cases c. Qed.

Lemma digits_only_lacks_dash s : digits_only s = true -> lacks "-" s = true.
Proof.
  induction s as [|c r IH]; simpl; [done|].
  intros [Hc Hr]%andb_true_iff. rewrite (isdigit_not_dash c Hc). simpl. auto.
Qed.

Lemma digits_only_app a b :
  digits_only (a +:+ b) = digits_only a && digits_only b.
Proof. induction a as [|c r IH]; simpl; [done|]. by rewrite IH, andb_assoc. Qed.

Lemma digits_only_zeros k : digits_only (zeros k) = true.
Proof. induction k; simpl; auto. Qed.

Lemma digits_only_uint d : digits_only (NilEmpty.string_of_uint d) = true.
Proof. induction d; simpl; auto. Qed.

Lemma decimal_nonempty n : nonempty (decimal n) = true.
Proof.
  unfold decimal. destruct n as [|p]; simpl; [done|].
  pose proof (DecimalPos.Unsigned.to_uint_nonnil p) as H.
  destruct (Pos.to_uint p); simpl; congruence.
Qed.

Lemma nonempty_app_r a b : nonempty b = true -> nonempty (a +:+ b) = true.
Proof. destruct a; simpl; auto. Qed.

(** *** Stripping *)

Lemma rstrip_by_idem sp s : rstrip_by sp (rstrip_by sp s) = rstrip_by sp s.
Proof.
  induction s as [|c r IH]; simpl; [done|].
  destruct (sp c && negb (nonempty (rstrip_by sp r))) eqn:E; simpl; [done|].
  by rewrite IH, E.
Qed.

Lemma lstrip_by_head sp s :
  lstrip_by sp s = EmptyString \/
  exists c r, lstrip_by sp s = String c r /\ sp c = false.
Proof.
  induction s as [|c r IH]; simpl; [by left|].
  destruct (sp c) eqn:E; [done|]. right. by exists c, r.
Qed.

Lemma strip_idem s : strip (strip s) = strip s.
Proof.
  unfold strip. destruct (lstrip_by_head isspace s) as [->|(c & r & -> & Hc)]; [done|].
  simpl. rewrite Hc. simpl. rewrite Hc. simpl. rewrite Hc. simpl.
  by rewrite rstrip_by_idem.
Qed.

Lemma strip_nonempty_sub s : nonempty (strip s) = true -> nonempty s = true.
Proof. destruct s; simpl; auto. Qed.

Lemma rstrip_digits s : digits_only s = true -> rstrip_by isspace_c s = s.
Proof.
  induction s as [|c r IH]; simpl; [done|].
  intros [Hc Hr]%andb_true_iff. rewrite (isdigit_not_space_c c Hc). simpl. by rewrite IH.
Qed.

(** *** [int] reads back what [format_0d] prints *)

Lemma digit_part_digits s : digits_only s = true -> digit_part true s = Some s.
Proof.
  induction s as [|c r IH]; simpl; [done|].
  intros [Hc Hr]%andb_true_iff. rewrite Hc, (IH Hr). done.
Qed.

Lemma int_digits c r d :
  digits_only (String c r) = true ->
  NilEmpty.uint_of_string (String c r) = Some d ->
  int (String c r) = Some (Z.of_N (N.of_uint d)).
Proof.
  intros Hd Hu. pose proof Hd as [Hc Hr]%andb_true_iff.
  unfold int. cbn [lstrip_by]. rewrite (isdigit_not_space_c c Hc).
  assert ((match String c r with
           | String "-" r0 => (true, r0)
           | String "+" r0 => (false, r0)
           | _ => (false, String c r)
           end) = (false, String c r)) as ->.
  { revert Hc. clear. ascii_cases c. }
  rewrite (rstrip_digits _ Hd). cbn [digit_part]. rewrite Hc.
  rewrite (digit_part_digits r Hr). cbn -[NilEmpty.uint_of_string N.of_uint Z.of_N].
  rewrite Hu. done.
Qed.

Lemma uint_of_zeros k d :
  exists d', NilEmpty.uint_of_string (zeros k +:+ NilEmpty.string_of_uint d) = Some d'
             /\ N.of_uint d' = N.of_uint d.
Proof.
  induction k as [|k (d' & H1 & H2)].
  - exists d. split; [apply NilEmpty.usu | done].
  - exists (Decimal.D0 d'). cbn [zeros]. rewrite append_cons.
    cbn [NilEmpty.uint_of_string]. rewrite H1. done.
Qed.

Lemma format_0d_nonneg w z :
  0 <= z ->
  format_0d w z = zeros (w - 0 - String.length (decimal (Z.to_N z))) +:+ decimal (Z.to_N z).
Proof.
  intros Hz. unfold format_0d.
  destruct (z <? 0) eqn:E; [apply Z.ltb_lt in E; lia|].
  replace (Z.abs_N z) with (Z.to_N z) by (destruct z; try done; lia). done.
Qed.

Lemma format_0d_digits w z : 0 <= z -> digits_only (format_0d w z) = true.
Proof.
  intros Hz. rewrite (format_0d_nonneg w z Hz), digits_only_app, digits_only_zeros.
  apply digits_only_uint.
Qed.

Lemma format_0d_nonempty w z : nonempty (format_0d w z) = true.
Proof.
  unfold format_0d. apply nonempty_app_r, nonempty_app_r, decimal_nonempty.
Qed.

Lemma int_format_0d w z : 0 <= z -> int (format_0d w z) = Some z.
Proof.
  intros Hz. pose proof (format_0d_digits w z Hz) as Hd.
  pose proof (format_0d_nonempty w z) as Hne.
  rewrite (format_0d_nonneg w z Hz) in *.
  destruct (uint_of_zeros (w - 0 - String.length (decimal (Z.to_N z))) (N.to_uint (Z.to_N z)))
    as (d' & H1 & H2).
  unfold decimal in *.
  destruct (zeros _ +:+ _) as [|c r] eqn:E; [done|].
  rewrite (int_digits c r d' Hd H1), H2, DecimalN.Unsigned.of_to.
  f_equal. lia.
Qed.

End PyFacts.

(** ** Case numbers *)

Section CaseNumbers.
Import Py PyFacts.

Lemma split_lacks sep s : lacks sep s = true -> split sep s = [s].
Proof.
  induction s as [|c r IH]; simpl; [done|].
  intros [Hc Hr]%andb_true_iff. apply negb_true_iff in Hc. by rewrite Hc, (IH Hr).
Qed.

Lemma split_app sep a b :
  lacks sep a = true -> split sep (a +:+ String sep b) = a :: split sep b.
Proof.
  induction a as [|c r IH]; intros H.
  - rewrite append_nil. simpl. by rewrite Ascii.eqb_refl.
  - simpl in H. apply andb_true_iff in H as [Hc Hr]. apply negb_true_iff in Hc.
    rewrite append_cons. simpl. by rewrite Hc, (IH Hr).
Qed.

Lemma startswith_app p s : startswith p (p +:+ s) = true.
Proof.
  induction p as [|c r IH]; [done|].
  rewrite append_cons. simpl. by rewrite Ascii.eqb_refl, IH.
Qed.

Lemma strftime_y_digits now : digits_only (strftime_y now) = true.
Proof. apply format_0d_digits, N2Z.is_nonneg. Qed.

(** The sequence number of a minted case number reads back. *)
Lemma case_seq_minted now k :
  0 <= k -> case_seq (strftime_y now +:+ "-" +:+ format_0d 4 k) = Some k.
Proof.
  intros Hk. unfold case_seq.
  change ("-" +:+ format_0d 4 k) with (String "-" (format_0d 4 k)).
  rewrite split_app by apply digits_only_lacks_dash, strftime_y_digits.
  rewrite split_lacks by apply digits_only_lacks_dash, format_0d_digits, Hk.
  simpl. by apply int_format_0d.
Qed.

Lemma scan_fold l m0 :
  let r := fold_left scan_step l m0 in
  m0 <= r
  /\ (forall c k, c ∈ l -> case_seq (case_number c) = Some k -> k <= r)
  /\ (r = m0 \/ exists c, c ∈ l /\ case_seq (case_number c) = Some r).
Proof.
  revert m0. induction l as [|c l IH]; intros m0; cbn [fold_left]; cbv zeta.
  - split; [lia|]. split; [|by left]. intros c k Hc. by apply elem_of_nil in Hc.
  - destruct (IH (scan_step m0 c)) as (H1 & H2 & H3).
    assert (m0 <= scan_step m0 c) as Hle.
    { unfold scan_step. destruct (case_seq _) as [num|]; [|lia].
      pose proof (Zgt_cases num m0). destruct (num >? m0); lia. }
    split; [lia|]. split.
    + intros c' k [->|Hin]%elem_of_cons Hk; [|by eapply H2].
      assert (k <= scan_step m0 c); [|lia].
      unfold scan_step. rewrite Hk.
      pose proof (Zgt_cases k m0). destruct (k >? m0); lia.
    + destruct H3 as [H3|(c' & Hin & Hc')].
      * assert (scan_step m0 c = m0 \/ case_seq (case_number c) = Some (scan_step m0 c))
          as [E|E].
        { unfold scan_step. destruct (case_seq (case_number c)) as [num|]; [|by left].
          destruct (num >? m0); auto. }
        -- left. congruence.
        -- right. exists c. split; [left|]. congruence.
      * right. exists c'. split; [by right|done].
Qed.

Lemma elem_of_cases_this_year year pk t c :
  c ∈ cases_this_year year pk t <->
  c ∈ t /\ startswith (year +:+ "-") (case_number c) = true /\ case_pk c <> pk.
Proof.
  unfold cases_this_year. rewrite list_elem_of_In, filter_In, <- list_elem_of_In.
  rewrite andb_true_iff, negb_true_iff, String.eqb_neq. tauto.
Qed.

Lemma pk_exists_false {R} (pk : R -> string) id t :
  pk_exists pk id t = false <-> forall r, r ∈ t -> pk r <> id.
Proof.
  unfold pk_exists. induction t as [|r t IH]; simpl.
  - split; [|done]. intros _ r Hr. by apply elem_of_nil in Hr.
  - rewrite orb_false_iff, IH, String.eqb_neq. split.
    + intros [H1 H2] r' [->|Hin]%elem_of_cons; auto.
    + intros H. split; [apply H; left|intros r' Hr'; apply H; by right].
Qed.

Lemma taken_by_other_false {R} (pk ukey : R -> string) id k t :
  taken_by_other pk ukey id k t = false <->
  forall r, r ∈ t -> pk r <> id -> ukey r <> k.
Proof.
  unfold taken_by_other. induction t as [|r t IH]; simpl.
  - split; [|done]. intros _ r Hr. by apply elem_of_nil in Hr.
  - rewrite orb_false_iff, IH, andb_false_iff, negb_false_iff, String.eqb_eq, String.eqb_neq.
    split.
    + intros [H1 H2] r' [->|Hin]%elem_of_cons Hne; [|by apply H2].
      destruct H1; [done|done].
    + intros H. split; [|intros r' Hr'; apply H; by right].
      destruct (decide (pk r = id)); [by left|right]. apply H; [left|done].
Qed.

(** What the scan of [Case.save] computes, for a case not yet stored. *)
Lemma scan_is_max year pk t :
  pk_exists case_pk pk t = false ->
  is_max_seq year t (scan_max_num (cases_this_year year pk t)).
Proof.
  intros Hpk. rewrite pk_exists_false in Hpk.
  destruct (scan_fold (cases_this_year year pk t) 0) as (H1 & H2 & H3).
  fold (scan_max_num (cases_this_year year pk t)) in H1, H2, H3.
  split; [done|]. split.
  - intros c k Hin Hpre Hk. apply (H2 c k); [|done].
    apply elem_of_cases_this_year. auto.
  - destruct H3 as [?|(c & Hin & Hc)]; [by left|right].
    apply elem_of_cases_this_year in Hin as (? & ? & ?). by exists c.
Qed.

Lemma is_max_seq_unique year t m1 m2 :
  is_max_seq year t m1 -> is_max_seq year t m2 -> m1 = m2.
Proof.
  intros (P1 & U1 & W1) (P2 & U2 & W2).
  assert (m1 <= m2).
  { destruct W1 as [->|(c & ? & ? & ?)]; [done|]. by apply (U2 c). }
  assert (m2 <= m1).
  { destruct W2 as [->|(c & ? & ? & ?)]; [done|]. by apply (U1 c). }
  lia.
Qed.

Lemma case_not_null_with_number n c :
  case_not_null (with_case_number n c) = case_not_null c.
Proof. reflexivity. Qed.

(** One creation with a blank number: the insert goes through, and the
    maximum moves up by one. *)
Lemma create_blank_case now new db m :
  is_max_seq (strftime_y now) (cases db) m ->
  blank_case new ->
  pk_exists case_pk (case_pk new) (cases db) = false ->
  let new' := with_case_number (strftime_y now +:+ "-" +:+ format_0d 4 (m + 1)) new in
  Case_objects_create now new db = (Ok new', set_cases (cases db ++ [new']) db)
  /\ is_max_seq (strftime_y now) (cases db ++ [new']) (m + 1).
Proof.
  intros Hm [Hblank Hnn] Hpk new'.
  pose proof (is_max_seq_unique _ _ _ _ (scan_is_max (strftime_y now) _ _ Hpk) Hm) as Hscan.
  destruct Hm as (Hpos & Hub & Hw).
  assert (case_seq (case_number new') = Some (m + 1)) as Hseq
    by (apply case_seq_minted; lia).
  assert (startswith (strftime_y now +:+ "-") (case_number new') = true) as Hpre.
  { unfold new'. cbn [case_number with_case_number].
    change (strftime_y now +:+ "-" +:+ format_0d 4 (m + 1))
      with (strftime_y now +:+ String "-" (format_0d 4 (m + 1))).
    change (strftime_y now +:+ "-") with (strftime_y now +:+ String "-" EmptyString).
    generalize (strftime_y now). intros y. induction y as [|c r IH]; simpl.
    - done.
    - by rewrite Ascii.eqb_refl. }
  split.
  - unfold Case_objects_create, Case_save, read, Case_super_save, mbind, M_bind.
    cbv beta iota. rewrite Hblank. cbn [nonempty negb].
    unfold next_case_number. cbv zeta. rewrite Hscan. fold new'.
    unfold model_save, sql_insert.
    change (case_not_null new') with (case_not_null new). rewrite Hnn.
    change (case_pk new') with (case_pk new). rewrite Hpk.
    assert (taken_by_other case_pk case_number (case_pk new) (case_number new') (cases db)
            = false) as ->; [|done].
    apply taken_by_other_false. intros r Hr _ Heq.
    rewrite <- Heq in Hseq, Hpre. specialize (Hub r _ Hr Hpre Hseq). lia.
  - split; [lia|]. split.
    + intros c k [Hin| ->%list_elem_of_singleton]%elem_of_app Hc Hk.
      * specialize (Hub c k Hin Hc Hk). lia.
      * rewrite Hseq in Hk. injection Hk. lia.
    + right. exists new'. split; [|done]. apply elem_of_app. right. by left.
Qed.

Lemma create_cases_from now news : forall db m acc,
  is_max_seq (strftime_y now) (cases db) m ->
  Forall blank_case news ->
  NoDup (case_pk <$> news) ->
  Forall (fun c => pk_exists case_pk (case_pk c) (cases db) = false) news ->
  exists created,
    for_each_M
      (fun created new => case ← Case_objects_create now new; mret (created ++ [case]))
      news acc db
    = (Ok (acc ++ created), set_cases (cases db ++ created) db)
    /\ case_number <$> created
       = (fun k => strftime_y now +:+ "-" +:+ format_0d 4 (m + Z.of_nat k))
           <$> seq 1 (length news)
    /\ case_pk <$> created = case_pk <$> news.
Proof.
  induction news as [|new news IH]; intros db m acc Hm Hblank Hnd Hfresh.
  - exists []. rewrite !app_nil_r. destruct db. done.
  - apply Forall_cons in Hblank as [Hb Hblank]. apply Forall_cons in Hfresh as [Hf Hfresh].
    rewrite fmap_cons in Hnd. apply NoDup_cons in Hnd as [Hnotin Hnd].
    destruct (create_blank_case now new db m Hm Hb Hf) as [Hrun Hm'].
    set (new' := with_case_number (strftime_y now +:+ "-" +:+ format_0d 4 (m + 1)) new) in *.
    destruct (IH (set_cases (cases db ++ [new']) db) (m + 1) (acc ++ [new']) Hm' Hblank Hnd)
      as (created & Hrest & Hnums & Hpks).
    { apply Forall_forall. intros c Hc. cbn [cases set_cases].
      apply pk_exists_false. intros r [Hr| ->%list_elem_of_singleton]%elem_of_app.
      - rewrite Forall_forall in Hfresh. specialize (Hfresh c Hc).
        rewrite pk_exists_false in Hfresh. by apply Hfresh.
      - change (case_pk new') with (case_pk new). intros Heq. apply Hnotin.
        rewrite Heq. by apply list_elem_of_fmap_2. }
    exists (new' :: created). split; [|split].
    + cbn [for_each_M]. unfold mbind, M_bind, mret, M_ret in Hrest |- *.
      cbv beta. rewrite Hrun. cbv beta iota.
      rewrite Hrest. cbn [cases set_cases evidence_items transfers].
      by rewrite <- !app_assoc.
    + cbn [length seq fmap list_fmap]. rewrite Hnums. f_equal.
      rewrite <- (fmap_S_seq 1), <- list_fmap_compose. apply list_fmap_ext.
      intros _ k _. cbn. do 3 f_equal. lia.
    + rewrite !fmap_cons. by rewrite Hpks.
Qed.

Lemma minted_inj now (a b : Z) :
  0 <= a -> 0 <= b ->
  strftime_y now +:+ "-" +:+ format_0d 4 a = strftime_y now +:+ "-" +:+ format_0d 4 b ->
  a = b.
Proof.
  intros Ha Hb Heq. pose proof (case_seq_minted now a Ha) as H.
  rewrite Heq, (case_seq_minted now b Hb) in H. congruence.
Qed.

End CaseNumbers.

(** C1.  Saving a new case whose number is blank gives it the number
    [YY-NNNN], where [NNNN] is one more than the greatest integer read from
    the second [-]-separated segment of the stored case numbers that start
    with [YY-] (0 when none can be read), printed with at least four digits;
    the insert goes through.  Hence [N] creations in a row get the [N]
    distinct numbers that follow the maximum, and [YY-0001], [YY-0002], ...
    when the stored numbers with that prefix are all malformed. *)
Theorem case_number_generation (now : datetime) (db : DB) :
  exists m,
    is_max_seq (strftime_y now) (cases db) m
    /\ ((forall c, c ∈ cases db ->
           Py.startswith (strftime_y now +:+ "-") (case_number c) = true ->
           case_seq (case_number c) = None) -> m = 0)
    /\ (forall new,
          blank_case new ->
          pk_exists case_pk (case_pk new) (cases db) = false ->
          let new' :=
            with_case_number (strftime_y now +:+ "-" +:+ Py.format_0d 4 (m + 1)) new in
          Case_objects_create now new db = (Ok new', set_cases (cases db ++ [new']) db))
    /\ (forall news,
          Forall blank_case news ->
          NoDup (case_pk <$> news) ->
          Forall (fun c => pk_exists case_pk (case_pk c) (cases db) = false) news ->
          exists created,
            create_cases now news db = (Ok created, set_cases (cases db ++ created) db)
            /\ case_pk <$> created = case_pk <$> news
            /\ case_number <$> created
               = (fun k => strftime_y now +:+ "-" +:+ Py.format_0d 4 (m + Z.of_nat k))
                   <$> seq 1 (length news)
            /\ NoDup (case_number <$> created)).
Proof.
  destruct (scan_fold (List.filter
              (fun c => Py.startswith (strftime_y now +:+ "-") (case_number c)) (cases db)) 0)
    as (H1 & H2 & H3).
  set (m' := fold_left scan_step _ 0) in *.
  assert (is_max_seq (strftime_y now) (cases db) m') as Hm.
  { split; [done|]. split.
    - intros c k Hin Hpre Hk. apply (H2 c k); [|done].
      apply list_elem_of_In, filter_In. by rewrite <- list_elem_of_In.
    - destruct H3 as [?|(c & Hin & Hc)]; [by left|right].
      apply list_elem_of_In, filter_In in Hin as [Hin ?]. apply list_elem_of_In in Hin.
      by exists c. }
  exists m'. split; [done|]. split; [|split].
  - intros Hnone. destruct Hm as (_ & _ & [?|(c & Hin & Hpre & Hc)]); [done|].
    rewrite (Hnone c Hin Hpre) in Hc. done.
  - intros new Hb Hf. by apply create_blank_case.
  - intros news Hb Hnd Hf.
    destruct (create_cases_from now news db m' [] Hm Hb Hnd Hf) as (created & Hrun & Hnums & Hpks).
    exists created. split; [done|]. split; [done|]. split; [done|].
    rewrite Hnums. apply NoDup_fmap_2_strong; [|apply NoDup_ListNoDup, List.seq_NoDup].
    intros a b _ _ Heq. destruct Hm as (Hpos & _).
    apply minted_inj in Heq; lia.
Qed.

Lemma case_number_generation_witness :
  exists created,
    create_cases now25 [sample_case "n1" ""; sample_case "n2" ""] db_malformed
    = (Ok created, set_cases (cases db_malformed ++ created) db_malformed)
    /\ case_number <$> created = ["25-0001"; "25-0002"].
Proof.
  destruct (case_number_generation now25 db_malformed) as (m & _ & Hzero & _ & Hseq).
  assert (m = 0) as ->.
  { apply Hzero. intros c Hc Hpre.
    repeat (apply elem_of_cons in Hc as [->|Hc]; [vm_compute in Hpre |- *; congruence|]).
    by apply elem_of_nil in Hc. }
  destruct (Hseq [sample_case "n1" ""; sample_case "n2" ""]) as (created & Hrun & _ & Hnums & _).
  - repeat constructor.
  - compute_done.
  - repeat constructor.
  - exists created. split; [exact Hrun|exact Hnums].
Defined.

(** ** Evidence numbers *)

(** First and second item of case 25-0008: 25-0008-001, then 25-0008-002. *)
Lemma evidence_number_scenario md5 sha1 sha256 parse_datetime :
  let create := evidence_create md5 sha1 sha256 parse_datetime now25 in
  exists db1 db2,
    create "e1" post_case8 db_case8
      = (Ok (Success "Evidence 25-0008-001 added successfully!"), db1)
    /\ create "e2" post_case8 db1
      = (Ok (Success "Evidence 25-0008-002 added successfully!"), db2)
    /\ evidence_number <$> evidence_items db2 = ["25-0008-001"; "25-0008-002"].
Proof. do 2 eexists. split; [|split]; vm_compute; reflexivity. Qed.

(** C2, at the input where the code departs from it.  With the items
    25-0008-001 and 25-0008-x stored for case 25-0008, the row the code reads
    is 25-0008-x, the greatest in text order; its suffix is no integer, so
    the counter restarts at 1 and the number minted is 25-0008-001, which is
    taken: the creation is refused and nothing is stored.  The greatest
    integer suffix in the scope is 1. *)
Theorem evidence_number_restarts md5 sha1 sha256 parse_datetime :
  greatest (case_evidence_numbers case_25_0008 (evidence_items db_case8_manual))
    = Some "25-0008-x"
  /\ auto_evidence_number now25 (Some "c8") db_case8_manual = Some "25-0008-001"
  /\ evidence_create md5 sha1 sha256 parse_datetime now25 "e3" post_case8 db_case8_manual
     = (Ok (FormError "Error creating evidence"), db_case8_manual)
  /\ (last (Py.split "-" "25-0008-001") ≫= Py.int) = Some 1
  /\ (last (Py.split "-" "25-0008-x") ≫= Py.int) = None.
Proof. repeat split; vm_compute; reflexivity. Qed.

(** ** Tables *)

Section TableFacts.
Context {R : Type} (pk ukey : R -> string) (not_null : R -> bool).

Lemma pk_exists_true id (t : list R) :
  pk_exists pk id t = true <-> exists r, r ∈ t /\ pk r = id.
Proof.
  unfold pk_exists. rewrite existsb_exists. split.
  - intros (r & Hin & Heq). exists r. by rewrite list_elem_of_In, <- String.eqb_eq.
  - intros (r & Hin & Heq). exists r. by rewrite <- list_elem_of_In, String.eqb_eq.
Qed.

Lemma find_pk_Some id (t : list R) r :
  find_pk pk id t = Some r -> r ∈ t /\ pk r = id.
Proof.
  unfold find_pk. intros H. apply find_some in H as [Hin Heq].
  by rewrite list_elem_of_In, <- String.eqb_eq.
Qed.

Lemma find_pk_exists id (t : list R) r :
  find_pk pk id t = Some r -> pk_exists pk id t = true.
Proof.
  intros [Hin Heq]%find_pk_Some. apply pk_exists_true. by exists r.
Qed.

Lemma pk_exists_find id (t : list R) :
  pk_exists pk id t = true <-> is_Some (find_pk pk id t).
Proof.
  split; [|intros [r Hr]; by eapply find_pk_exists].
  unfold pk_exists, find_pk. induction t as [|x t IH]; simpl; [done|].
  destruct (String.eqb (pk x) id); simpl; [by eexists|apply IH].
Qed.

Lemma find_pk_app_fresh id (t : list R) r :
  pk_exists pk (pk r) t = false ->
  find_pk pk id (t ++ [r]) = if String.eqb (pk r) id then Some r else find_pk pk id t.
Proof.
  unfold pk_exists, find_pk. induction t as [|x t IH]; simpl.
  - intros _. by destruct (String.eqb (pk r) id).
  - intros [Hx Ht]%orb_false_iff. destruct (String.eqb (pk x) id) eqn:E.
    + apply String.eqb_eq in E. apply String.eqb_neq in Hx.
      assert (pk r <> id) as Hne by congruence.
      apply String.eqb_neq in Hne. by rewrite Hne.
    + by apply IH.
Qed.

Lemma find_pk_replace id (t : list R) r :
  find_pk pk id ((fun x => if String.eqb (pk x) (pk r) then r else x) <$> t)
  = if String.eqb (pk r) id then (if pk_exists pk id t then Some r else None)
    else find_pk pk id t.
Proof.
  unfold pk_exists, find_pk. destruct (String.eqb (pk r) id) eqn:Er.
  - apply String.eqb_eq in Er. subst id.
    induction t as [|x t IH]; [done|]. cbn [fmap list_fmap find existsb].
    destruct (String.eqb (pk x) (pk r)) eqn:Exr; cbn [orb].
    + by rewrite String.eqb_refl.
    + rewrite Exr. apply IH.
  - induction t as [|x t IH]; [done|]. cbn [fmap list_fmap find].
    destruct (String.eqb (pk x) (pk r)) eqn:Exr.
    + rewrite Er. apply String.eqb_eq in Exr. rewrite Exr, Er. apply IH.
    + destruct (String.eqb (pk x) id); [done|apply IH].
Qed.

Lemma elem_of_replace (t : list R) r x :
  x ∈ (fun x => if String.eqb (pk x) (pk r) then r else x) <$> t <->
  (x = r /\ pk_exists pk (pk r) t = true) \/ (x ∈ t /\ pk x <> pk r).
Proof.
  rewrite list_elem_of_fmap, pk_exists_true. split.
  - intros (y & -> & Hy). destruct (String.eqb (pk y) (pk r)) eqn:E.
    + left. split; [done|]. exists y. by apply String.eqb_eq in E.
    + right. by apply String.eqb_neq in E.
  - intros [(-> & y & Hy & Heq)|(Hin & Hne)].
    + exists y. apply String.eqb_eq in Heq. by rewrite Heq.
    + exists x. apply String.eqb_neq in Hne. by rewrite Hne.
Qed.

(** The row a successful [save] wrote can be read back, and the other rows
    are as before. *)
Lemma model_save_find fi r (t t' : list R) id :
  model_save pk ukey not_null fi r t = Some t' ->
  find_pk pk id t' = if String.eqb (pk r) id then Some r else find_pk pk id t.
Proof.
  unfold model_save, sql_insert, sql_update. intros H.
  destruct fi; [|destruct (pk_exists pk (pk r) t) eqn:Epk].
  - destruct (not_null r && negb (pk_exists pk (pk r) t) && _) eqn:E; [|done].
    injection H as <-. apply andb_true_iff in E as [[_ E]%andb_true_iff _].
    apply negb_true_iff in E. by apply find_pk_app_fresh.
  - destruct (not_null r && _); [|done]. injection H as <-.
    rewrite find_pk_replace. destruct (String.eqb (pk r) id) eqn:E; [|done].
    apply String.eqb_eq in E. subst id. by rewrite Epk.
  - destruct (not_null r && negb false && _); [|done].
    injection H as <-. by apply find_pk_app_fresh.
Qed.

Lemma model_save_elem fi r (t t' : list R) x :
  model_save pk ukey not_null fi r t = Some t' ->
  x ∈ t' <-> x = r \/ (x ∈ t /\ pk x <> pk r).
Proof.
  unfold model_save, sql_insert, sql_update. intros H.
  assert (pk_exists pk (pk r) t = false -> x ∈ t ++ [r] <-> x = r ∨ x ∈ t ∧ pk x ≠ pk r)
    as Hins.
  { intros Hf. rewrite pk_exists_false in Hf. rewrite elem_of_app, list_elem_of_singleton.
    split; [intros [?|?]; [right; split; auto|by left]|intros [?|[? ?]]; auto]. }
  destruct fi; [|destruct (pk_exists pk (pk r) t) eqn:Epk].
  - destruct (not_null r && negb (pk_exists pk (pk r) t) && _) eqn:E; [|done].
    injection H as <-. apply andb_true_iff in E as [[_ E]%andb_true_iff _].
    apply negb_true_iff in E. by apply Hins.
  - destruct (not_null r && _); [|done]. injection H as <-.
    rewrite elem_of_replace, Epk.
    split; [intros [[? _]|?]; [by left|by right]|intros [?|?]; [by left|by right]].
  - destruct (not_null r && negb false && _); [|done].
    injection H as <-. by apply Hins.
Qed.

(** What [save] checks. *)
Lemma model_save_Some fi r (t t' : list R) :
  model_save pk ukey not_null fi r t = Some t' ->
  not_null r = true /\ taken_by_other pk ukey (pk r) (ukey r) t = false.
Proof.
  unfold model_save, sql_insert, sql_update. intros H.
  destruct fi; [|destruct (pk_exists pk (pk r) t)].
  - destruct (not_null r); [|done]. destruct (pk_exists pk (pk r) t); [done|].
    destruct (taken_by_other pk ukey (pk r) (ukey r) t); done.
  - destruct (not_null r); [|done].
    destruct (taken_by_other pk ukey (pk r) (ukey r) t); done.
  - destruct (not_null r); [|done].
    destruct (taken_by_other pk ukey (pk r) (ukey r) t); done.
Qed.

(** Updating a stored row succeeds when its constraints hold. *)
Lemma model_save_update r (t : list R) :
  pk_exists pk (pk r) t = true ->
  not_null r = true ->
  taken_by_other pk ukey (pk r) (ukey r) t = false ->
  model_save pk ukey not_null false r t
  = Some ((fun x => if String.eqb (pk x) (pk r) then r else x) <$> t).
Proof.
  intros H1 H2 H3. unfold model_save, sql_update. by rewrite H1, H2, H3.
Qed.

(** A unique value that is held by another row refuses the save. *)
Lemma model_save_taken fi r (t : list R) :
  taken_by_other pk ukey (pk r) (ukey r) t = true ->
  model_save pk ukey not_null fi r t = None.
Proof.
  intros H. unfold model_save, sql_insert, sql_update. rewrite H.
  rewrite !andb_false_r. by destruct fi, (pk_exists pk (pk r) t).
Qed.

End TableFacts.

(** ** The attribute bag of a form *)

Section FormBag.
Import Py PyFacts.
Implicit Types q : gmap string (list string).

Lemma flat_field_form q acc field :
  flat_field (QueryDict q) acc field = Ok (flat_put q acc field).
Proof.
  unfold flat_field, flat_put, flat_value, py_get, py_strip, truthy.
  destruct (Form.get q field) as [v|]; cbn; [|done].
  destruct (nonempty v) eqn:Ev.
  - cbn. destruct (nonempty (strip v)); [|done].
    by destruct (String.eqb field "write_blocker_used").
  - destruct v; [|done]. done.
Qed.

Lemma for_each_flat_form q fields acc :
  for_each (flat_field (QueryDict q)) fields acc = Ok (fold_left (flat_put q) fields acc).
Proof.
  revert acc. induction fields as [|f fields IH]; intros acc; [done|].
  cbn [for_each fold_left]. rewrite flat_field_form. cbn. apply IH.
Qed.

(** On a form the function returns, and what it returns is [extract_form]. *)
Lemma extract_form_ok q :
  _extract_device_specific_data (QueryDict q) = Ok (extract_form q).
Proof.
  unfold _extract_device_specific_data. rewrite for_each_flat_form. done.
Qed.

Lemma flat_put_lookup q acc f k :
  flat_put q acc f !! k
  = if decide (f = k) then match flat_value q k with Some v => Some v | None => acc !! k end
    else acc !! k.
Proof.
  unfold flat_put. destruct (decide (f = k)) as [->|Hne].
  - destruct (flat_value q k); [by rewrite lookup_insert_eq|done].
  - destruct (flat_value q f); [by rewrite lookup_insert_ne|done].
Qed.

(** What the flat loop leaves under each key. *)
Lemma fold_flat_put_lookup q fields acc k :
  fold_left (flat_put q) fields acc !! k
  = if bool_decide (k ∈ fields)
    then match flat_value q k with Some v => Some v | None => acc !! k end
    else acc !! k.
Proof.
  revert acc. induction fields as [|f fields IH]; intros acc; [done|].
  cbn [fold_left]. rewrite IH, flat_put_lookup.
  destruct (decide (f = k)) as [->|Hne].
  - rewrite (bool_decide_eq_true_2 (k ∈ k :: fields)) by left.
    destruct (bool_decide (k ∈ fields)); by destruct (flat_value q k).
  - destruct (bool_decide (k ∈ fields)) eqn:E.
    + apply bool_decide_eq_true in E.
      rewrite (bool_decide_eq_true_2 (k ∈ f :: fields)) by (by right). done.
    + apply bool_decide_eq_false in E.
      rewrite (bool_decide_eq_false_2 (k ∈ f :: fields)); [done|].
      intros [?|?]%elem_of_cons; congruence.
Qed.

Lemma add_sim_cards_lookup c d k :
  k <> "sim_cards" -> add_sim_cards c d !! k = d !! k.
Proof.
  intros Hne. unfold add_sim_cards. destruct (existsb _ _); [|done].
  destruct (list_nonempty _); [|done]. by rewrite lookup_insert_ne.
Qed.

Lemma fold_left_ext_in {A B : Type} (g1 g2 : B -> A -> B) l acc :
  (forall x b, x ∈ l -> g1 b x = g2 b x) -> fold_left g1 l acc = fold_left g2 l acc.
Proof.
  revert acc. induction l as [|x l IH]; intros acc H; [done|].
  cbn [fold_left]. rewrite (H x acc) by left. apply IH. intros y b Hy. apply H. by right.
Qed.

Lemma get_insert_ne q k k' vs : k <> k' -> Form.get (<[k := vs]> q) k' = Form.get q k'.
Proof. intros Hne. unfold Form.get. by rewrite lookup_insert_ne. Qed.

Lemma getlist_insert_ne q k k' vs :
  k <> k' -> Form.getlist (<[k := vs]> q) k' = Form.getlist q k'.
Proof. intros Hne. unfold Form.getlist. by rewrite lookup_insert_ne. Qed.

(** The bag does not depend on the submitted [device_type]. *)
Lemma extract_form_device_type q dt :
  extract_form (<["device_type" := dt]> q) = extract_form q.
Proof.
  unfold extract_form. f_equal.
  - unfold form_columns. by rewrite !getlist_insert_ne.
  - apply fold_left_ext_in. intros f acc Hf. unfold flat_put, flat_value.
    rewrite get_insert_ne; [done|]. intros <-. revert Hf. by compute_done.
Qed.

(** *** SIM cards *)

Lemma sim_field_lookup i column key m k :
  sim_field i column key m !! k
  = if decide (key = k)
    then match sim_value column i with Some v => Some v | None => m !! k end
    else m !! k.
Proof.
  unfold sim_field, sim_value. destruct (column !! i) as [v|]; cbn.
  - destruct (nonempty (strip v)).
    + destruct (decide (key = k)) as [->|Hne];
        [by rewrite lookup_insert_eq|by rewrite lookup_insert_ne].
    + by destruct (decide (key = k)).
  - by destruct (decide (key = k)).
Qed.

(** The sub-record of an index holds, under each of the seven keys, the
    trimmed value of that key's column when it is present and not blank,
    and nothing else. *)
Lemma sim_card_at_lookup c i key :
  sim_card_at c i !! key = sim_column c key ≫= fun column => sim_value column i.
Proof.
  unfold sim_card_at, sim_column. rewrite !sim_field_lookup, lookup_empty.
  repeat match goal with
  | |- context [decide (?a = key)] =>
      destruct (decide (a = key)) as [<-|?]; [cbn; by repeat case_match|]
  end.
  repeat match goal with
  | |- context [String.eqb key ?a] =>
      destruct (String.eqb_spec key a) as [->|?]; [done|]
  end.
  done.
Qed.

Lemma build_sim_cards_from {A : Type} (f : A -> gmap string string) l acc :
  fold_left
    (fun sim_cards i =>
       let sim_card := f i in
       if bool_decide (sim_card ≠ ∅) then sim_cards ++ [sim_card] else sim_cards)
    l acc
  = acc ++ List.filter (fun m => bool_decide (m ≠ ∅)) (f <$> l).
Proof.
  revert acc. induction l as [|x l IH]; intros acc; cbn [fold_left].
  - by rewrite app_nil_r.
  - rewrite IH. cbn [fmap list_fmap List.filter].
    destruct (bool_decide (f x ≠ ∅)); [by rewrite <- app_assoc|done].
Qed.

(** The loop zips the columns up to the longest and drops the empty
    sub-records. *)
Lemma build_sim_cards_surviving c : build_sim_cards c = surviving_cards c.
Proof. unfold build_sim_cards. by rewrite build_sim_cards_from. Qed.

Lemma max_length_bounds c :
  (forall column, column ∈ sim_columns_list c -> (length column <= max_length c)%nat)
  /\ (exists column, column ∈ sim_columns_list c /\ length column = max_length c).
Proof.
  assert (forall l : list (list string), l <> [] ->
            (forall column, column ∈ l -> (length column <= foldr Nat.max 0 (length <$> l))%nat)
            /\ (exists column, column ∈ l /\ length column = foldr Nat.max 0%nat (length <$> l)))
    as H.
  { induction l as [|x l IH]; [done|]. intros _. destruct l as [|y l].
    - cbn. split.
      + intros column ->%list_elem_of_singleton. lia.
      + exists x. split; [left|lia].
    - destruct IH as [IH1 (m & Hm & Hlen)]; [done|].
      cbn [fmap list_fmap foldr] in *. split.
      + intros column [->|Hin]%elem_of_cons; [lia|]. specialize (IH1 column Hin). lia.
      + destruct (Nat.max_dec (length x) (foldr Nat.max 0%nat (length <$> y :: l))) as [E|E].
        * exists x. split; [left|]. cbn [fmap list_fmap foldr] in E. lia.
        * exists m. split; [by right|]. cbn [fmap list_fmap foldr] in E. lia. }
  unfold max_length. by apply H.
Qed.

Lemma all_columns_empty c :
  existsb list_nonempty (sim_columns_list c) = false -> max_length c = 0%nat.
Proof.
  destruct c as [[] [] [] [] [] [] []]; cbn; try discriminate. done.
Qed.

Lemma add_sim_cards_sim c d :
  d !! "sim_cards" = None ->
  add_sim_cards c d !! "sim_cards"
  = if list_nonempty (surviving_cards c) then Some (JList (surviving_cards c)) else None.
Proof.
  intros Hd. unfold add_sim_cards. rewrite build_sim_cards_surviving.
  destruct (existsb _ _) eqn:E.
  - destruct (list_nonempty _); [by rewrite lookup_insert_eq|done].
  - unfold surviving_cards. by rewrite (all_columns_empty c E).
Qed.

End FormBag.

(** The lookups of the bag of a form. *)
Lemma flat_attributes_form (q : gmap string (list string)) :
  (forall k, k <> "sim_cards" ->
     extract_form q !! k
     = if bool_decide (k ∈ device_specific_fields) then flat_value q k else None)
  /\ extract_form q !! "sim_cards"
     = (if list_nonempty (surviving_cards (form_columns q))
        then Some (JList (surviving_cards (form_columns q))) else None).
Proof.
  split.
  - intros k Hk. unfold extract_form. rewrite add_sim_cards_lookup by done.
    rewrite fold_flat_put_lookup, lookup_empty.
    destruct (bool_decide _); [|done]. by destruct (flat_value q k).
  - unfold extract_form. apply add_sim_cards_sim.
    rewrite fold_flat_put_lookup, lookup_empty.
    by replace (bool_decide ("sim_cards" ∈ device_specific_fields)) with false
      by (symmetry; vm_compute; reflexivity).
Qed.

(** C5.  For every submitted form, the bag retains exactly the keys of the
    fixed list [device_specific_fields] whose submitted value is not blank
    after trimming; a retained text value is stored trimmed and is never
    empty (the write-blocker checkbox is stored as [True]); the result is the
    same whatever [device_type] the form carries.  For a mobile device,
    [os_type = ' iOS '], [cpu = 'x86'] and an unknown key give
    [{os_type: 'iOS', cpu: 'x86'}]. *)
Theorem flat_attributes_normalized (q : gmap string (list string)) :
  exists d,
    _extract_device_specific_data (QueryDict q) = Ok d
    /\ (forall k, k <> "sim_cards" ->
          d !! k = if bool_decide (k ∈ device_specific_fields) then flat_value q k else None)
    /\ (forall k s, k <> "sim_cards" -> d !! k = Some (JStr s) ->
          exists v, Form.get q k = Some v /\ s = Py.strip v /\ s <> "")
    /\ (forall dt, _extract_device_specific_data (QueryDict (<["device_type" := dt]> q)) = Ok d)
    /\ _extract_device_specific_data (QueryDict post_mobile)
       = Ok {[ "os_type" := JStr "iOS"; "cpu" := JStr "x86" ]}.
Proof.
  exists (extract_form q). split; [apply extract_form_ok|].
  assert (forall k, k <> "sim_cards" ->
            extract_form q !! k
            = if bool_decide (k ∈ device_specific_fields) then flat_value q k else None) as Hflat.
  { intros k Hk. unfold extract_form. rewrite add_sim_cards_lookup by done.
    rewrite fold_flat_put_lookup, lookup_empty.
    destruct (bool_decide _); [|done]. by destruct (flat_value q k). }
  split; [exact Hflat|]. split; [|split].
  - intros k s Hk Hs. rewrite (Hflat k Hk) in Hs.
    destruct (bool_decide _); [|done]. unfold flat_value in Hs.
    destruct (Form.get q k) as [v|]; [|done]. cbn in Hs.
    destruct (Py.nonempty (Py.strip v)) eqn:E; [|done].
    destruct (String.eqb k "write_blocker_used"); [done|].
    injection Hs as <-. exists v. split; [done|]. split; [done|].
    by destruct (Py.strip v).
  - intros dt. by rewrite extract_form_ok, extract_form_device_type.
  - vm_compute. reflexivity.
Qed.

(** C6.  The SIM columns are zipped by position up to the length of the
    longest one; the sub-record of an index holds, under each of the seven
    keys, the trimmed value of that key's column when the index is within
    the column and the value is not blank; an index whose sub-record is
    empty is dropped; and the bag has no [sim_cards] key when no sub-record
    survives.  With [iccid = ['A','B']] and [imsi = ['X']] the result is
    [[{iccid: 'A', imsi: 'X'}, {iccid: 'B'}]]. *)
Theorem sim_cards_zipped (q : gmap string (list string)) :
  let c := form_columns q in
  exists d,
    _extract_device_specific_data (QueryDict q) = Ok d
    /\ d !! "sim_cards"
       = (if list_nonempty (surviving_cards c) then Some (JList (surviving_cards c)) else None)
    /\ (forall column, column ∈ sim_columns_list c -> (length column <= max_length c)%nat)
    /\ (exists column, column ∈ sim_columns_list c /\ length column = max_length c)
    /\ (forall i key,
          sim_card_at c i !! key = sim_column c key ≫= fun column => sim_value column i)
    /\ (forall m, m ∈ surviving_cards c <->
          m <> ∅ /\ exists i, (i < max_length c)%nat /\ m = sim_card_at c i)
    /\ _extract_device_specific_data (QueryDict post_two_sims)
       = Ok {[ "sim_cards" :=
                 JList [ {[ "iccid" := "A"; "imsi" := "X" ]}; {[ "iccid" := "B" ]} ] ]}.
Proof.
  intros c. exists (extract_form q). split; [apply extract_form_ok|].
  split; [|split; [|split; [|split; [|split]]]].
  - unfold extract_form. apply add_sim_cards_sim.
    rewrite fold_flat_put_lookup, lookup_empty.
    by replace (bool_decide ("sim_cards" ∈ device_specific_fields)) with false
      by (symmetry; vm_compute; reflexivity).
  - apply max_length_bounds.
  - apply max_length_bounds.
  - intros i key. apply sim_card_at_lookup.
  - intros m. unfold surviving_cards.
    rewrite list_elem_of_In, filter_In, <- list_elem_of_In, list_elem_of_fmap.
    rewrite bool_decide_eq_true. split.
    + intros [(i & -> & Hi) Hne]. split; [done|]. exists i. split; [|done].
      apply list_elem_of_In, in_seq in Hi. lia.
    + intros [Hne (i & Hi & ->)]. split; [|done]. exists i. split; [done|].
      apply list_elem_of_In, in_seq. lia.
  - vm_compute. reflexivity.
Qed.

(** ** Running the normalisation again *)

Section Resubmission.
Import Py PyFacts.
Implicit Types q : gmap string (list string).
Implicit Types d : gmap string jvalue.

Lemma flat_field_dict_raises d acc f e :
  flat_field (Dict d) acc f = Raise e -> e = AttributeError.
Proof.
  unfold flat_field, py_strip. destruct (truthy _); [|done].
  destruct (py_get (Dict d) f) as [[s| |]|]; cbn; try congruence.
  destruct (nonempty (strip s)); [|done]. by destruct (String.eqb _ _).
Qed.

Lemma for_each_dict_raises d fields acc e :
  for_each (flat_field (Dict d)) fields acc = Raise e -> e = AttributeError.
Proof.
  revert acc. induction fields as [|f fields IH]; intros acc; [done|].
  cbn [for_each]. destruct (flat_field (Dict d) acc f) as [acc'|e'] eqn:E; cbn.
  - apply IH.
  - intros [= <-]. by eapply flat_field_dict_raises.
Qed.

(** Handed a plain dictionary, the function raises. *)
Lemma extract_dict_raises d :
  _extract_device_specific_data (Dict d) = Raise AttributeError.
Proof.
  unfold _extract_device_specific_data.
  destruct (for_each _ _ _) as [acc|e] eqn:E; cbn; [done|].
  by rewrite (for_each_dict_raises _ _ _ _ E).
Qed.

Lemma field_not_sim_form_key k (keys : list string) :
  k ∈ device_specific_fields ->
  keys = ["sim_iccid[]"; "sim_imsi[]"; "sim_phone_number[]"; "sim_carrier[]";
          "sim_type[]"; "sim_pin_status[]"; "sim_notes[]"; "sim_cards"] ->
  k ∉ keys.
Proof.
  intros Hk -> Hin.
  assert (forall x, x ∈ device_specific_fields ->
            x ∈ ["sim_iccid[]"; "sim_imsi[]"; "sim_phone_number[]"; "sim_carrier[]";
                 "sim_type[]"; "sim_pin_status[]"; "sim_notes[]"; "sim_cards"] -> False) as H.
  { rewrite <- Forall_forall. by compute_done. }
  by apply (H k).
Qed.

Lemma get_resubmit d k :
  k ∈ device_specific_fields ->
  Form.get (resubmit d) k = d !! k ≫= fun v => form_value v ≫= last.
Proof.
  intros Hk. pose proof (field_not_sim_form_key k _ Hk eq_refl) as Hne.
  unfold Form.get, resubmit.
  rewrite !lookup_insert_ne by (intros <-; apply Hne; repeat constructor).
  rewrite lookup_omap. by destruct (d !! k) as [v|]; [destruct (form_value v)|].
Qed.

Lemma strip_on : strip "on" = "on".
Proof. reflexivity. Qed.

Lemma flat_value_resubmit q k :
  k ∈ device_specific_fields ->
  flat_value (resubmit (extract_form q)) k = flat_value q k.
Proof.
  intros Hk. pose proof (field_not_sim_form_key k _ Hk eq_refl) as Hne.
  destruct (flat_attributes_form q) as [Hflat _].
  assert (k <> "sim_cards") as Hsim by (intros ->; apply Hne; repeat constructor).
  unfold flat_value at 1. rewrite (get_resubmit _ k Hk), (Hflat k Hsim).
  rewrite (bool_decide_eq_true_2 _ Hk). unfold flat_value.
  destruct (Form.get q k) as [v|]; [|done]. cbn.
  destruct (nonempty (strip v)) eqn:E; [|done]. cbn.
  destruct (String.eqb k "write_blocker_used") eqn:Ew; cbn.
  - reflexivity.
  - by rewrite strip_idem, E.
Qed.

Lemma form_columns_resubmit d : form_columns (resubmit d) = columns_of (bag_cards d).
Proof.
  unfold form_columns, columns_of, resubmit, Form.getlist.
  repeat (rewrite ?lookup_insert_eq; rewrite ?lookup_insert_ne by done). done.
Qed.

Lemma max_length_columns_of cards : max_length (columns_of cards) = length cards.
Proof.
  unfold max_length, columns_of, sim_columns_list, card_column.
  cbn [fmap list_fmap foldr sim_iccids sim_imsis sim_phone_numbers sim_carriers
         sim_types sim_pin_statuses sim_notes_list].
  rewrite !length_fmap. lia.
Qed.

Lemma sim_column_keys c key column :
  sim_column c key = Some column -> key ∈ sim_keys.
Proof.
  unfold sim_column, sim_keys.
  repeat match goal with
  | |- context [String.eqb key ?a] =>
      destruct (String.eqb_spec key a) as [->|?]; [intros _; repeat constructor|]
  end.
  done.
Qed.

Lemma sim_column_columns_of cards key :
  key ∈ sim_keys -> sim_column (columns_of cards) key = Some (card_column key cards).
Proof.
  unfold sim_keys. intros Hk.
  repeat (apply elem_of_cons in Hk as [->|Hk]; [done|]). by apply elem_of_nil in Hk.
Qed.

Lemma sim_card_at_columns_of cards i m :
  Forall card_ok cards -> cards !! i = Some m -> sim_card_at (columns_of cards) i = m.
Proof.
  intros Hok Hi. rewrite Forall_forall in Hok.
  destruct (Hok m) as [_ Hm]; [by eapply list_elem_of_lookup_2|].
  apply map_eq. intros key. rewrite sim_card_at_lookup.
  destruct (decide (key ∈ sim_keys)) as [Hk|Hk].
  - rewrite (sim_column_columns_of cards key Hk). cbn [mbind option_bind].
    unfold sim_value, card_column. rewrite list_lookup_fmap, Hi.
    cbn [fmap option_fmap option_map mbind option_bind].
    destruct (m !! key) as [v|] eqn:E; cbn [default].
    + destruct (Hm key v E) as (_ & Hs & Hn). change (id v) with v. by rewrite Hs, Hn.
    + reflexivity.
  - destruct (sim_column (columns_of cards) key) as [column|] eqn:E.
    + by apply sim_column_keys in E.
    + cbn. destruct (m !! key) as [v|] eqn:Ev; [|done]. by destruct (Hm key v Ev).
Qed.

Lemma filter_all {A : Type} (P : A -> bool) l :
  Forall (fun x => P x = true) l -> List.filter P l = l.
Proof.
  induction 1 as [|x l Hx _ IH]; [done|]. cbn [List.filter]. by rewrite Hx, IH.
Qed.

(** Zipping the columns of well-formed cards gives the cards back. *)
Lemma surviving_columns_of cards :
  Forall card_ok cards -> surviving_cards (columns_of cards) = cards.
Proof.
  intros Hok. unfold surviving_cards. rewrite max_length_columns_of.
  assert (sim_card_at (columns_of cards) <$> seq 0 (length cards) = cards) as ->.
  { apply list_eq. intros i. rewrite list_lookup_fmap.
    destruct (cards !! i) as [m|] eqn:Hi.
    - rewrite lookup_seq_lt by (by eapply lookup_lt_Some). cbn.
      by rewrite (sim_card_at_columns_of cards i m).
    - rewrite lookup_seq_ge; [done|]. by apply lookup_ge_None. }
  apply filter_all. eapply Forall_impl; [exact Hok|].
  intros m [Hne _]. by apply bool_decide_eq_true.
Qed.

Lemma surviving_cards_ok c : Forall card_ok (surviving_cards c).
Proof.
  apply Forall_forall. intros m Hm. unfold surviving_cards in Hm.
  apply list_elem_of_In, filter_In in Hm as [Hin Hne].
  apply bool_decide_eq_true in Hne. apply list_elem_of_In, list_elem_of_fmap in Hin
    as (i & -> & _).
  split; [done|]. intros key v. rewrite sim_card_at_lookup.
  destruct (sim_column c key) as [column|] eqn:E; [|done]. cbn.
  unfold sim_value. destruct (column !! i) as [w|]; [|done]. cbn.
  destruct (nonempty (strip w)) eqn:Ew; [|done]. intros [= <-].
  split; [by eapply sim_column_keys|]. split; [apply strip_idem|done].
Qed.

Lemma bag_cards_extract q : bag_cards (extract_form q) = surviving_cards (form_columns q).
Proof.
  destruct (flat_attributes_form q) as [_ Hsim]. unfold bag_cards. rewrite Hsim.
  by destruct (surviving_cards (form_columns q)).
Qed.

(** Submitted again as a form, the bag of a form comes out unchanged. *)
Lemma extract_form_resubmit q : extract_form (resubmit (extract_form q)) = extract_form q.
Proof.
  destruct (flat_attributes_form q) as [Hflat Hsim].
  destruct (flat_attributes_form (resubmit (extract_form q))) as [Hflat' Hsim'].
  apply map_eq. intros k. destruct (decide (k = "sim_cards")) as [->|Hk].
  - rewrite Hsim', Hsim, form_columns_resubmit, bag_cards_extract.
    by rewrite surviving_columns_of by apply surviving_cards_ok.
  - rewrite (Hflat' k Hk), (Hflat k Hk).
    destruct (bool_decide (k ∈ device_specific_fields)) eqn:E; [|done].
    apply bool_decide_eq_true in E. by apply flat_value_resubmit.
Qed.

End Resubmission.

(** Run on the bag it returned for the mobile example, the function raises. *)
Lemma normalization_rerun_raises :
  _extract_device_specific_data (QueryDict post_mobile)
  = Ok {[ "os_type" := JStr "iOS"; "cpu" := JStr "x86" ]}
  /\ _extract_device_specific_data (Dict {[ "os_type" := JStr "iOS"; "cpu" := JStr "x86" ]})
     = Raise AttributeError
  /\ _extract_device_specific_data (Dict {[ "os_type" := JStr "iOS"; "cpu" := JStr "x86" ]})
     <> Ok {[ "os_type" := JStr "iOS"; "cpu" := JStr "x86" ]}.
Proof.
  split; [vm_compute; reflexivity|]. rewrite extract_dict_raises. done.
Qed.

(** C9, as the code has it.  The bag the function returns for a form is not
    itself an input of the function (handed the dictionary it raises
    [AttributeError]); submitted again as a form (each text under its key,
    the ticked checkbox, each SIM card as one index of the seven columns
    with the fields it lacks left blank) it comes out unchanged. *)
Theorem normalization_idempotent_on_resubmission (q : gmap string (list string))
    (d : gmap string jvalue) :
  _extract_device_specific_data (QueryDict q) = Ok d ->
  _extract_device_specific_data (QueryDict (resubmit d)) = Ok d
  /\ _extract_device_specific_data (Dict d) = Raise AttributeError.
Proof.
  rewrite extract_form_ok. intros [= <-]. split; [|apply extract_dict_raises].
  by rewrite extract_form_ok, extract_form_resubmit.
Qed.

Lemma normalization_idempotent_on_resubmission_witness :
  _extract_device_specific_data (QueryDict (resubmit (extract_form post_full)))
  = Ok (extract_form post_full)
  /\ extract_form post_full
     = {[ "os_type" := JStr "iOS";
          "sim_cards" := JList [ {[ "iccid" := "A"; "imsi" := "X" ]}; {[ "iccid" := "B" ]} ] ]}.
Proof.
  split; [|vm_compute; reflexivity].
  apply (normalization_idempotent_on_resubmission post_full (extract_form post_full)).
  vm_compute. reflexivity.
Defined.

(** ** The custody ledger *)

Section Custody.
Variables md5 sha1 sha256 : list byte -> string.
Variable parse_datetime : string -> result (option datetime).

Abbreviation fp := (fingerprint md5 sha1 sha256).
Abbreviation esave := (model_save evidence_pk evidence_number evidence_not_null).

Ltac run := unfold mbind, M_bind, mret, M_ret, read, lift, raise; cbv beta.

Lemma fingerprint_keeps e :
  evidence_pk (fp e) = evidence_pk e
  /\ evidence_number (fp e) = evidence_number e
  /\ evidence_not_null (fp e) = evidence_not_null e
  /\ current_department (fp e) = current_department e
  /\ received_by (fp e) = received_by e
  /\ device_specific_data (fp e) = device_specific_data e.
Proof.
  unfold fingerprint. destruct (file_path e); [destruct (negb _)|]; done.
Qed.

(** Saving a stored row again, number unchanged, meets no constraint. *)
Lemma save_stored db e r :
  store_ok db ->
  find_pk evidence_pk (evidence_pk e) (evidence_items db) = Some e ->
  evidence_pk r = evidence_pk e ->
  evidence_number r = evidence_number e ->
  evidence_not_null r = true ->
  exists t', esave false (fp r) (evidence_items db) = Some t'.
Proof.
  intros (Huniq & _ & _) Hfind Hpk Hnum Hnn.
  destruct (fingerprint_keeps r) as (Fpk & Fnum & Fnn & _).
  eexists. apply model_save_update.
  - rewrite Fpk, Hpk. by eapply find_pk_exists.
  - by rewrite Fnn.
  - apply taken_by_other_false. intros x Hx Hne Heq. apply Hne.
    rewrite Fpk, Hpk. rewrite Fnum, Hnum in Heq.
    apply find_pk_Some in Hfind as [He _]. by apply Huniq.
Qed.

(** A save followed by ledger rows for the saved item keeps the
    constraints of the store. *)
Lemma store_step db fi r t' rows :
  store_ok db ->
  esave fi r (evidence_items db) = Some t' ->
  (forall row, row ∈ rows -> evidence row = evidence_pk r) ->
  store_ok (mkDB (cases db) t' (transfers db ++ rows)).
Proof.
  intros (Huniq & Hnn & Hfk) Hsave Hrow.
  pose proof (fun x => model_save_elem _ _ _ _ _ _ _ x Hsave) as Helem.
  pose proof (fun id => model_save_find _ _ _ _ _ _ _ id Hsave) as Hfind.
  destruct (model_save_Some _ _ _ _ _ _ _ Hsave) as [Hrnn Htaken].
  rewrite taken_by_other_false in Htaken.
  split; [|split].
  - intros x1 x2 H1 H2 Heq. cbn [evidence_items] in H1, H2.
    apply Helem in H1, H2.
    destruct H1 as [->|[H1 N1]], H2 as [->|[H2 N2]]; [done| | |by apply Huniq].
    + by destruct (Htaken x2 H2 N2).
    + by destruct (Htaken x1 H1 N1).
  - apply Forall_forall. intros x Hx. cbn [evidence_items] in Hx.
    apply Helem in Hx as [->|[Hx _]]; [done|].
    rewrite Forall_forall in Hnn. by apply Hnn.
  - cbn [transfers evidence_items]. apply Forall_app. split.
    + eapply Forall_impl; [exact Hfk|]. intros row Hex. cbn beta in Hex |- *.
      apply pk_exists_find. rewrite Hfind. apply pk_exists_find in Hex.
      by destruct (String.eqb (evidence_pk r) (evidence row)).
    + apply Forall_forall. intros row Hin. rewrite (Hrow row Hin).
      apply pk_exists_find. rewrite Hfind, String.eqb_refl. by eexists.
Qed.

(** A save followed by at most one ledger row for the saved item, whose
    destination is the saved department, keeps the store in order and the
    department in step with the ledger. *)
Lemma custody_step db fi r t' rows :
  store_ok db -> custody_consistent db ->
  esave fi r (evidence_items db) = Some t' ->
  (rows = [] /\ current_department r = last_to_department (evidence_pk r) db)
  \/ (exists row, rows = [row] /\ evidence row = evidence_pk r
                  /\ to_department row = current_department r) ->
  let db' := mkDB (cases db) t' (transfers db ++ rows) in
  store_ok db' /\ custody_consistent db'.
Proof.
  intros Hok Hcons Hsave Hrows db'.
  pose proof (fun x => model_save_elem _ _ _ _ _ _ _ x Hsave) as Helem.
  assert (forall row, row ∈ rows -> evidence row = evidence_pk r) as Hrow.
  { intros row Hin. destruct Hrows as [[-> _]|(row' & -> & ? & _)].
    - by apply elem_of_nil in Hin.
    - apply list_elem_of_singleton in Hin. by subst. }
  split; [by apply (store_step db fi r t' rows)|].
  intros x Hx. cbn [evidence_items db'] in Hx.
  unfold last_to_department, ledger. cbn [transfers db']. rewrite List.filter_app.
  apply Helem in Hx as [->|[Hx Hne]].
  - destruct Hrows as [[-> Hsame]|(row & -> & Hev & Hto)].
    + cbn [List.filter]. rewrite app_nil_r. exact Hsame.
    + cbn [List.filter]. rewrite Hev, String.eqb_refl, last_snoc. by rewrite Hto.
  - assert (List.filter (fun r0 => String.eqb (evidence r0) (evidence_pk x)) rows = [])
      as ->.
    { destruct Hrows as [[-> _]|(row & -> & Hev & _)]; [done|].
      cbn [List.filter]. rewrite Hev.
      assert (evidence_pk r <> evidence_pk x) as Hne' by congruence.
      apply String.eqb_neq in Hne'. by rewrite Hne'. }
    rewrite app_nil_r. by apply Hcons.
Qed.

(** A stored item saved again under its number, with at most one ledger
    row for it. *)
Lemma save_then db e r rows :
  in_order db ->
  find_pk evidence_pk (evidence_pk e) (evidence_items db) = Some e ->
  evidence_pk r = evidence_pk e ->
  evidence_number r = evidence_number e ->
  evidence_not_null r = true ->
  (rows = [] /\ current_department r = current_department e)
  \/ (exists row, rows = [row] /\ evidence row = evidence_pk e
                  /\ to_department row = current_department r) ->
  exists t', esave false (fp r) (evidence_items db) = Some t'
             /\ in_order (mkDB (cases db) t' (transfers db ++ rows)).
Proof.
  intros [Hok Hcons] Hfind Hpk Hnum Hnn Hrows.
  destruct (save_stored db e r Hok Hfind Hpk Hnum Hnn) as [t' Ht'].
  exists t'. split; [done|].
  destruct (fingerprint_keeps r) as (Fpk & _ & _ & Fdep & _).
  apply (custody_step db false (fp r) t' rows Hok Hcons Ht').
  rewrite Fpk, Fdep, Hpk. destruct Hrows as [[-> Hdep]|(row & -> & ? & ?)].
  - left. split; [done|]. rewrite Hdep. apply Hcons.
    by apply find_pk_Some in Hfind as [? _].
  - right. by exists row.
Qed.

Lemma not_null_stored db e :
  store_ok db -> e ∈ evidence_items db -> evidence_not_null e = true.
Proof. intros (_ & Hnn & _) He. rewrite Forall_forall in Hnn. by apply Hnn. Qed.

Lemma set_items_no_rows db t :
  set_evidence_items t db = mkDB (cases db) t (transfers db ++ []).
Proof. unfold set_evidence_items. by rewrite app_nil_r. Qed.

Lemma quick_update_in_order now pk field value db :
  in_order db ->
  in_order (evidence_quick_update_department md5 sha1 sha256 now pk field value db).2.
Proof.
  intros Hord. unfold evidence_quick_update_department, get_evidence_or_404. run.
  destruct (find_pk evidence_pk pk (evidence_items db)) as [e|] eqn:Hfind; [|done].
  pose proof (find_pk_Some _ _ _ _ Hfind) as [He Hpk]. subst pk.
  pose proof (not_null_stored db e (proj1 Hord) He) as Hnn.
  unfold Evidence_save, Evidence_super_save, EvidenceTransfer_objects_create.
  destruct (String.eqb field "current_department").
  - destruct (String.eqb (current_department e) value) eqn:E; cbn [negb].
    + apply String.eqb_eq in E.
      destruct (save_then db e (with_department value e) [] Hord Hfind) as (t' & -> & H);
        [done|done|done|by left|].
      cbn. by rewrite set_items_no_rows.
    + set (row := mkTransfer _ _ _ _ _ _ _).
      destruct (save_then db e (with_department value e) [row] Hord Hfind)
        as (t' & Hsave & H); [done|done|done|right; by exists row|].
      cbn [add_transfer evidence_items]. rewrite Hsave. exact H.
  - destruct (String.eqb field "received_by").
    + destruct (save_then db e (with_received_by value e) [] Hord Hfind) as (t' & -> & H);
        [done|done|done|by left|].
      cbn. by rewrite set_items_no_rows.
    + destruct (save_then db e e [] Hord Hfind) as (t' & -> & H);
        [done|done|done|by left|].
      cbn. by rewrite set_items_no_rows.
Qed.

Lemma for_each_M_preserves {A B : Type} (P : DB -> Prop) (body : B -> A -> M B) l :
  (forall acc x db, P db -> P (body acc x db).2) ->
  forall acc db, P db -> P (for_each_M body l acc db).2.
Proof.
  intros Hbody. induction l as [|x l IH]; intros acc db HP; [done|].
  cbn [for_each_M]. run. specialize (Hbody acc x db HP).
  destruct (body acc x db) as [[acc'|e] db']; [|done]. by apply IH.
Qed.

Lemma bulk_update_one_in_order now action value n evidence_id db :
  in_order db ->
  in_order (bulk_update_one md5 sha1 sha256 now action value n evidence_id db).2.
Proof.
  intros Hord. unfold bulk_update_one. run.
  destruct (find_pk evidence_pk evidence_id (evidence_items db)) as [e|] eqn:Hfind; [|done].
  pose proof (find_pk_Some _ _ _ _ Hfind) as [He Hpk]. subst evidence_id.
  pose proof (not_null_stored db e (proj1 Hord) He) as Hnn.
  unfold Evidence_save, Evidence_super_save, EvidenceTransfer_objects_create.
  destruct (String.eqb action "department").
  - set (r := match received_date (with_department value e) with
              | Some _ => with_department value e
              | None => with_received_date (Some now) (with_department value e)
              end).
    assert (evidence_pk r = evidence_pk e /\ evidence_number r = evidence_number e
            /\ evidence_not_null r = true /\ current_department r = value
            /\ received_by r = received_by e) as (R1 & R2 & R3 & R4 & R5).
    { unfold r. by destruct (received_date (with_department value e)). }
    destruct (String.eqb (current_department e) value) eqn:E; cbn [negb].
    + apply String.eqb_eq in E.
      destruct (save_then db e r [] Hord Hfind) as (t' & -> & H);
        [done|done|done|left; split; congruence|].
      cbn. by rewrite set_items_no_rows.
    + set (row := mkTransfer _ _ _ _ _ _ _).
      destruct (save_then db e r [row] Hord Hfind)
        as (t' & Hsave & H);
        [done|done|done|right; exists row; split; [done|split; [exact R1|by rewrite R4]]|].
      cbn [add_transfer evidence_items]. rewrite Hsave. exact H.
  - destruct (String.eqb action "status").
    + destruct (save_then db e (with_status (Some value) e) [] Hord Hfind)
        as (t' & -> & H); [done|done| |by left|].
      { revert Hnn. unfold evidence_not_null. cbn.
        intros [? _]%andb_true_iff. by apply andb_true_iff. }
      cbn. by rewrite set_items_no_rows.
    + destruct (save_then db e e [] Hord Hfind) as (t' & -> & H);
        [done|done|done|by left|].
      cbn. by rewrite set_items_no_rows.
Qed.

Lemma bulk_update_in_order now ids action value db :
  in_order db -> in_order (evidence_bulk_update md5 sha1 sha256 now ids action value db).2.
Proof.
  intros Hord. unfold evidence_bulk_update. run.
  pose proof (for_each_M_preserves in_order
                (bulk_update_one md5 sha1 sha256 now action value) ids
                (fun _ x db => bulk_update_one_in_order now action value _ x db)
                0%nat db Hord) as H.
  by destruct (for_each_M _ ids 0%nat db) as [[n|e] db'].
Qed.

(** [evidence_update] once the item is found, the case reference is
    valid and the three dates are read: all hangs on the save. *)
Lemma evidence_update_eval now pk POST db e received seizure acquisition :
  find_pk evidence_pk pk (evidence_items db) = Some e ->
  str_truthy (Form.get POST "case")
    && negb (pk_exists case_pk (default "" (Form.get POST "case")) (cases db)) = false ->
  parse_date_field parse_datetime POST "received_date" = Ok received ->
  parse_date_field parse_datetime POST "seizure_date" = Ok seizure ->
  parse_date_field parse_datetime POST "acquisition_date" = Ok acquisition ->
  let r := updated_evidence now e POST (extract_form POST) received seizure acquisition in
  evidence_update md5 sha1 sha256 parse_datetime now pk POST db
  = match esave false (fp r) (evidence_items db) with
    | Some t' => (Ok (Success "Evidence updated successfully!"),
                  mkDB (cases db) t' (transfers db ++ update_rows now e POST))
    | None => (Raise IntegrityError, db)
    end.
Proof.
  intros Hfind Hcase Hr Hs Ha r.
  unfold evidence_update, get_evidence_or_404. run. rewrite Hfind, extract_form_ok, Hcase.
  rewrite Hr, Hs, Ha. unfold Evidence_save, Evidence_super_save. fold r.
  destruct (esave false (fp r) (evidence_items db)) as [t'|]; [|done].
  unfold update_rows, EvidenceTransfer_objects_create.
  destruct (fingerprint_keeps r) as (Fpk & _ & _ & _ & Frb & _).
  destruct (String.eqb (current_department e) (Form.get_or POST "current_department" ""));
    cbn [negb].
  - by rewrite set_items_no_rows.
  - unfold add_transfer, set_evidence_items. cbn. by rewrite Fpk, Frb.
Qed.

Lemma evidence_update_in_order now pk POST db :
  in_order db ->
  in_order (evidence_update md5 sha1 sha256 parse_datetime now pk POST db).2.
Proof.
  intros Hord.
  destruct (find_pk evidence_pk pk (evidence_items db)) as [e|] eqn:Hfind;
    [|unfold evidence_update, get_evidence_or_404; run; by rewrite Hfind].
  destruct (str_truthy (Form.get POST "case")
            && negb (pk_exists case_pk (default "" (Form.get POST "case")) (cases db)))
    eqn:Hcase;
    [unfold evidence_update, get_evidence_or_404; run;
     by rewrite Hfind, extract_form_ok, Hcase|].
  destruct (parse_date_field parse_datetime POST "received_date") as [received|] eqn:Hr;
    [|unfold evidence_update, get_evidence_or_404; run;
      by rewrite Hfind, extract_form_ok, Hcase, Hr].
  destruct (parse_date_field parse_datetime POST "seizure_date") as [seizure|] eqn:Hs;
    [|unfold evidence_update, get_evidence_or_404; run;
      by rewrite Hfind, extract_form_ok, Hcase, Hr, Hs].
  destruct (parse_date_field parse_datetime POST "acquisition_date") as [acquisition|] eqn:Ha;
    [|unfold evidence_update, get_evidence_or_404; run;
      by rewrite Hfind, extract_form_ok, Hcase, Hr, Hs, Ha].
  rewrite (evidence_update_eval now pk POST db e received seizure acquisition) by done.
  set (r := updated_evidence now e POST (extract_form POST) received seizure acquisition).
  destruct (esave false (fp r) (evidence_items db)) as [t'|] eqn:Hsave; [|done].
  destruct Hord as [Hok Hcons]. cbn [snd].
  apply (custody_step db false (fp r) t' _ Hok Hcons Hsave).
  destruct (fingerprint_keeps r) as (Fpk & _ & _ & Fdep & _). rewrite Fpk, Fdep.
  pose proof (find_pk_Some _ _ _ _ Hfind) as [He Hpk].
  unfold update_rows. cbn [r updated_evidence evidence_pk current_department].
  destruct (String.eqb (current_department e) (Form.get_or POST "current_department" ""))
    eqn:E.
  - left. split; [done|]. apply String.eqb_eq in E. rewrite <- E. by apply Hcons.
  - right. eexists. split; [done|]. done.
Qed.

Lemma insert_fresh (r : Evidence) t t' :
  esave true r t = Some t' -> pk_exists evidence_pk (evidence_pk r) t = false.
Proof.
  unfold model_save, sql_insert. destruct (evidence_not_null r); [|done].
  by destruct (pk_exists evidence_pk (evidence_pk r) t).
Qed.

Lemma ledger_of_fresh db pk :
  store_ok db -> pk_exists evidence_pk pk (evidence_items db) = false ->
  last_to_department pk db = "".
Proof.
  intros (_ & _ & Hfk) Hfresh. unfold last_to_department, ledger.
  assert (List.filter (fun r => String.eqb (evidence r) pk) (transfers db) = []) as ->; [|done].
  induction (transfers db) as [|row rows IH]; [done|].
  apply Forall_cons in Hfk as [Hrow Hrows]. cbn [List.filter].
  destruct (String.eqb (evidence row) pk) eqn:E; [|by apply IH].
  apply String.eqb_eq in E. congruence.
Qed.

Lemma evidence_create_in_order now uuid POST db :
  in_order db ->
  in_order (evidence_create md5 sha1 sha256 parse_datetime now uuid POST db).2.
Proof.
  intros Hord. unfold evidence_create. run.
  destruct (if negb _ then _ else _) as [number|]; [|done].
  rewrite extract_form_ok.
  destruct (parse_date_field parse_datetime POST "received_date") as [received|]; [|done].
  destruct (parse_date_field parse_datetime POST "seizure_date") as [seizure|]; [|done].
  destruct (parse_date_field parse_datetime POST "acquisition_date") as [acquisition|];
    [|done].
  destruct (str_truthy _ && _); [done|].
  unfold try_except, Evidence_objects_create, Evidence_save, Evidence_super_save.
  set (r := created_evidence now uuid number POST (extract_form POST)
              received seizure acquisition).
  destruct (esave true (fp r) (evidence_items db)) as [t'|] eqn:Hsave; [|done].
  unfold EvidenceTransfer_objects_create. destruct Hord as [Hok Hcons].
  destruct (fingerprint_keeps r) as (Fpk & _ & _ & Fdep & _).
  destruct (Py.nonempty (current_department (fp r))) eqn:E.
  - cbn. apply (custody_step db true (fp r) t' _ Hok Hcons Hsave).
    right. eexists. split; [done|]. done.
  - cbn. rewrite set_items_no_rows.
    apply (custody_step db true (fp r) t' _ Hok Hcons Hsave).
    left. split; [done|]. rewrite (ledger_of_fresh db _ Hok (insert_fresh _ _ _ Hsave)).
    by destruct (current_department (fp r)).
Qed.

Lemma serve_in_order request db :
  in_order db -> in_order (serve md5 sha1 sha256 parse_datetime request db).2.
Proof.
  destruct request; cbn [serve].
  - apply evidence_create_in_order.
  - apply quick_update_in_order.
  - apply evidence_update_in_order.
  - apply bulk_update_in_order.
Qed.

Lemma serve_all_in_order requests db :
  in_order db -> in_order (serve_all md5 sha1 sha256 parse_datetime requests db).
Proof.
  revert db. induction requests as [|r rs IH]; intros db Hord; [done|].
  cbn [serve_all fold_left]. apply IH. by apply serve_in_order.
Qed.

(** The quick update of the department, on a stored item. *)
Lemma quick_update_eval now pk value db e :
  store_ok db ->
  find_pk evidence_pk pk (evidence_items db) = Some e ->
  exists t',
    evidence_quick_update_department md5 sha1 sha256 now pk "current_department" value db
    = (Ok (JsonResponse true 0),
       mkDB (cases db) t' (transfers db ++ quick_rows now e value))
    /\ find_pk evidence_pk pk t' = Some (fp (with_department value e))
    /\ store_ok (mkDB (cases db) t' (transfers db ++ quick_rows now e value)).
Proof.
  intros Hok Hfind. pose proof (find_pk_Some _ _ _ _ Hfind) as [He Hpk]. subst pk.
  destruct (save_stored db e (with_department value e) Hok Hfind) as [t' Hsave];
    [done|done|change (evidence_not_null e = true); by apply (not_null_stored db)|].
  exists t'. split; [|split].
  - unfold evidence_quick_update_department, get_evidence_or_404. run. rewrite Hfind.
    unfold Evidence_save, Evidence_super_save, EvidenceTransfer_objects_create, quick_rows.
    cbn [String.eqb Ascii.eqb Bool.eqb].
    destruct (String.eqb (current_department e) value); cbn [negb].
    + rewrite Hsave. by rewrite set_items_no_rows.
    + cbn [add_transfer evidence_items]. rewrite Hsave. done.
  - rewrite (model_save_find _ _ _ _ _ _ _ (evidence_pk e) Hsave).
    destruct (fingerprint_keeps (with_department value e)) as (-> & _).
    cbn [evidence_pk with_department]. by rewrite String.eqb_refl.
  - apply (store_step db false _ t' _ Hok Hsave).
    destruct (fingerprint_keeps (with_department value e)) as (-> & _).
    unfold quick_rows. intros row Hrow.
    destruct (String.eqb (current_department e) value); [by apply elem_of_nil in Hrow|].
    apply list_elem_of_singleton in Hrow. by subst row.
Qed.

(** [evidence_update] on a stored item: either nothing is written and the
    request does not succeed, or the row is saved and the ledger grows by
    [update_rows]. *)
Lemma evidence_update_cases now pk POST db e :
  find_pk evidence_pk pk (evidence_items db) = Some e ->
  let out := evidence_update md5 sha1 sha256 parse_datetime now pk POST db in
  (out.2 = db /\ forall msg, out.1 <> Ok (Success msg))
  \/ (exists received seizure acquisition t',
        str_truthy (Form.get POST "case")
          && negb (pk_exists case_pk (default "" (Form.get POST "case")) (cases db)) = false
        /\ esave false
             (fp (updated_evidence now e POST (extract_form POST)
                    received seizure acquisition))
             (evidence_items db) = Some t'
        /\ out = (Ok (Success "Evidence updated successfully!"),
                  mkDB (cases db) t' (transfers db ++ update_rows now e POST))).
Proof.
  intros Hfind out. subst out.
  destruct (str_truthy (Form.get POST "case")
            && negb (pk_exists case_pk (default "" (Form.get POST "case")) (cases db)))
    eqn:Hcase;
    [left; unfold evidence_update, get_evidence_or_404; run;
     by rewrite Hfind, extract_form_ok, Hcase|].
  destruct (parse_date_field parse_datetime POST "received_date") as [received|] eqn:Hr;
    [|left; unfold evidence_update, get_evidence_or_404; run;
      by rewrite Hfind, extract_form_ok, Hcase, Hr].
  destruct (parse_date_field parse_datetime POST "seizure_date") as [seizure|] eqn:Hs;
    [|left; unfold evidence_update, get_evidence_or_404; run;
      by rewrite Hfind, extract_form_ok, Hcase, Hr, Hs].
  destruct (parse_date_field parse_datetime POST "acquisition_date") as [acquisition|] eqn:Ha;
    [|left; unfold evidence_update, get_evidence_or_404; run;
      by rewrite Hfind, extract_form_ok, Hcase, Hr, Hs, Ha].
  rewrite (evidence_update_eval now pk POST db e received seizure acquisition) by done.
  destruct (esave false _ (evidence_items db)) as [t'|] eqn:Hsave; [|by left].
  right. by exists received, seizure, acquisition, t'.
Qed.

End Custody.

Lemma in_order_no_evidence cs : in_order (mkDB cs [] []).
Proof.
  split; [split; [|split]|].
  - intros e1 e2 H. by apply elem_of_nil in H.
  - constructor.
  - constructor.
  - intros e H. by apply elem_of_nil in H.
Qed.

Lemma db_item_ar_in_order : in_order db_item_ar.
Proof. apply serve_all_in_order, in_order_no_evidence. Qed.

(** C3.  An automatic department update (the quick update and the edit
    form) logs no ledger row when the target is the current department and
    exactly one row, from the old to the new department, when it differs.
    The quick update of a stored item goes through and logs just that; an
    edit that is answered with a success has logged just that, and left the
    item in the department of the form.  Two quick updates in a row to the
    same target log at most one row, the second none; and after any
    sequence of creations and automatic updates every item's
    [current_department] is the [to_department] of its most recent ledger
    row, or empty when it has none. *)
Theorem department_updates_follow_ledger md5 sha1 sha256 parse_datetime :
  (forall now pk value db e,
     store_ok db ->
     find_pk evidence_pk pk (evidence_items db) = Some e ->
     exists t' e',
       evidence_quick_update_department md5 sha1 sha256 now pk "current_department" value db
       = (Ok (JsonResponse true 0),
          mkDB (cases db) t' (transfers db ++ quick_rows now e value))
       /\ find_pk evidence_pk pk t' = Some e' /\ current_department e' = value)
  /\ (forall now e value,
        (current_department e = value -> quick_rows now e value = [])
        /\ (current_department e <> value ->
            quick_rows now e value
            = [mkTransfer (evidence_pk e) (current_department e) value "" (received_by e) now
                 "Quick update from location search"]))
  /\ (forall now pk POST db e msg db',
        find_pk evidence_pk pk (evidence_items db) = Some e ->
        evidence_update md5 sha1 sha256 parse_datetime now pk POST db = (Ok (Success msg), db') ->
        exists e',
          transfers db' = transfers db ++ update_rows now e POST
          /\ find_pk evidence_pk pk (evidence_items db') = Some e'
          /\ current_department e' = Form.get_or POST "current_department" "")
  /\ (forall now e POST,
        let new_department := Form.get_or POST "current_department" "" in
        (current_department e = new_department -> update_rows now e POST = [])
        /\ (current_department e <> new_department ->
            update_rows now e POST
            = [mkTransfer (evidence_pk e) (current_department e) new_department ""
                 (Form.get_or POST "received_by" "") now "Evidence update"]))
  /\ (forall now now' pk value db e,
        store_ok db ->
        find_pk evidence_pk pk (evidence_items db) = Some e ->
        let quick t := evidence_quick_update_department md5 sha1 sha256 t pk
                         "current_department" value in
        let db1 := (quick now db).2 in
        let db2 := (quick now' db1).2 in
        transfers db2 = transfers db1
        /\ (length (transfers db2) <= S (length (transfers db)))%nat)
  /\ (forall requests db,
        in_order db -> in_order (serve_all md5 sha1 sha256 parse_datetime requests db)).
Proof.
  assert (forall now pk POST db e,
            find_pk evidence_pk pk (evidence_items db) = Some e ->
            let out := evidence_update md5 sha1 sha256 parse_datetime now pk POST db in
            (out.2 = db /\ forall msg, out.1 <> Ok (Success msg))
            \/ (exists t' e',
                  out = (Ok (Success "Evidence updated successfully!"),
                         mkDB (cases db) t' (transfers db ++ update_rows now e POST))
                  /\ find_pk evidence_pk pk t' = Some e'
                  /\ current_department e' = Form.get_or POST "current_department" ""))
    as Hedit.
  { intros now pk POST db e Hfind out.
    destruct (evidence_update_cases md5 sha1 sha256 parse_datetime now pk POST db e Hfind)
      as [?|(received & seizure & acquisition & t' & _ & Hsave & Hout)]; [by left|right].
    set (r := updated_evidence now e POST (extract_form POST) received seizure acquisition)
      in *.
    exists t', (fingerprint md5 sha1 sha256 r). split; [done|].
    pose proof (find_pk_Some _ _ _ _ Hfind) as [_ Hpk].
    destruct (fingerprint_keeps md5 sha1 sha256 r) as (Fpk & _ & _ & Fdep & _).
    rewrite (model_save_find _ _ _ _ _ _ _ pk Hsave), Fpk, Fdep.
    cbn [r updated_evidence evidence_pk current_department].
    by rewrite Hpk, String.eqb_refl. }
  split; [|split; [|split; [|split; [|split]]]].
  - intros now pk value db e Hok Hfind.
    destruct (quick_update_eval md5 sha1 sha256 now pk value db e Hok Hfind)
      as (t' & Hrun & Hfind' & _).
    exists t', (fingerprint md5 sha1 sha256 (with_department value e)).
    split; [done|]. split; [done|].
    by destruct (fingerprint_keeps md5 sha1 sha256 (with_department value e))
      as (_ & _ & _ & -> & _).
  - intros now e value. unfold quick_rows. split.
    + intros ->. by rewrite String.eqb_refl.
    + intros Hne. apply String.eqb_neq in Hne. by rewrite Hne.
  - intros now pk POST db e msg db' Hfind Hrun.
    destruct (Hedit now pk POST db e Hfind) as [[_ Hno]|(t' & e' & Hout & Hfind' & Hdep)].
    + exfalso. apply (Hno msg). by rewrite Hrun.
    + rewrite Hrun in Hout. injection Hout as _ ->. by exists e'.
  - intros now e POST new_department. unfold update_rows. fold new_department. split.
    + intros ->. by rewrite String.eqb_refl.
    + intros Hne. apply String.eqb_neq in Hne. by rewrite Hne.
  - intros now now' pk value db e Hok Hfind quick db1 db2. subst quick db1 db2.
    destruct (quick_update_eval md5 sha1 sha256 now pk value db e Hok Hfind)
      as (t1 & -> & Hfind1 & Hok1). cbn [snd].
    destruct (quick_update_eval md5 sha1 sha256 now' pk value _ _ Hok1 Hfind1)
      as (t2 & -> & _). cbn [snd transfers].
    assert (quick_rows now' (fingerprint md5 sha1 sha256 (with_department value e)) value = [])
      as ->.
    { unfold quick_rows.
      destruct (fingerprint_keeps md5 sha1 sha256 (with_department value e))
        as (_ & _ & _ & -> & _).
      cbn [current_department with_department]. by rewrite String.eqb_refl. }
    rewrite app_nil_r. split; [done|]. rewrite length_app. unfold quick_rows.
    destruct (String.eqb (current_department e) value); cbn [length]; lia.
  - intros requests db. apply serve_all_in_order.
Qed.

Lemma department_updates_follow_ledger_witness :
  in_order db_item_ar
  /\ (exists t' e',
        evidence_quick_update_department empty_md5 empty_sha1 empty_sha256 now25 "e1"
          "current_department" "sur" db_item_ar
        = (Ok (JsonResponse true 0),
           mkDB (cases db_item_ar) t'
             (transfers db_item_ar
              ++ [mkTransfer "e1" "ar" "sur" "" "" now25 "Quick update from location search"]))
        /\ find_pk evidence_pk "e1" t' = Some e' /\ current_department e' = "sur")
  /\ (let quick := evidence_quick_update_department empty_md5 empty_sha1 empty_sha256
                     now25 "e1" "current_department" "sur" in
      transfers (quick (quick db_item_ar).2).2 = transfers (quick db_item_ar).2)
  /\ (let edit := evidence_update empty_md5 empty_sha1 empty_sha256 no_dates now25 "e1" in
      (edit post_edit db_item_ar).1 = Ok (Success "Evidence updated successfully!")
      /\ (exists e',
            transfers (edit post_edit db_item_ar).2
            = [mkTransfer "e1" "" "ar" "" "" now25 "Initial evidence creation";
               mkTransfer "e1" "ar" "sur" "" "" now25 "Evidence update"]
            /\ find_pk evidence_pk "e1" (evidence_items (edit post_edit db_item_ar).2)
               = Some e'
            /\ current_department e' = "sur")
      /\ (edit post_same db_item_ar).1 = Ok (Success "Evidence updated successfully!")
      /\ (exists e',
            transfers (edit post_same db_item_ar).2
            = [mkTransfer "e1" "" "ar" "" "" now25 "Initial evidence creation"]
            /\ find_pk evidence_pk "e1" (evidence_items (edit post_same db_item_ar).2)
               = Some e'
            /\ current_department e' = "ar")).
Proof.
  destruct (department_updates_follow_ledger empty_md5 empty_sha1 empty_sha256 no_dates)
    as (Hquick & _ & Hedit & _ & Htwice & Hall).
  assert (in_order db_item_ar) as Hord
    by (apply (Hall [Create now25 "e1" post_case8_ar] db_case8), in_order_no_evidence).
  split; [exact Hord|]. split; [|split].
  - apply (Hquick now25 "e1" "sur" db_item_ar
             (sample_evidence_ar)); [apply Hord|reflexivity].
  - apply (Htwice now25 now25 "e1" "sur" db_item_ar sample_evidence_ar);
      [apply Hord|reflexivity].
  - cbv zeta. split; [reflexivity|]. split; [|split; [reflexivity|]].
    + apply (Hedit now25 "e1" post_edit db_item_ar sample_evidence_ar
               "Evidence updated successfully!"); reflexivity.
    + apply (Hedit now25 "e1" post_same db_item_ar sample_evidence_ar
               "Evidence updated successfully!"); reflexivity.
Defined.

(** ** Fingerprints *)

Section Fingerprint.
Variables md5 sha1 sha256 : list byte -> string.

Abbreviation fp := (fingerprint md5 sha1 sha256).
Abbreviation esave := (model_save evidence_pk evidence_number evidence_not_null).

Lemma fingerprint_fresh e content :
  file_path e = Some content -> hash_md5 e = "" ->
  fp e = with_fingerprint md5 sha1 sha256 content e.
Proof. intros Hf Hh. unfold fingerprint. by rewrite Hf, Hh. Qed.

Lemma fingerprint_frozen e : hash_md5 e <> "" -> fp e = e.
Proof.
  intros Hh. unfold fingerprint. destruct (file_path e); [|done].
  by destruct (hash_md5 e).
Qed.

Lemma attach_content_eval pk content db e :
  store_ok db ->
  find_pk evidence_pk pk (evidence_items db) = Some e ->
  let e' := fp (with_file_path (Some content) e) in
  exists t',
    attach_content md5 sha1 sha256 pk content db = (Ok e', set_evidence_items t' db)
    /\ find_pk evidence_pk pk t' = Some e'
    /\ store_ok (set_evidence_items t' db).
Proof.
  intros Hok Hfind e'. pose proof (find_pk_Some _ _ _ _ Hfind) as [He Hpk]. subst pk.
  destruct (save_stored md5 sha1 sha256 db e (with_file_path (Some content) e) Hok Hfind)
    as [t' Hsave];
    [done|done|change (evidence_not_null e = true); by apply (not_null_stored db)|].
  fold e' in Hsave. exists t'. split; [|split].
  - unfold attach_content, get_evidence_or_404, mbind, M_bind. rewrite Hfind.
    unfold Evidence_save, Evidence_super_save. fold e'. by rewrite Hsave.
  - rewrite (model_save_find _ _ _ _ _ _ _ (evidence_pk e) Hsave).
    destruct (fingerprint_keeps md5 sha1 sha256 (with_file_path (Some content) e))
      as (Fpk & _). fold e' in Fpk. rewrite Fpk.
    cbn [evidence_pk with_file_path]. by rewrite String.eqb_refl.
  - rewrite set_items_no_rows. apply (store_step db false e' t' [] Hok Hsave).
    intros row Hrow. by apply elem_of_nil in Hrow.
Qed.

End Fingerprint.

(** C4.  When an item with attached content is saved and [hash_md5] is
    empty, the MD5, SHA-1 and SHA-256 digests of the whole content and its
    length are stored together; when [hash_md5] is not empty the step
    changes nothing; what [save] writes is the fingerprinted instance; so
    content attached a second time, with other bytes, leaves the digests and
    the size of the first attachment in place. *)
Theorem fingerprint_first_write_wins md5 sha1 sha256 :
  (forall e content,
     file_path e = Some content -> hash_md5 e = "" ->
     let e' := fingerprint md5 sha1 sha256 e in
     hash_md5 e' = md5 content /\ hash_sha1 e' = sha1 content
     /\ hash_sha256 e' = sha256 content
     /\ file_size e' = Some (Z.of_nat (length content)))
  /\ (forall e, hash_md5 e <> "" -> fingerprint md5 sha1 sha256 e = e)
  /\ (forall fi e db,
        Evidence_save md5 sha1 sha256 fi e db
        = match model_save evidence_pk evidence_number evidence_not_null fi
                  (fingerprint md5 sha1 sha256 e) (evidence_items db) with
          | Some t => (Ok (fingerprint md5 sha1 sha256 e), set_evidence_items t db)
          | None => (Raise IntegrityError, db)
          end)
  /\ (forall pk first second db e,
        store_ok db ->
        find_pk evidence_pk pk (evidence_items db) = Some e ->
        hash_md5 e = "" ->
        md5 first <> "" ->
        exists e1 db1 e2 db2,
          attach_content md5 sha1 sha256 pk first db = (Ok e1, db1)
          /\ attach_content md5 sha1 sha256 pk second db1 = (Ok e2, db2)
          /\ find_pk evidence_pk pk (evidence_items db2) = Some e2
          /\ file_path e2 = Some second
          /\ hash_md5 e2 = md5 first /\ hash_sha1 e2 = sha1 first
          /\ hash_sha256 e2 = sha256 first
          /\ file_size e2 = Some (Z.of_nat (length first))).
Proof.
  split; [|split; [|split]].
  - intros e content Hf Hh e'. subst e'. by rewrite (fingerprint_fresh _ _ _ e content).
  - apply fingerprint_frozen.
  - done.
  - intros pk first second db e Hok Hfind Hblank Hmd5.
    destruct (attach_content_eval md5 sha1 sha256 pk first db e Hok Hfind)
      as (t1 & Hrun1 & Hfind1 & Hok1).
    set (e1 := fingerprint md5 sha1 sha256 (with_file_path (Some first) e)) in *.
    assert (e1 = with_fingerprint md5 sha1 sha256 first (with_file_path (Some first) e))
      as He1 by (by apply fingerprint_fresh).
    destruct (attach_content_eval md5 sha1 sha256 pk second _ e1 Hok1 Hfind1)
      as (t2 & Hrun2 & Hfind2 & _).
    assert (fingerprint md5 sha1 sha256 (with_file_path (Some second) e1)
            = with_file_path (Some second) e1) as Hfrozen.
    { apply fingerprint_frozen. rewrite He1. exact Hmd5. }
    rewrite Hfrozen in Hrun2, Hfind2.
    exists e1, (set_evidence_items t1 db), (with_file_path (Some second) e1),
      (set_evidence_items t2 (set_evidence_items t1 db)).
    split; [done|]. split; [done|]. split; [done|]. by rewrite He1.
Qed.

Lemma fingerprint_first_write_wins_witness :
  exists e1 db1 e2 db2,
    attach_content empty_md5 empty_sha1 empty_sha256 "e1" [] db_item_ar = (Ok e1, db1)
    /\ attach_content empty_md5 empty_sha1 empty_sha256 "e1" [Byte.x01] db1 = (Ok e2, db2)
    /\ find_pk evidence_pk "e1" (evidence_items db2) = Some e2
    /\ file_path e2 = Some [Byte.x01]
    /\ hash_md5 e2 = "d41d8cd98f00b204e9800998ecf8427e"
    /\ hash_sha1 e2 = "da39a3ee5e6b4b0d3255bfef95601890afd80709"
    /\ hash_sha256 e2 = "e3b0c44298fc1c149afbf4c8996fb92427ae41e4649b934ca495991b7852b855"
    /\ file_size e2 = Some 0.
Proof.
  destruct (fingerprint_first_write_wins empty_md5 empty_sha1 empty_sha256)
    as (_ & _ & _ & Htwice).
  apply (Htwice "e1" [] [Byte.x01] db_item_ar sample_evidence_ar).
  - apply db_item_ar_in_order.
  - reflexivity.
  - reflexivity.
  - discriminate.
Defined.

(** ** The bulk department action *)

Section Bulk.
Variables md5 sha1 sha256 : list byte -> string.

Lemma bulk_update_one_eval now value n pk db e :
  store_ok db ->
  find_pk evidence_pk pk (evidence_items db) = Some e ->
  exists t',
    bulk_update_one md5 sha1 sha256 now "department" value n pk db
    = (Ok (S n), mkDB (cases db) t' (transfers db ++ bulk_rows now e value))
    /\ find_pk evidence_pk pk t'
       = Some (fingerprint md5 sha1 sha256 (bulk_assigned now value e)).
Proof.
  intros Hok Hfind. pose proof (find_pk_Some _ _ _ _ Hfind) as [He Hpk]. subst pk.
  set (r := bulk_assigned now value e).
  assert (evidence_pk r = evidence_pk e /\ evidence_number r = evidence_number e
          /\ evidence_not_null r = evidence_not_null e /\ received_by r = received_by e)
    as (R1 & R2 & R3 & R4).
  { unfold r, bulk_assigned. by destruct (received_date e). }
  destruct (save_stored md5 sha1 sha256 db e r Hok Hfind) as [t' Hsave];
    [done|done|rewrite R3; by apply (not_null_stored db)|].
  exists t'. split.
  - unfold bulk_update_one, mbind, M_bind, mret, M_ret, read. rewrite Hfind.
    cbn [String.eqb Ascii.eqb Bool.eqb].
    unfold Evidence_save, Evidence_super_save, EvidenceTransfer_objects_create, bulk_rows.
    change (match received_date (with_department value e) with
            | Some _ => with_department value e
            | None => with_received_date (Some now) (with_department value e)
            end) with r.
    destruct (String.eqb (current_department e) value); cbn [negb].
    + rewrite Hsave. by rewrite set_items_no_rows.
    + cbn [add_transfer evidence_items]. rewrite Hsave. by rewrite R1, R4.
  - rewrite (model_save_find _ _ _ _ _ _ _ (evidence_pk e) Hsave).
    destruct (fingerprint_keeps md5 sha1 sha256 r) as (-> & _).
    by rewrite R1, String.eqb_refl.
Qed.

End Bulk.

(** The bulk department action on an item that is already in the target
    department logs nothing. *)
Lemma bulk_same_department_logs_nothing :
  let out := evidence_bulk_update empty_md5 empty_sha1 empty_sha256 now25
               ["e1"] "department" "ar" db_item_ar in
  find_pk evidence_pk "e1" (evidence_items db_item_ar) = Some sample_evidence_ar
  /\ current_department sample_evidence_ar = "ar"
  /\ out.1 = Ok (JsonResponse true 1)
  /\ transfers out.2 = transfers db_item_ar.
Proof. vm_compute. repeat split. Qed.

(** C7, as the code has it.  The bulk department action compares the old
    and the new department: for a stored item it logs one ledger row, from
    the old department to the new one, when they differ, and no row when
    they are equal; either way the item ends in the target department. *)
Theorem bulk_department_logs_changes md5 sha1 sha256 now value pk db e :
  store_ok db ->
  find_pk evidence_pk pk (evidence_items db) = Some e ->
  exists t' e',
    evidence_bulk_update md5 sha1 sha256 now [pk] "department" value db
    = (Ok (JsonResponse true 1),
       mkDB (cases db) t' (transfers db ++ bulk_rows now e value))
    /\ find_pk evidence_pk pk t' = Some e'
    /\ current_department e' = value
    /\ (current_department e = value -> bulk_rows now e value = [])
    /\ (current_department e <> value ->
        bulk_rows now e value
        = [mkTransfer pk (current_department e) value "" (received_by e) now
             "Bulk department assignment"]).
Proof.
  intros Hok Hfind.
  destruct (bulk_update_one_eval md5 sha1 sha256 now value 0%nat pk db e Hok Hfind)
    as (t' & Hrun & Hfind').
  exists t', (fingerprint md5 sha1 sha256 (bulk_assigned now value e)).
  split; [|split; [done|split; [|split]]].
  - unfold evidence_bulk_update. cbn [for_each_M].
    unfold mbind, M_bind, mret, M_ret in *. by rewrite Hrun.
  - destruct (fingerprint_keeps md5 sha1 sha256 (bulk_assigned now value e))
      as (_ & _ & _ & -> & _).
    unfold bulk_assigned. by destruct (received_date e).
  - intros Heq. unfold bulk_rows. apply String.eqb_eq in Heq. by rewrite Heq.
  - intros Hne. unfold bulk_rows. pose proof (find_pk_Some _ _ _ _ Hfind) as [_ <-].
    apply String.eqb_neq in Hne. by rewrite Hne.
Qed.

Lemma bulk_department_logs_changes_witness :
  exists t' e',
    evidence_bulk_update empty_md5 empty_sha1 empty_sha256 now25 ["e1"] "department" "sur"
      db_item_ar
    = (Ok (JsonResponse true 1),
       mkDB (cases db_item_ar) t'
         (transfers db_item_ar ++ bulk_rows now25 sample_evidence_ar "sur"))
    /\ find_pk evidence_pk "e1" t' = Some e'
    /\ current_department e' = "sur"
    /\ bulk_rows now25 sample_evidence_ar "sur"
       = [mkTransfer "e1" "ar" "sur" "" "" now25 "Bulk department assignment"].
Proof.
  destruct (bulk_department_logs_changes empty_md5 empty_sha1 empty_sha256 now25 "sur" "e1"
              db_item_ar sample_evidence_ar) as (t' & e' & H1 & H2 & H3 & _ & H5).
  - apply db_item_ar_in_order.
  - reflexivity.
  - exists t', e'. split; [exact H1|]. split; [exact H2|]. split; [exact H3|].
    apply H5. discriminate.
Defined.

(** ** Operator-supplied numbers *)

Section Duplicates.
Variables md5 sha1 sha256 : list byte -> string.
Variable parse_datetime : string -> result (option datetime).

Lemma nonempty_neq s : s <> "" -> Py.nonempty s = true.
Proof. by destruct s. Qed.

(** An insert whose unique value is held by a stored row is refused. *)
Lemma insert_taken {R : Type} (pk ukey : R -> string) (not_null : R -> bool) r t x :
  x ∈ t -> ukey x = ukey r -> model_save pk ukey not_null true r t = None.
Proof.
  intros Hx Heq. unfold model_save, sql_insert.
  destruct (not_null r); [|done].
  destruct (pk_exists pk (pk r) t) eqn:Epk; [done|].
  assert (taken_by_other pk ukey (pk r) (ukey r) t = true) as ->; [|done].
  rewrite pk_exists_false in Epk. unfold taken_by_other. apply existsb_exists.
  exists x. split; [by apply list_elem_of_In|].
  apply andb_true_iff. split.
  - apply negb_true_iff, String.eqb_neq. by apply Epk.
  - by apply String.eqb_eq.
Qed.

Lemma taken_by_other_true {R : Type} (pk ukey : R -> string) id k t x :
  x ∈ t -> pk x <> id -> ukey x = k -> taken_by_other pk ukey id k t = true.
Proof.
  intros Hx Hne Heq. unfold taken_by_other. apply existsb_exists.
  exists x. split; [by apply list_elem_of_In|].
  apply andb_true_iff. split; [by apply negb_true_iff, String.eqb_neq|by apply String.eqb_eq].
Qed.

Lemma case_create_taken now uuid POST db c :
  let number := Py.strip (Form.get_or POST "case_number" "") in
  number <> "" -> c ∈ cases db -> case_number c = number ->
  case_create now uuid POST db
  = (Ok (FormError ("Case number " +:+ quoted number
                    +:+ " already exists. Please use a different case number.")), db).
Proof.
  intros number Hne Hc Hnum.
  unfold case_create, try_except, Case_objects_create, Case_save, Case_super_save.
  unfold mbind, M_bind, mret, M_ret, read. fold number.
  rewrite (nonempty_neq number Hne). cbn [case_number Py.nonempty negb].
  rewrite (nonempty_neq number Hne). cbn [negb].
  erewrite insert_taken; [done|exact Hc|exact Hnum].
Qed.

Lemma case_update_taken now pk POST db c0 c :
  let number := Py.strip (Form.get_or POST "case_number" "") in
  find_pk case_pk pk (cases db) = Some c0 ->
  number <> "" -> number <> case_number c0 ->
  c ∈ cases db -> case_pk c <> pk -> case_number c = number ->
  case_update now pk POST db
  = (Ok (FormError ("Case number " +:+ quoted number
                    +:+ " already exists. Please choose a different number.")), db).
Proof.
  intros number Hfind Hne Hown Hc Hpk Hnum.
  pose proof (find_pk_Some _ _ _ _ Hfind) as [_ Hpk0].
  unfold case_update, get_case_or_404, mbind, M_bind, mret, M_ret, read.
  rewrite Hfind. fold number. rewrite (nonempty_neq number Hne).
  apply String.eqb_neq in Hown. rewrite Hown. cbn [negb andb].
  rewrite Hpk0. by rewrite (taken_by_other_true case_pk case_number pk number _ c).
Qed.

Lemma evidence_create_taken now uuid POST db e :
  let number := Py.strip (Form.get_or POST "evidence_number" "") in
  let out := evidence_create md5 sha1 sha256 parse_datetime now uuid POST db in
  number <> "" -> e ∈ evidence_items db -> evidence_number e = number ->
  out.2 = db /\ (forall msg, out.1 <> Ok (Success msg))
  /\ (forall received seizure acquisition,
        parse_date_field parse_datetime POST "received_date" = Ok received ->
        parse_date_field parse_datetime POST "seizure_date" = Ok seizure ->
        parse_date_field parse_datetime POST "acquisition_date" = Ok acquisition ->
        str_truthy (Form.get POST "case")
          && negb (pk_exists case_pk (default "" (Form.get POST "case")) (cases db)) = false ->
        out = (Ok (FormError "Error creating evidence"), db)).
Proof.
  intros number out Hne He Hnum. subst out.
  unfold evidence_create, mbind, M_bind, mret, M_ret, read, lift. fold number.
  rewrite (nonempty_neq number Hne). cbn [negb]. rewrite extract_form_ok.
  assert (forall received seizure acquisition,
            model_save evidence_pk evidence_number evidence_not_null true
              (fingerprint md5 sha1 sha256
                 (created_evidence now uuid number POST (extract_form POST)
                    received seizure acquisition))
              (evidence_items db) = None) as Hsave.
  { intros received seizure acquisition.
    apply (insert_taken _ _ _ _ _ e He).
    destruct (fingerprint_keeps md5 sha1 sha256
                (created_evidence now uuid number POST (extract_form POST)
                   received seizure acquisition)) as (_ & -> & _).
    done. }
  destruct (parse_date_field parse_datetime POST "received_date") as [received|];
    [|split; [done|split; [done|intros; discriminate]]].
  destruct (parse_date_field parse_datetime POST "seizure_date") as [seizure|];
    [|split; [done|split; [done|intros; discriminate]]].
  destruct (parse_date_field parse_datetime POST "acquisition_date") as [acquisition|];
    [|split; [done|split; [done|intros; discriminate]]].
  destruct (str_truthy _ && _);
    [split; [done|split; [done|intros; discriminate]]|].
  unfold try_except, Evidence_objects_create, Evidence_save, Evidence_super_save.
  rewrite Hsave. split; [done|]. split; [done|].
  intros r s a [= <-] [= <-] [= <-] _. done.
Qed.

Lemma evidence_update_taken now pk POST db e other :
  let number := Py.strip (Form.get_or POST "evidence_number" "") in
  let out := evidence_update md5 sha1 sha256 parse_datetime now pk POST db in
  find_pk evidence_pk pk (evidence_items db) = Some e ->
  number <> "" ->
  other ∈ evidence_items db -> evidence_pk other <> pk -> evidence_number other = number ->
  out.2 = db /\ (forall msg, out.1 <> Ok (Success msg))
  /\ (forall received seizure acquisition,
        parse_date_field parse_datetime POST "received_date" = Ok received ->
        parse_date_field parse_datetime POST "seizure_date" = Ok seizure ->
        parse_date_field parse_datetime POST "acquisition_date" = Ok acquisition ->
        str_truthy (Form.get POST "case")
          && negb (pk_exists case_pk (default "" (Form.get POST "case")) (cases db)) = false ->
        out = (Raise IntegrityError, db)).
Proof.
  intros number out Hfind Hne Hother Hpk Hnum. subst out.
  pose proof (find_pk_Some _ _ _ _ Hfind) as [_ Hpke].
  assert (forall received seizure acquisition,
            model_save evidence_pk evidence_number evidence_not_null false
              (fingerprint md5 sha1 sha256
                 (updated_evidence now e POST (extract_form POST)
                    received seizure acquisition))
              (evidence_items db) = None) as Hsave.
  { intros received seizure acquisition. apply model_save_taken.
    destruct (fingerprint_keeps md5 sha1 sha256
                (updated_evidence now e POST (extract_form POST)
                   received seizure acquisition)) as (-> & -> & _).
    cbn [updated_evidence evidence_pk evidence_number]. fold number.
    rewrite (nonempty_neq number Hne), Hpke.
    by apply (taken_by_other_true _ _ _ _ _ other). }
  split; [|split].
  - destruct (evidence_update_cases md5 sha1 sha256 parse_datetime now pk POST db e Hfind)
      as [[? _]|(r & s & a & t' & _ & Hok & _)]; [done|].
    rewrite Hsave in Hok. discriminate.
  - destruct (evidence_update_cases md5 sha1 sha256 parse_datetime now pk POST db e Hfind)
      as [[_ ?]|(r & s & a & t' & _ & Hok & _)]; [done|].
    rewrite Hsave in Hok. discriminate.
  - intros received seizure acquisition Hr Hs Ha Hcase.
    rewrite (evidence_update_eval md5 sha1 sha256 parse_datetime now pk POST db e
               received seizure acquisition) by done.
    by rewrite Hsave.
Qed.

End Duplicates.

(** C8, at the input where the code departs from it.  A case number that
    is taken is refused with the duplicate-number message, by [case_create]
    (which catches the [IntegrityError] of the insert) and by [case_update]
    (which checks before it saves).  The evidence paths have no such check.
    With the items 25-0008-001 and 25-0008-x stored, renumbering the second
    to 25-0008-001 ends in the [IntegrityError] of the unique constraint,
    which [evidence_update] neither prevents nor catches: the request fails
    without a duplicate-number answer.  Creating an item under the taken
    number is answered by the catch-all creation error.  Nothing is stored
    on either path. *)
Theorem evidence_renumbering_unchecked md5 sha1 sha256 parse_datetime :
  find_pk evidence_pk "e1" (evidence_items db_case8_manual)
  = Some (sample_evidence "e1" "25-0008-001" (Some "c8") "")
  /\ find_pk evidence_pk "e2" (evidence_items db_case8_manual)
     = Some (sample_evidence "e2" "25-0008-x" (Some "c8") "")
  /\ Py.strip (Form.get_or post_evidence_taken "evidence_number" "") = "25-0008-001"
  /\ evidence_update md5 sha1 sha256 parse_datetime now25 "e2" post_evidence_taken
       db_case8_manual
     = (Raise IntegrityError, db_case8_manual)
  /\ evidence_create md5 sha1 sha256 parse_datetime now25 "n1" post_evidence_taken
       db_case8_manual
     = (Ok (FormError "Error creating evidence"), db_case8_manual)
  /\ case_update now25 "c1" post_case_taken db_malformed
     = (Ok (FormError ("Case number " +:+ quoted "24-0100"
                       +:+ " already exists. Please choose a different number.")),
        db_malformed)
  /\ case_create now25 "n1" post_case_taken db_malformed
     = (Ok (FormError ("Case number " +:+ quoted "24-0100"
                       +:+ " already exists. Please use a different case number.")),
        db_malformed).
Proof.
  split; [reflexivity|]. split; [reflexivity|]. split; [reflexivity|].
  split; [|split; [|split]].
  - destruct (evidence_update_taken md5 sha1 sha256 parse_datetime now25 "e2"
                post_evidence_taken db_case8_manual
                (sample_evidence "e2" "25-0008-x" (Some "c8") "")
                (sample_evidence "e1" "25-0008-001" (Some "c8") "")) as (_ & _ & Hout);
      [reflexivity|discriminate|by repeat constructor|discriminate|reflexivity|].
    apply (Hout None None None); reflexivity.
  - destruct (evidence_create_taken md5 sha1 sha256 parse_datetime now25 "n1"
                post_evidence_taken db_case8_manual
                (sample_evidence "e1" "25-0008-001" (Some "c8") "")) as (_ & _ & Hout);
      [discriminate|by repeat constructor|reflexivity|].
    apply (Hout None None None); reflexivity.
  - apply (case_update_taken now25 "c1" post_case_taken db_malformed
             (sample_case "c1" "25-abc") (sample_case "c3" "24-0100"));
      [reflexivity|discriminate|discriminate|by repeat constructor|discriminate|reflexivity].
  - apply (case_create_taken now25 "n1" post_case_taken db_malformed
             (sample_case "c3" "24-0100"));
      [discriminate|by repeat constructor|reflexivity].
Qed.

(** ** Replacing the attribute bag *)

(** C10.  An evidence update that goes through stores, as the item's
    [device_specific_data], the bag extracted from the submitted form and
    nothing of the bag stored before: a key that the form leaves out or
    blank is gone, and so is [sim_cards] when the form yields no SIM card. *)
Theorem update_replaces_device_data md5 sha1 sha256 parse_datetime now pk POST db msg db' :
  evidence_update md5 sha1 sha256 parse_datetime now pk POST db = (Ok (Success msg), db') ->
  exists d e',
    _extract_device_specific_data (QueryDict POST) = Ok d
    /\ find_pk evidence_pk pk (evidence_items db') = Some e'
    /\ device_specific_data e' = d
    /\ (forall k, k <> "sim_cards" -> flat_value POST k = None ->
          device_specific_data e' !! k = None)
    /\ (surviving_cards (form_columns POST) = [] ->
          device_specific_data e' !! "sim_cards" = None).
Proof.
  intros Hrun.
  destruct (find_pk evidence_pk pk (evidence_items db)) as [e|] eqn:Hfind.
  2: { revert Hrun. unfold evidence_update, get_evidence_or_404, mbind, M_bind.
       by rewrite Hfind. }
  destruct (evidence_update_cases md5 sha1 sha256 parse_datetime now pk POST db e Hfind)
    as [[_ Hno]|(received & seizure & acquisition & t' & _ & Hsave & Hout)].
  { rewrite Hrun in Hno. by destruct (Hno msg). }
  rewrite Hrun in Hout. injection Hout as _ ->.
  set (r := updated_evidence now e POST (extract_form POST) received seizure acquisition) in *.
  pose proof (find_pk_Some _ _ _ _ Hfind) as [_ Hpk].
  destruct (fingerprint_keeps md5 sha1 sha256 r) as (Fpk & _ & _ & _ & _ & Fdata).
  exists (extract_form POST), (fingerprint md5 sha1 sha256 r).
  destruct (flat_attributes_form POST) as [Hflat Hsim].
  split; [apply extract_form_ok|]. split; [|split; [done|split]].
  - cbn [evidence_items]. rewrite (model_save_find _ _ _ _ _ _ _ pk Hsave), Fpk.
    cbn [r updated_evidence evidence_pk]. by rewrite Hpk, String.eqb_refl.
  - intros k Hk Hnone. rewrite Fdata. cbn [r updated_evidence device_specific_data].
    rewrite (Hflat k Hk), Hnone. by destruct (bool_decide _).
  - intros Hnone. rewrite Fdata. cbn [r updated_evidence device_specific_data].
    by rewrite Hsim, Hnone.
Qed.

Lemma update_replaces_device_data_witness :
  exists e e',
    find_pk evidence_pk "e1" (evidence_items db_item_full) = Some e
    /\ device_specific_data e
       = {[ "os_type" := JStr "iOS";
            "sim_cards" := JList [ {[ "iccid" := "A"; "imsi" := "X" ]}; {[ "iccid" := "B" ]} ] ]}
    /\ find_pk evidence_pk "e1"
         (evidence_items
            (evidence_update empty_md5 empty_sha1 empty_sha256 no_dates now25 "e1"
               post_bare db_item_full).2) = Some e'
    /\ device_specific_data e' = ∅
    /\ device_specific_data e' !! "os_type" = None
    /\ device_specific_data e' !! "sim_cards" = None.
Proof.
  destruct (update_replaces_device_data empty_md5 empty_sha1 empty_sha256 no_dates now25 "e1"
              post_bare db_item_full "Evidence updated successfully!"
              (evidence_update empty_md5 empty_sha1 empty_sha256 no_dates now25 "e1"
                 post_bare db_item_full).2)
    as (d & e' & Hd & Hfind & Hdata & Hflat & Hsim).
  - vm_compute. reflexivity.
  - eexists _, e'. split; [vm_compute; reflexivity|]. split; [vm_compute; reflexivity|].
    split; [exact Hfind|]. split; [|split].
    + rewrite Hdata. assert (Ok d = Ok (∅ : gmap string jvalue)) as [= ->]; [|done].
      rewrite <- Hd. vm_compute. reflexivity.
    + apply Hflat; [discriminate|reflexivity].
    + apply Hsim. reflexivity.
Defined.

(** * Further properties *)

(** ** Evidence numbers in sequence *)

Section EvidenceNumbers.
Import Py PyFacts.
Variables md5 sha1 sha256 : list byte -> string.
Variable parse_datetime : string -> result (option datetime).

Abbreviation fp := (fingerprint md5 sha1 sha256).
Abbreviation esave := (model_save evidence_pk evidence_number evidence_not_null).

Lemma split_nonempty sep s : split sep s <> [].
Proof.
  destruct s as [|c r]; [done|]. cbn [split].
  destruct (Ascii.eqb c sep); [done|]. by destruct (split sep r).
Qed.

(** Splitting at a separator splits on both sides of it. *)
Lemma split_at sep a b :
  split sep (a +:+ String sep b) = split sep a ++ split sep b.
Proof.
  induction a as [|c r IH].
  - rewrite append_nil. cbn [split]. by rewrite Ascii.eqb_refl.
  - rewrite append_cons. cbn [split]. rewrite IH.
    destruct (Ascii.eqb c sep); [done|].
    pose proof (split_nonempty sep r). by destruct (split sep r).
Qed.

Lemma last_app_nonempty {A : Type} (l1 l2 : list A) :
  l2 <> [] -> last (l1 ++ l2) = last l2.
Proof.
  intros Hne. destruct l2 as [|x l2] using rev_ind; [done|].
  by rewrite app_assoc, !last_snoc.
Qed.

(** The counter of a generated number reads back, whatever the prefix. *)
Lemma minted_reads_back prefix width k :
  0 <= k ->
  last (split "-" (prefix +:+ "-" +:+ format_0d width k)) ≫= int = Some k.
Proof.
  intros Hk. change ("-" +:+ format_0d width k) with (String "-" (format_0d width k)).
  rewrite split_at, last_app_nonempty by apply split_nonempty.
  rewrite split_lacks by apply digits_only_lacks_dash, format_0d_digits, Hk.
  cbn. by apply int_format_0d.
Qed.

Lemma append_inj_r p a b : p +:+ a = p +:+ b -> a = b.
Proof.
  induction p as [|c r IH]; [done|]. rewrite !append_cons. intros [= H]. by apply IH.
Qed.

Lemma minted_counter_inj prefix a b : minted prefix a = minted prefix b -> a = b.
Proof.
  unfold minted. intros H%append_inj_r.
  change ("-" +:+ format_0d 3 (Z.of_nat a)) with (String "-" (format_0d 3 (Z.of_nat a))) in H.
  change ("-" +:+ format_0d 3 (Z.of_nat b)) with (String "-" (format_0d 3 (Z.of_nat b))) in H.
  injection H as H. apply (f_equal int) in H.
  rewrite !int_format_0d in H by lia. injection H. lia.
Qed.

Lemma startswith_prefix a b s : startswith (a +:+ b) s = true -> startswith a s = true.
Proof.
  revert s. induction a as [|c r IH]; intros s; [done|].
  rewrite append_cons. destruct s as [|c' s']; cbn [startswith]; [done|].
  intros [H1 H2]%andb_true_iff. rewrite H1. cbn. by apply IH.
Qed.

Lemma startswith_minted prefix k : startswith prefix (minted prefix k) = true.
Proof. apply startswith_app. Qed.

Lemma compare_append p a b : String.compare (p +:+ a) (p +:+ b) = String.compare a b.
Proof.
  induction p as [|c r IH]; [done|]. rewrite !append_cons. cbn [String.compare].
  assert (Ascii.compare c c = Eq) as -> by (unfold Ascii.compare; apply N.compare_refl).
  done.
Qed.

Lemma str_le_append p a b : str_le (p +:+ a) (p +:+ b) = str_le a b.
Proof. unfold str_le. by rewrite compare_append. Qed.

(** Among three-digit counters the text order is the numeric order. *)
Lemma counters_ordered k :
  (1 <= k < 999)%nat ->
  str_le (format_0d 3 (Z.of_nat k)) (format_0d 3 (Z.of_nat (S k))) = true.
Proof.
  intros Hk.
  assert (forallb (fun k => str_le (format_0d 3 (Z.of_nat k)) (format_0d 3 (Z.of_nat (S k))))
            (seq 1 998) = true) as H by (vm_compute; reflexivity).
  rewrite forallb_forall in H. apply H, in_seq. lia.
Qed.

Lemma minted_ordered prefix k :
  (1 <= k < 999)%nat -> str_le (minted prefix k) (minted prefix (S k)) = true.
Proof.
  intros Hk. unfold minted. rewrite str_le_append.
  change ("-" +:+ format_0d 3 (Z.of_nat k)) with ("-" +:+ format_0d 3 (Z.of_nat k)).
  rewrite (str_le_append "-"). by apply counters_ordered.
Qed.

Lemma minted_1000 prefix : str_le (minted prefix 999) (minted prefix 1000) = false.
Proof. unfold minted. by rewrite str_le_append, (str_le_append "-"). Qed.

Lemma greatest_snoc l x :
  greatest (l ++ [x])
  = match greatest l with
    | Some b => if str_le b x then Some x else Some b
    | None => Some x
    end.
Proof. unfold greatest. by rewrite fold_left_app. Qed.

(** The row the lookup finds once [n] numbers were generated. *)
Lemma greatest_minted prefix n :
  (n <= 1000)%nat ->
  greatest (minted prefix <$> seq 1 n)
  = if decide (n = 0%nat) then None else Some (minted prefix (Nat.min n 999)).
Proof.
  induction n as [|n IH]; intros Hn; [done|].
  rewrite seq_S, fmap_app.
  change (minted prefix <$> [(1 + n)%nat]) with [minted prefix (S n)].
  rewrite greatest_snoc, IH by lia.
  destruct (decide (n = 0%nat)) as [->|Hne]; [done|].
  destruct (decide (S n = 0%nat)); [done|].
  destruct (decide (n = 999%nat)) as [->|Hlt].
  - rewrite Nat.min_id, (Nat.min_r 1000 999) by lia. by rewrite (minted_1000 prefix).
  - rewrite Nat.min_l by lia. rewrite minted_ordered by lia.
    by rewrite Nat.min_l by lia.
Qed.

(** [evidence_create] once the number is chosen, the dates are read and the
    case reference is valid: all hangs on the insert. *)
Lemma evidence_create_eval now uuid POST db number received seizure acquisition :
  (if negb (nonempty (strip (Form.get_or POST "evidence_number" "")))
   then auto_evidence_number now (Form.get POST "case") db
   else Some (strip (Form.get_or POST "evidence_number" ""))) = Some number ->
  parse_date_field parse_datetime POST "received_date" = Ok received ->
  parse_date_field parse_datetime POST "seizure_date" = Ok seizure ->
  parse_date_field parse_datetime POST "acquisition_date" = Ok acquisition ->
  str_truthy (Form.get POST "case")
    && negb (pk_exists case_pk (default "" (Form.get POST "case")) (cases db)) = false ->
  let r := created_evidence now uuid number POST (extract_form POST)
             received seizure acquisition in
  evidence_create md5 sha1 sha256 parse_datetime now uuid POST db
  = match esave true (fp r) (evidence_items db) with
    | Some t' => (Ok (Success ("Evidence " +:+ number +:+ " added successfully!")),
                  mkDB (cases db) t' (transfers db ++ created_rows now (fp r)))
    | None => (Ok (FormError "Error creating evidence"), db)
    end.
Proof.
  intros Hnum Hr Hs Ha Hcase r.
  unfold evidence_create, mbind, M_bind, mret, M_ret, read, lift.
  rewrite Hnum, extract_form_ok, Hr, Hs, Ha, Hcase.
  unfold try_except, Evidence_objects_create, Evidence_save, Evidence_super_save. fold r.
  destruct (esave true (fp r) (evidence_items db)) as [t'|]; [|done].
  destruct (fingerprint_keeps md5 sha1 sha256 r) as (_ & Fnum & _).
  unfold EvidenceTransfer_objects_create, created_rows. rewrite Fnum.
  destruct (nonempty (current_department (fp r))).
  - done.
  - by rewrite set_items_no_rows.
Qed.

Lemma insert_ok {R : Type} (pk ukey : R -> string) (not_null : R -> bool) r t :
  not_null r = true ->
  pk_exists pk (pk r) t = false ->
  (forall x, x ∈ t -> ukey x <> ukey r) ->
  model_save pk ukey not_null true r t = Some (t ++ [r]).
Proof.
  intros Hnn Hpk Hfree. unfold model_save, sql_insert. rewrite Hnn, Hpk.
  assert (taken_by_other pk ukey (pk r) (ukey r) t = false) as ->; [|done].
  apply taken_by_other_false. intros x Hx _. by apply Hfree.
Qed.

Lemma fingerprint_case_id e : case_id (fp e) = case_id e.
Proof. unfold fingerprint. destruct (file_path e); [destruct (negb _)|]; done. Qed.


Lemma scope_snoc case items e :
  case_id e = Some (case_pk case) ->
  startswith (case_number case) (evidence_number e) = true ->
  case_evidence_numbers case (items ++ [e])
  = case_evidence_numbers case items ++ [evidence_number e].
Proof.
  intros H1 H2. unfold case_evidence_numbers. rewrite List.filter_app, fmap_app.
  cbn [List.filter]. by rewrite H2, (bool_decide_eq_true_2 _ H1).
Qed.




End EvidenceNumbers.



(** ** Deleting *)

Section Deleting.
Context {R : Type} (pk : R -> string).

Lemma sql_delete_elem id (t : list R) x :
  x ∈ sql_delete pk id t <-> x ∈ t /\ pk x <> id.
Proof.
  unfold sql_delete. rewrite list_elem_of_In, filter_In, <- list_elem_of_In.
  rewrite negb_true_iff, String.eqb_neq. tauto.
Qed.

Lemma find_pk_delete id id' (t : list R) :
  find_pk pk id' (sql_delete pk id t)
  = if String.eqb id id' then None else find_pk pk id' t.
Proof.
  unfold find_pk, sql_delete. induction t as [|r t IH]; cbn [List.filter find].
  - by destruct (String.eqb id id').
  - destruct (String.eqb (pk r) id) eqn:E; cbn [negb find].
    + rewrite IH. apply String.eqb_eq in E. rewrite E.
      by destruct (String.eqb id id').
    + destruct (String.eqb (pk r) id') eqn:E'; [|done].
      apply String.eqb_eq in E'. rewrite <- E'.
      rewrite String.eqb_sym in E. by rewrite E.
Qed.

Lemma pk_exists_delete id id' (t : list R) :
  pk_exists pk id' (sql_delete pk id t)
  = negb (String.eqb id id') && pk_exists pk id' t.
Proof.
  unfold pk_exists, sql_delete. induction t as [|r t IH]; cbn [List.filter existsb].
  - by rewrite andb_false_r.
  - destruct (String.eqb (pk r) id) eqn:E; cbn [negb existsb].
    + rewrite IH. apply String.eqb_eq in E. rewrite E.
      by destruct (String.eqb id id').
    + rewrite IH. destruct (String.eqb (pk r) id') eqn:E'; [|done].
      apply String.eqb_eq in E'. rewrite <- E'.
      rewrite String.eqb_sym in E. by rewrite E.
Qed.

Lemma sql_delete_fresh id (t : list R) :
  pk_exists pk id t = false -> sql_delete pk id t = t.
Proof.
  rewrite pk_exists_false. intros H. unfold sql_delete. apply filter_all.
  apply Forall_forall. intros x Hx. apply negb_true_iff, String.eqb_neq. by apply H.
Qed.

Lemma sql_delete_app id (t1 t2 : list R) :
  sql_delete pk id (t1 ++ t2) = sql_delete pk id t1 ++ sql_delete pk id t2.
Proof. apply List.filter_app. Qed.

End Deleting.

Lemma ledger_delete pk pk' cs items rows :
  ledger pk' (mkDB cs items (sql_delete evidence pk rows))
  = if String.eqb pk pk' then [] else ledger pk' (mkDB cs items rows).
Proof.
  unfold ledger, sql_delete. cbn [transfers].
  induction rows as [|r rows IH]; cbn [List.filter].
  - by destruct (String.eqb pk pk').
  - destruct (String.eqb (evidence r) pk) eqn:E; cbn [negb List.filter].
    + rewrite IH. apply String.eqb_eq in E. rewrite E.
      by destruct (String.eqb pk pk').
    + destruct (String.eqb (evidence r) pk') eqn:E'.
      * rewrite IH. apply String.eqb_eq in E'. rewrite <- E'.
        rewrite String.eqb_sym in E. by rewrite E.
      * exact IH.
Qed.

Lemma ledger_tables pk db :
  ledger pk db = ledger pk (mkDB (cases db) (evidence_items db) (transfers db)).
Proof. done. Qed.

(** Deleting an item keeps the tables in order. *)
Lemma Evidence_delete_in_order e db :
  in_order db -> in_order (Evidence_delete e db).2.
Proof.
  intros [(Huniq & Hnn & Href) Hcust]. unfold Evidence_delete. cbn [snd].
  split; [split; [|split]|]; cbn [evidence_items transfers].
  - intros e1 e2 H1 H2. apply sql_delete_elem in H1 as [H1 _].
    apply sql_delete_elem in H2 as [H2 _]. by apply Huniq.
  - apply Forall_forall. intros x Hx. apply sql_delete_elem in Hx as [Hx _].
    rewrite Forall_forall in Hnn. by apply Hnn.
  - apply Forall_forall. intros r Hr. apply sql_delete_elem in Hr as [Hr Hne].
    rewrite Forall_forall in Href. rewrite pk_exists_delete, (Href r Hr), andb_true_r.
    apply negb_true_iff, String.eqb_neq. congruence.
  - intros x Hx. cbn [evidence_items] in Hx. apply sql_delete_elem in Hx as [Hx Hne].
    unfold last_to_department. rewrite ledger_delete.
    apply String.eqb_neq in Hne. rewrite String.eqb_sym in Hne. rewrite Hne.
    apply (Hcust x Hx).
Qed.

Section Deletions.
Variables md5 sha1 sha256 : list byte -> string.
Variable parse_datetime : string -> result (option datetime).

Abbreviation fp := (fingerprint md5 sha1 sha256).
Abbreviation esave := (model_save evidence_pk evidence_number evidence_not_null).

Lemma insert_appends (r : Evidence) t t' : esave true r t = Some t' -> t' = t ++ [r].
Proof.
  unfold model_save, sql_insert. destruct (_ && _); [|done]. by intros [= <-].
Qed.

(** What a successful creation wrote. *)
Lemma evidence_create_success now uuid POST db msg db' :
  evidence_create md5 sha1 sha256 parse_datetime now uuid POST db = (Ok (Success msg), db') ->
  exists e,
    db' = mkDB (cases db) (evidence_items db ++ [e]) (transfers db ++ created_rows now e)
    /\ evidence_pk e = uuid
    /\ pk_exists evidence_pk uuid (evidence_items db) = false
    /\ msg = "Evidence " +:+ evidence_number e +:+ " added successfully!".
Proof.
  unfold evidence_create, mbind, M_bind, mret, M_ret, read, lift; cbv beta.
  destruct (if negb _ then _ else _) as [number|]; [|done].
  rewrite extract_form_ok.
  destruct (parse_date_field parse_datetime POST "received_date") as [received|]; [|done].
  destruct (parse_date_field parse_datetime POST "seizure_date") as [seizure|]; [|done].
  destruct (parse_date_field parse_datetime POST "acquisition_date") as [acquisition|];
    [|done].
  destruct (str_truthy _ && _); [done|].
  unfold try_except, Evidence_objects_create, Evidence_save, Evidence_super_save.
  set (r := created_evidence now uuid number POST (extract_form POST)
              received seizure acquisition).
  destruct (esave true (fp r) (evidence_items db)) as [t'|] eqn:Hsave; [|done].
  pose proof (insert_fresh _ _ _ Hsave) as Hfresh.
  apply insert_appends in Hsave as ->.
  destruct (fingerprint_keeps md5 sha1 sha256 r) as (Fpk & _).
  rewrite Fpk in Hfresh. cbn [r created_evidence evidence_pk] in Hfresh.
  unfold EvidenceTransfer_objects_create, created_rows.
  destruct (Py.nonempty (current_department (fp r))) eqn:E; intros [= <- <-].
  - exists (fp r). by rewrite E, Fpk.
  - exists (fp r). by rewrite E, Fpk, set_items_no_rows.
Qed.

Lemma evidence_delete_eval pk db e :
  find_pk evidence_pk pk (evidence_items db) = Some e ->
  evidence_delete pk db
  = (Ok (Success ("Evidence " +:+ evidence_number e +:+ " deleted successfully!")),
     mkDB (cases db) (sql_delete evidence_pk pk (evidence_items db))
       (sql_delete evidence pk (transfers db))).
Proof.
  intros Hfind. unfold evidence_delete, get_evidence_or_404, mbind, M_bind, mret, M_ret.
  rewrite Hfind. unfold Evidence_delete.
  by destruct (find_pk_Some _ _ _ _ Hfind) as [_ ->].
Qed.

End Deletions.

(** X3.  Deleting a stored item answers with its number, removes the item
    and its whole ledger, leaves every other item and ledger as they were,
    and keeps the tables in order; the case table is not touched. *)
Theorem evidence_delete_cascades pk db e :
  in_order db ->
  find_pk evidence_pk pk (evidence_items db) = Some e ->
  exists db',
    evidence_delete pk db
    = (Ok (Success ("Evidence " +:+ evidence_number e +:+ " deleted successfully!")), db')
    /\ cases db' = cases db
    /\ find_pk evidence_pk pk (evidence_items db') = None
    /\ ledger pk db' = []
    /\ (forall pk', pk' <> pk ->
          find_pk evidence_pk pk' (evidence_items db')
          = find_pk evidence_pk pk' (evidence_items db)
          /\ ledger pk' db' = ledger pk' db)
    /\ in_order db'.
Proof.
  intros Hord Hfind. eexists. split; [by apply evidence_delete_eval|].
  cbn [cases evidence_items]. split; [done|]. split; [|split; [|split]].
  - by rewrite find_pk_delete, String.eqb_refl.
  - by rewrite ledger_delete, String.eqb_refl.
  - intros pk' Hne. apply not_eq_sym, String.eqb_neq in Hne.
    by rewrite find_pk_delete, ledger_delete, Hne.
  - pose proof (Evidence_delete_in_order e db Hord) as H.
    unfold Evidence_delete in H. cbn [snd] in H.
    by destruct (find_pk_Some _ _ _ _ Hfind) as [_ <-].
Qed.

Lemma evidence_delete_cascades_witness :
  exists db',
    evidence_delete "e1" db_item_ar
    = (Ok (Success "Evidence 25-0008-001 deleted successfully!"), db')
    /\ cases db' = cases db_item_ar
    /\ find_pk evidence_pk "e1" (evidence_items db') = None
    /\ ledger "e1" db' = []
    /\ (forall pk', pk' <> "e1" ->
          find_pk evidence_pk pk' (evidence_items db')
          = find_pk evidence_pk pk' (evidence_items db_item_ar)
          /\ ledger pk' db' = ledger pk' db_item_ar)
    /\ in_order db'.
Proof.
  apply (evidence_delete_cascades "e1" db_item_ar sample_evidence_ar).
  - exact db_item_ar_in_order.
  - reflexivity.
Defined.

(** X4.  Deleting the item a creation just stored puts the case, evidence
    and transfer tables back as they were before the creation: the new row
    and the ledger row of its creation go, and no other row of these three
    tables changes.  (Documents uploaded with the item are kept by the
    program, unbound; they are no part of these tables.) *)
Theorem evidence_create_then_delete md5 sha1 sha256 parse_datetime now uuid POST db msg db' :
  store_ok db ->
  evidence_create md5 sha1 sha256 parse_datetime now uuid POST db = (Ok (Success msg), db') ->
  exists number,
    msg = "Evidence " +:+ number +:+ " added successfully!"
    /\ evidence_delete uuid db'
       = (Ok (Success ("Evidence " +:+ number +:+ " deleted successfully!")), db).
Proof.
  intros (_ & _ & Href) Hrun.
  apply evidence_create_success in Hrun as (e & -> & Hpk & Hfresh & ->).
  exists (evidence_number e). split; [done|].
  rewrite (evidence_delete_eval uuid _ e).
  - cbn [cases evidence_items transfers]. rewrite !sql_delete_app.
    rewrite (sql_delete_fresh evidence_pk uuid (evidence_items db) Hfresh).
    assert (sql_delete evidence uuid (transfers db) = transfers db) as ->.
    { apply filter_all. eapply Forall_impl; [exact Href|]. intros r Hr. cbn beta in *.
      apply negb_true_iff, String.eqb_neq. intros Heq. congruence. }
    assert (sql_delete evidence_pk uuid [e] = []) as ->.
    { unfold sql_delete. cbn [List.filter]. by rewrite Hpk, String.eqb_refl. }
    assert (sql_delete evidence uuid (created_rows now e) = []) as ->.
    { unfold created_rows, sql_delete. destruct (Py.nonempty _); [|done].
      cbn [List.filter evidence]. by rewrite Hpk, String.eqb_refl. }
    rewrite !app_nil_r. by destruct db.
  - cbn [evidence_items]. rewrite find_pk_app_fresh by by rewrite Hpk.
    by rewrite Hpk, String.eqb_refl.
Qed.

Lemma evidence_create_then_delete_witness :
  exists number,
    "Evidence 25-0008-001 added successfully!"
    = "Evidence " +:+ number +:+ " added successfully!"
    /\ evidence_delete "e1" db_item_ar
       = (Ok (Success ("Evidence " +:+ number +:+ " deleted successfully!")), db_case8).
Proof.
  apply (evidence_create_then_delete empty_md5 empty_sha1 empty_sha256 no_dates now25
           "e1" post_case8_ar db_case8).
  - apply in_order_no_evidence.
  - reflexivity.
Defined.

(** ** The case views *)

Section CaseViews.
Import Py PyFacts.

(** The row [case_create] hands to [Case.objects.create]. *)
Lemma case_create_blank now uuid POST db m name :
  is_max_seq (strftime_y now) (cases db) m ->
  strip (Form.get_or POST "case_number" "") = "" ->
  Form.get POST "case_name" = Some name ->
  pk_exists case_pk uuid (cases db) = false ->
  let number := strftime_y now +:+ "-" +:+ format_0d 4 (m + 1) in
  exists c,
    case_create now uuid POST db
    = (Ok (Success ("Case " +:+ number +:+ " created successfully!")),
       set_cases (cases db ++ [c]) db)
    /\ case_pk c = uuid /\ case_number c = number.
Proof.
  intros Hm Hblank Hname Hpk number. unfold case_create. rewrite Hblank, Hname.
  cbn [nonempty].
  set (new := mkCase uuid "" _ _ _ _ _ _).
  destruct (create_blank_case now new db m Hm) as [Hrun _]; [done|done|].
  unfold try_except, mbind, M_bind, mret, M_ret. rewrite Hrun.
  eexists. split; [reflexivity|]. done.
Qed.

Lemma case_create_typed now uuid POST db name :
  let number := strip (Form.get_or POST "case_number" "") in
  number <> "" ->
  Form.get POST "case_name" = Some name ->
  pk_exists case_pk uuid (cases db) = false ->
  (forall c, c ∈ cases db -> case_number c <> number) ->
  exists c,
    case_create now uuid POST db
    = (Ok (Success ("Case " +:+ number +:+ " created successfully!")),
       set_cases (cases db ++ [c]) db)
    /\ case_pk c = uuid /\ case_number c = number.
Proof.
  intros number Hne Hname Hpk Hfree.
  unfold case_create, try_except, Case_objects_create, Case_save, Case_super_save.
  unfold mbind, M_bind, mret, M_ret, read. fold number.
  rewrite (nonempty_neq number Hne), Hname. cbn [case_number nonempty negb].
  rewrite (nonempty_neq number Hne). cbn [negb].
  rewrite insert_ok; [|done|done|done].
  eexists. split; [reflexivity|]. done.
Qed.

Lemma check_case_number_eval GET db :
  let number := strip (Form.get_or GET "case_number" "") in
  exists found,
    check_case_number GET db = (Ok found, db)
    /\ (found = true <-> number <> "" /\ exists c, c ∈ cases db /\ case_number c = number).
Proof.
  intros number. unfold check_case_number. fold number.
  destruct number as [|a s] eqn:E.
  - exists false. split; [done|]. split; [done|]. by intros [? _].
  - cbn [nonempty negb]. unfold mbind, M_bind, read, mret, M_ret.
    eexists. split; [reflexivity|]. rewrite existsb_exists. split.
    + intros (c & Hin & Heq). split; [done|]. exists c.
      rewrite list_elem_of_In. by apply String.eqb_eq in Heq.
    + intros (_ & c & Hin & Heq). exists c. rewrite <- list_elem_of_In.
      by apply String.eqb_eq in Heq.
Qed.

Lemma case_delete_eval pk db c :
  find_pk case_pk pk (cases db) = Some c ->
  case_delete pk db
  = (Ok (Success ("Case " +:+ case_number c +:+ " deleted successfully!")),
     mkDB (sql_delete case_pk pk (cases db)) (unbind_case pk <$> evidence_items db)
       (transfers db)).
Proof.
  intros Hfind. unfold case_delete, get_case_or_404, mbind, M_bind, mret, M_ret.
  rewrite Hfind. unfold Case_delete.
  by destruct (find_pk_Some _ _ _ _ Hfind) as [_ ->].
Qed.

Lemma unbind_case_keeps id e :
  evidence_pk (unbind_case id e) = evidence_pk e
  /\ evidence_number (unbind_case id e) = evidence_number e
  /\ evidence_not_null (unbind_case id e) = evidence_not_null e
  /\ current_department (unbind_case id e) = current_department e.
Proof. unfold unbind_case. by destruct (bool_decide _). Qed.

Lemma unbind_case_unbound id e : case_id (unbind_case id e) <> Some id.
Proof.
  unfold unbind_case. destruct (bool_decide _) eqn:E; [done|].
  by apply bool_decide_eq_false in E.
Qed.

Lemma pk_exists_fmap {R : Type} (pk : R -> string) (f : R -> R) id t :
  (forall r, pk (f r) = pk r) -> pk_exists pk id (f <$> t) = pk_exists pk id t.
Proof.
  intros H. unfold pk_exists. induction t as [|r t IH]; [done|].
  cbn [fmap list_fmap existsb]. rewrite H. f_equal. exact IH.
Qed.

Lemma Case_delete_in_order c db : in_order db -> in_order (Case_delete c db).2.
Proof.
  intros [(Huniq & Hnn & Href) Hcust]. unfold Case_delete. cbn [snd].
  split; [split; [|split]|]; cbn [evidence_items transfers].
  - intros e1 e2 (x1 & -> & H1)%list_elem_of_fmap (x2 & -> & H2)%list_elem_of_fmap.
    destruct (unbind_case_keeps (case_pk c) x1) as (-> & -> & _).
    destruct (unbind_case_keeps (case_pk c) x2) as (-> & -> & _). by apply Huniq.
  - apply Forall_fmap. eapply Forall_impl; [exact Hnn|]. intros x Hx. cbn.
    by destruct (unbind_case_keeps (case_pk c) x) as (_ & _ & -> & _).
  - eapply Forall_impl; [exact Href|]. intros r Hr. cbn beta in *.
    rewrite pk_exists_fmap; [done|]. intros x.
    by destruct (unbind_case_keeps (case_pk c) x) as (-> & _).
  - intros e (x & -> & Hx)%list_elem_of_fmap.
    destruct (unbind_case_keeps (case_pk c) x) as (-> & _ & _ & ->).
    apply (Hcust x Hx).
Qed.

End CaseViews.

(** X5.  The availability check agrees with creation: it answers
    [exists] exactly when creating a case under the typed number would be
    refused as a duplicate; otherwise the creation succeeds, under the typed
    number when one was typed. *)
Theorem check_case_number_predicts_create now uuid GET POST db name :
  Py.strip (Form.get_or GET "case_number" "") = Py.strip (Form.get_or POST "case_number" "") ->
  Form.get POST "case_name" = Some name ->
  pk_exists case_pk uuid (cases db) = false ->
  let number := Py.strip (Form.get_or POST "case_number" "") in
  exists found,
    check_case_number GET db = (Ok found, db)
    /\ (found = true ->
        number <> ""
        /\ case_create now uuid POST db
           = (Ok (FormError ("Case number " +:+ quoted number
                             +:+ " already exists. Please use a different case number.")),
              db))
    /\ (found = false ->
        exists c,
          case_create now uuid POST db
          = (Ok (Success ("Case " +:+ case_number c +:+ " created successfully!")),
             set_cases (cases db ++ [c]) db)
          /\ case_pk c = uuid
          /\ (number <> "" -> case_number c = number)).
Proof.
  intros Hsame Hname Hpk number.
  destruct (check_case_number_eval GET db) as (found & Hrun & Hfound).
  rewrite Hsame in Hfound. fold number in Hfound.
  exists found. split; [done|]. split.
  - intros Htrue. apply Hfound in Htrue as (Hne & c & Hin & Hnum). split; [done|].
    by apply (case_create_taken now uuid POST db c).
  - intros Hfalse. destruct (decide (number = "")) as [Hblank|Hne].
    + destruct (case_create_blank now uuid POST db _ name
                  (scan_is_max (strftime_y now) uuid (cases db) Hpk) Hblank Hname Hpk)
        as (c & Hcreate & Hcpk & Hnum).
      exists c. rewrite Hnum. by split.
    + destruct (case_create_typed now uuid POST db name Hne Hname Hpk) as
        (c & Hcreate & Hcpk & Hnum).
      * intros c Hin Hnum. assert (found = true) as Htrue; [|congruence].
        apply Hfound. split; [done|]. by exists c.
      * exists c. rewrite Hnum. by split.
Qed.

Lemma check_case_number_predicts_create_witness :
  exists found,
    check_case_number post_case_taken db_malformed = (Ok found, db_malformed)
    /\ (found = true ->
        "24-0100" <> ""
        /\ case_create now25 "n1" post_case_taken db_malformed
           = (Ok (FormError ("Case number " +:+ quoted "24-0100"
                             +:+ " already exists. Please use a different case number.")),
              db_malformed))
    /\ (found = false ->
        exists c,
          case_create now25 "n1" post_case_taken db_malformed
          = (Ok (Success ("Case " +:+ case_number c +:+ " created successfully!")),
             set_cases (cases db_malformed ++ [c]) db_malformed)
          /\ case_pk c = "n1"
          /\ ("24-0100" <> "" -> case_number c = "24-0100")).
Proof.
  apply (check_case_number_predicts_create now25 "n1" post_case_taken post_case_taken
           db_malformed "Case"); reflexivity.
Defined.

(** X6.  Deleting a case answers with its number, removes the case only,
    and unbinds its evidence: the items stay, with their numbers and their
    ledgers, but none refers to the case any more; the tables stay in
    order. *)
Theorem case_delete_unbinds pk db c :
  in_order db ->
  find_pk case_pk pk (cases db) = Some c ->
  exists db',
    case_delete pk db
    = (Ok (Success ("Case " +:+ case_number c +:+ " deleted successfully!")), db')
    /\ find_pk case_pk pk (cases db') = None
    /\ (forall pk', pk' <> pk ->
          find_pk case_pk pk' (cases db') = find_pk case_pk pk' (cases db))
    /\ transfers db' = transfers db
    /\ evidence_pk <$> evidence_items db' = evidence_pk <$> evidence_items db
    /\ evidence_number <$> evidence_items db' = evidence_number <$> evidence_items db
    /\ (forall e, e ∈ evidence_items db ->
          case_id e <> Some pk -> e ∈ evidence_items db')
    /\ (forall e', e' ∈ evidence_items db' -> case_id e' <> Some pk)
    /\ in_order db'.
Proof.
  intros Hord Hfind. eexists. split; [by apply case_delete_eval|].
  cbn [cases evidence_items transfers].
  split; [by rewrite find_pk_delete, String.eqb_refl|].
  split.
  { intros pk' Hne. apply not_eq_sym, String.eqb_neq in Hne.
    by rewrite find_pk_delete, Hne. }
  split; [done|].
  split.
  { rewrite <- list_fmap_compose. apply list_fmap_ext. intros i x _. cbn.
    by destruct (unbind_case_keeps pk x) as (-> & _). }
  split.
  { rewrite <- list_fmap_compose. apply list_fmap_ext. intros i x _. cbn.
    by destruct (unbind_case_keeps pk x) as (_ & -> & _). }
  split.
  { intros e He Hid. apply list_elem_of_fmap. exists e. split; [|done].
    unfold unbind_case. by rewrite bool_decide_eq_false_2. }
  split.
  { intros e' (x & -> & _)%list_elem_of_fmap. apply unbind_case_unbound. }
  pose proof (Case_delete_in_order c db Hord) as H.
  unfold Case_delete in H. cbn [snd] in H.
  by destruct (find_pk_Some _ _ _ _ Hfind) as [_ <-].
Qed.

Lemma case_delete_unbinds_witness :
  exists db',
    case_delete "c8" db_item_ar
    = (Ok (Success "Case 25-0008 deleted successfully!"), db')
    /\ find_pk case_pk "c8" (cases db') = None
    /\ (forall pk', pk' <> "c8" ->
          find_pk case_pk pk' (cases db') = find_pk case_pk pk' (cases db_item_ar))
    /\ transfers db' = transfers db_item_ar
    /\ evidence_pk <$> evidence_items db' = ["e1"]
    /\ evidence_number <$> evidence_items db' = ["25-0008-001"]
    /\ (forall e, e ∈ evidence_items db_item_ar ->
          case_id e <> Some "c8" -> e ∈ evidence_items db')
    /\ (forall e', e' ∈ evidence_items db' -> case_id e' <> Some "c8")
    /\ in_order db'.
Proof.
  apply (case_delete_unbinds "c8" db_item_ar case_25_0008).
  - exact db_item_ar_in_order.
  - reflexivity.
Defined.

(** X7.  A case number is not retired: create a case with a blank number,
    delete it, and the next case created with a blank number in the same
    year is given the same number. *)
Theorem case_number_reissued now now' uuid uuid' POST POST' db name name' :
  strftime_y now' = strftime_y now ->
  Py.strip (Form.get_or POST "case_number" "") = "" ->
  Py.strip (Form.get_or POST' "case_number" "") = "" ->
  Form.get POST "case_name" = Some name ->
  Form.get POST' "case_name" = Some name' ->
  pk_exists case_pk uuid (cases db) = false ->
  pk_exists case_pk uuid' (cases db) = false ->
  exists number db1 db2 db3,
    case_create now uuid POST db
    = (Ok (Success ("Case " +:+ number +:+ " created successfully!")), db1)
    /\ case_delete uuid db1
       = (Ok (Success ("Case " +:+ number +:+ " deleted successfully!")), db2)
    /\ cases db2 = cases db
    /\ case_create now' uuid' POST' db2
       = (Ok (Success ("Case " +:+ number +:+ " created successfully!")), db3).
Proof.
  intros Hyear Hblank Hblank' Hname Hname' Hpk Hpk'.
  pose proof (scan_is_max (strftime_y now) uuid (cases db) Hpk) as Hm.
  set (m := scan_max_num _) in Hm.
  destruct (case_create_blank now uuid POST db m name Hm Hblank Hname Hpk)
    as (c & Hcreate & Hcpk & Hnum).
  assert (find_pk case_pk uuid (cases db ++ [c]) = Some c) as Hfind.
  { rewrite find_pk_app_fresh by by rewrite Hcpk. by rewrite Hcpk, String.eqb_refl. }
  pose proof (case_delete_eval uuid (set_cases (cases db ++ [c]) db) c Hfind) as Hdelete.
  cbn [set_cases cases evidence_items transfers] in Hdelete.
  rewrite sql_delete_app, (sql_delete_fresh case_pk uuid _ Hpk) in Hdelete.
  assert (sql_delete case_pk uuid [c] = []) as Hgone.
  { unfold sql_delete. cbn [List.filter]. by rewrite Hcpk, String.eqb_refl. }
  rewrite Hgone, app_nil_r, Hnum in Hdelete.
  set (db2 := mkDB (cases db) _ _) in Hdelete.
  destruct (case_create_blank now' uuid' POST' db2 m name') as (c' & Hcreate' & _);
    [by rewrite Hyear|done|done|done|].
  rewrite Hyear in Hcreate'.
  eexists _, _, db2, _. split; [exact Hcreate|]. split; [exact Hdelete|].
  split; [done|exact Hcreate'].
Qed.

Lemma case_number_reissued_witness :
  exists number db1 db2 db3,
    case_create now25 "n1" post_unnumbered db_case8
    = (Ok (Success ("Case " +:+ number +:+ " created successfully!")), db1)
    /\ case_delete "n1" db1
       = (Ok (Success ("Case " +:+ number +:+ " deleted successfully!")), db2)
    /\ cases db2 = cases db_case8
    /\ case_create now25 "n2" post_unnumbered db2
       = (Ok (Success ("Case " +:+ number +:+ " created successfully!")), db3).
Proof.
  apply (case_number_reissued now25 now25 "n1" "n2" post_unnumbered post_unnumbered
           db_case8 "Case" "Case"); reflexivity.
Defined.

Section Collisions.
Import Py PyFacts.
Variables md5 sha1 sha256 : list byte -> string.
Variable parse_datetime : string -> result (option datetime).

(** The number the lookup arrives at from the first [n] generated ones. *)
Lemma auto_number_after now db case n :
  find_pk case_pk (case_pk case) (cases db) = Some case ->
  case_pk case <> "" ->
  (n <= 999)%nat ->
  case_evidence_numbers case (evidence_items db) = minted (case_number case) <$> seq 1 n ->
  auto_evidence_number now (Some (case_pk case)) db = Some (minted (case_number case) (S n)).
Proof.
  intros Hcase Hpk Hn Hscope.
  unfold auto_evidence_number. cbn [str_truthy default]. rewrite (nonempty_neq _ Hpk).
  change (id (case_pk case)) with (case_pk case).
  rewrite Hcase, Hscope, greatest_minted by lia. unfold minted. do 4 f_equal.
  destruct (decide (n = 0%nat)) as [->|Hne]; [done|].
  rewrite Nat.min_l by lia. unfold next_num_after, minted.
  rewrite minted_reads_back by lia. lia.
Qed.

Lemma auto_create_collides now uuid POST db case n e :
  find_pk case_pk (case_pk case) (cases db) = Some case ->
  case_pk case <> "" ->
  auto_form parse_datetime (case_pk case) POST ->
  (n <= 999)%nat ->
  case_evidence_numbers case (evidence_items db) = minted (case_number case) <$> seq 1 n ->
  e ∈ evidence_items db ->
  evidence_number e = minted (case_number case) (S n) ->
  evidence_create md5 sha1 sha256 parse_datetime now uuid POST db
  = (Ok (FormError "Error creating evidence"), db).
Proof.
  intros Hcase Hpk (Hget & Hblank & (received & Hr) & (seizure & Hs) & (acquisition & Ha))
    Hn Hscope He Hnum.
  rewrite (evidence_create_eval md5 sha1 sha256 parse_datetime now uuid POST db
             (minted (case_number case) (S n)) received seizure acquisition);
    [| |done|done|done|].
  - erewrite insert_taken; [done|exact He|].
    destruct (fingerprint_keeps md5 sha1 sha256
                (created_evidence now uuid (minted (case_number case) (S n)) POST
                   (extract_form POST) received seizure acquisition)) as (_ & -> & _).
    exact Hnum.
  - rewrite Hblank, Hget. cbn [nonempty negb]. by apply auto_number_after.
  - rewrite Hget. cbn [str_truthy default]. rewrite (nonempty_neq _ Hpk).
    change (id (case_pk case)) with (case_pk case).
    by rewrite (find_pk_exists _ _ _ _ Hcase).
Qed.

End Collisions.

(** X8.  The lookup for the next number reads only the items bound to the
    case.  When the number it arrives at is held by a stored item (one bound
    to another case or to none, then), the creation is refused and nothing
    is written, so every later attempt is refused alike. *)
Theorem number_held_elsewhere_blocks md5 sha1 sha256 parse_datetime now uuid POST db case n e :
  find_pk case_pk (case_pk case) (cases db) = Some case ->
  case_pk case <> "" ->
  auto_form parse_datetime (case_pk case) POST ->
  (n <= 999)%nat ->
  case_evidence_numbers case (evidence_items db) = minted (case_number case) <$> seq 1 n ->
  e ∈ evidence_items db ->
  evidence_number e = minted (case_number case) (S n) ->
  case_id e <> Some (case_pk case)
  /\ auto_evidence_number now (Some (case_pk case)) db
     = Some (minted (case_number case) (S n))
  /\ evidence_create md5 sha1 sha256 parse_datetime now uuid POST db
     = (Ok (FormError "Error creating evidence"), db).
Proof.
  intros Hcase Hpk Hform Hn Hscope He Hnum. split; [|split].
  - intros Hid.
    assert (evidence_number e ∈ case_evidence_numbers case (evidence_items db)) as Hin.
    { unfold case_evidence_numbers. apply list_elem_of_fmap. exists e. split; [done|].
      apply list_elem_of_In, filter_In. split; [by apply list_elem_of_In|].
      rewrite (bool_decide_eq_true_2 _ Hid), Hnum. apply startswith_minted. }
    rewrite Hscope, Hnum in Hin. apply list_elem_of_fmap in Hin as (i & Hi & Hin).
    apply minted_counter_inj in Hi. apply list_elem_of_In, in_seq in Hin. lia.
  - by apply auto_number_after.
  - by apply (auto_create_collides md5 sha1 sha256 parse_datetime now uuid POST db case n e).
Qed.

Lemma number_held_elsewhere_blocks_witness :
  case_id (with_case_id None sample_evidence_ar) <> Some "c9"
  /\ auto_evidence_number now25 (Some "c9") db_renumbered = Some "25-0008-001"
  /\ evidence_create empty_md5 empty_sha1 empty_sha256 no_dates now25 "e2" post_case9
       db_renumbered
     = (Ok (FormError "Error creating evidence"), db_renumbered).
Proof.
  apply (number_held_elsewhere_blocks empty_md5 empty_sha1 empty_sha256 no_dates now25 "e2"
           post_case9 db_renumbered (sample_case "c9" "25-0008") 0
           (with_case_id None sample_evidence_ar)).
  - reflexivity.
  - discriminate.
  - repeat split; try reflexivity; by eexists.
  - lia.
  - reflexivity.
  - vm_compute. by left.
  - reflexivity.
Defined.

(** ** Numbers of the creations that succeed *)

Section SequenceOnSuccess.
Import Py PyFacts.
Variables md5 sha1 sha256 : list byte -> string.
Variable parse_datetime : string -> result (option datetime).

Abbreviation fp := (fingerprint md5 sha1 sha256).
Abbreviation esave := (model_save evidence_pk evidence_number evidence_not_null).
Abbreviation create := (evidence_create md5 sha1 sha256 parse_datetime).

(** A creation that is answered with a success stored the number it was
    given, under the key of the request. *)
Lemma create_success_stored now uuid POST db number received seizure acquisition msg :
  (if negb (nonempty (strip (Form.get_or POST "evidence_number" "")))
   then auto_evidence_number now (Form.get POST "case") db
   else Some (strip (Form.get_or POST "evidence_number" ""))) = Some number ->
  parse_date_field parse_datetime POST "received_date" = Ok received ->
  parse_date_field parse_datetime POST "seizure_date" = Ok seizure ->
  parse_date_field parse_datetime POST "acquisition_date" = Ok acquisition ->
  (create now uuid POST db).1 = Ok (Success msg) ->
  let e := fp (created_evidence now uuid number POST (extract_form POST)
                 received seizure acquisition) in
  (create now uuid POST db).2
  = mkDB (cases db) (evidence_items db ++ [e]) (transfers db ++ created_rows now e).
Proof.
  intros Hnum Hr Hs Ha Hmsg e.
  destruct (str_truthy (Form.get POST "case")
            && negb (pk_exists case_pk (default "" (Form.get POST "case")) (cases db)))
    eqn:Hcase.
  - exfalso. revert Hmsg.
    unfold evidence_create, mbind, M_bind, mret, M_ret, read, lift.
    by rewrite Hnum, extract_form_ok, Hr, Hs, Ha, Hcase.
  - revert Hmsg.
    rewrite (evidence_create_eval md5 sha1 sha256 parse_datetime now uuid POST db number
               received seizure acquisition Hnum Hr Hs Ha Hcase).
    fold e. destruct (esave true e (evidence_items db)) as [t'|] eqn:Hsave; [|done].
    intros _. by rewrite (insert_appends e _ _ Hsave).
Qed.

Lemma auto_create_step_success now uuid POST db case n msg :
  find_pk case_pk (case_pk case) (cases db) = Some case ->
  case_pk case <> "" ->
  auto_form parse_datetime (case_pk case) POST ->
  (n <= 999)%nat ->
  case_evidence_numbers case (evidence_items db) = minted (case_number case) <$> seq 1 n ->
  (create now uuid POST db).1 = Ok (Success msg) ->
  exists e rows,
    (create now uuid POST db).2
    = mkDB (cases db) (evidence_items db ++ [e]) (transfers db ++ rows)
    /\ evidence_pk e = uuid
    /\ evidence_number e = minted (case_number case) (S n)
    /\ case_id e = Some (case_pk case).
Proof.
  intros Hcase Hpk (Hget & Hblank & (received & Hr) & (seizure & Hs) & (acquisition & Ha))
    Hn Hscope Hmsg.
  set (r := created_evidence now uuid (minted (case_number case) (S n)) POST
              (extract_form POST) received seizure acquisition).
  destruct (fingerprint_keeps md5 sha1 sha256 r) as (Fpk & Fnum & _).
  exists (fp r), (created_rows now (fp r)). split; [|split; [|split]].
  - apply (create_success_stored now uuid POST db _ received seizure acquisition msg);
      [|done|done|done|done].
    rewrite Hblank, Hget. cbn [nonempty negb]. by apply auto_number_after.
  - by rewrite Fpk.
  - by rewrite Fnum.
  - rewrite (fingerprint_case_id md5 sha1 sha256). cbn [r created_evidence case_id].
    rewrite Hget. cbn [str_truthy]. by rewrite (nonempty_neq _ Hpk).
Qed.

Lemma auto_run_success case reqs : forall db n,
  find_pk case_pk (case_pk case) (cases db) = Some case ->
  case_pk case <> "" ->
  case_evidence_numbers case (evidence_items db) = minted (case_number case) <$> seq 1 n ->
  Forall (auto_create parse_datetime (case_pk case)) reqs ->
  all_succeed (serve md5 sha1 sha256 parse_datetime) reqs db ->
  (n + length reqs <= 1000)%nat ->
  exists news,
    evidence_items (serve_all md5 sha1 sha256 parse_datetime reqs db)
    = evidence_items db ++ news
    /\ evidence_pk <$> news = request_uuid <$> reqs
    /\ evidence_number <$> news = minted (case_number case) <$> seq (S n) (length reqs)
    /\ Forall (fun e => case_id e = Some (case_pk case)) news.
Proof.
  induction reqs as [|r reqs IH]; intros db n Hcase Hpk Hscope Hforms Hall Hlen.
  - exists []. by rewrite app_nil_r.
  - apply Forall_cons in Hforms as [Hr Hforms]. destruct Hall as [[msg Hmsg] Hall].
    cbn [length] in Hlen.
    destruct r as [now uuid POST| | |]; try done. cbn [auto_create serve] in *.
    destruct (auto_create_step_success now uuid POST db case n msg)
      as (e & rows & Hrun & Epk & Enum & Eid); [done|done|done|lia|done|done|].
    cbn [serve_all fold_left serve]. rewrite Hrun in *.
    destruct (IH (mkDB (cases db) (evidence_items db ++ [e]) (transfers db ++ rows)) (S n))
      as (news & Hitems & Hpks & Hnums & Hids); [done|done| |done|done|cbn; lia|].
    { cbn [evidence_items]. rewrite scope_snoc, Hscope, Enum; [|done|].
      - by rewrite seq_S, fmap_app.
      - rewrite Enum. apply startswith_minted. }
    exists (e :: news). unfold serve_all in Hitems. rewrite Hitems.
    cbn [evidence_items fmap list_fmap length seq request_uuid].
    split; [by rewrite <- app_assoc|]. split; [by rewrite Epk, <- Hpks|].
    split; [by rewrite Enum, <- Hnums|]. by constructor.
Qed.

End SequenceOnSuccess.

(** X1.  For a case that has no item under its number yet, the creations
    that name the case and leave the number blank are numbered in the order
    they are served: when each of up to a thousand such requests in a row is
    answered with a success, the items they stored are, in order, [K-001],
    [K-002], ... ([K-1000] for the thousandth), each bound to the case and
    keyed as requested. *)
Theorem evidence_numbers_in_sequence md5 sha1 sha256 parse_datetime db case reqs :
  find_pk case_pk (case_pk case) (cases db) = Some case ->
  case_pk case <> "" ->
  case_evidence_numbers case (evidence_items db) = [] ->
  Forall (auto_create parse_datetime (case_pk case)) reqs ->
  all_succeed (serve md5 sha1 sha256 parse_datetime) reqs db ->
  (length reqs <= 1000)%nat ->
  exists news,
    evidence_items (serve_all md5 sha1 sha256 parse_datetime reqs db)
    = evidence_items db ++ news
    /\ evidence_pk <$> news = request_uuid <$> reqs
    /\ evidence_number <$> news = minted (case_number case) <$> seq 1 (length reqs)
    /\ Forall (fun e => case_id e = Some (case_pk case)) news.
Proof.
  intros Hcase Hpk Hscope Hforms Hall Hlen.
  by apply (auto_run_success md5 sha1 sha256 parse_datetime case reqs db 0).
Qed.

Lemma evidence_numbers_in_sequence_witness :
  exists news,
    evidence_items
      (serve_all empty_md5 empty_sha1 empty_sha256 no_dates
         [Create now25 "e1" post_case8; Create now25 "e2" post_case8_ar;
          Create now25 "e3" post_case8] db_case8)
    = news
    /\ evidence_pk <$> news = ["e1"; "e2"; "e3"]
    /\ evidence_number <$> news = ["25-0008-001"; "25-0008-002"; "25-0008-003"]
    /\ Forall (fun e => case_id e = Some "c8") news.
Proof.
  apply (evidence_numbers_in_sequence empty_md5 empty_sha1 empty_sha256 no_dates
           db_case8 case_25_0008
           [Create now25 "e1" post_case8; Create now25 "e2" post_case8_ar;
            Create now25 "e3" post_case8]).
  - reflexivity.
  - discriminate.
  - reflexivity.
  - repeat constructor; try reflexivity; by eexists.
  - repeat split; by eexists.
  - cbn. lia.
Defined.

(** ** The bulk action *)

Section BulkLoop.
Variables md5 sha1 sha256 : list byte -> string.

Abbreviation fp := (fingerprint md5 sha1 sha256).
Abbreviation esave := (model_save evidence_pk evidence_number evidence_not_null).

Lemma fingerprint_status e : status (fp e) = status e.
Proof. unfold fingerprint. destruct (file_path e); [destruct (negb _)|]; done. Qed.

Lemma bulk_changed_keeps now action value e :
  evidence_pk (bulk_changed now action value e) = evidence_pk e
  /\ evidence_number (bulk_changed now action value e) = evidence_number e
  /\ (evidence_not_null e = true ->
      evidence_not_null (bulk_changed now action value e) = true)
  /\ received_by (bulk_changed now action value e) = received_by e.
Proof.
  unfold bulk_changed, bulk_assigned.
  destruct (String.eqb action "department"); [by destruct (received_date e)|].
  destruct (String.eqb action "status"); [|done].
  repeat split. unfold evidence_not_null. cbn.
  intros [? _]%andb_true_iff. by apply andb_true_iff.
Qed.

(** One turn of the loop on a stored item: the save goes through. *)
Lemma bulk_update_one_found now action value n pk db e :
  store_ok db ->
  find_pk evidence_pk pk (evidence_items db) = Some e ->
  exists t',
    bulk_update_one md5 sha1 sha256 now action value n pk db
    = (Ok (S n), mkDB (cases db) t' (transfers db ++ bulk_logged now action value e))
    /\ esave false (fp (bulk_changed now action value e)) (evidence_items db) = Some t'.
Proof.
  intros Hok Hfind. pose proof (find_pk_Some _ _ _ _ Hfind) as [He Hpk]. subst pk.
  destruct (bulk_changed_keeps now action value e) as (R1 & R2 & R3 & R4).
  destruct (save_stored md5 sha1 sha256 db e (bulk_changed now action value e) Hok Hfind)
    as [t' Hsave]; [done|done|by apply R3, (not_null_stored db)|].
  exists t'. split; [|done].
  unfold bulk_update_one, mbind, M_bind, mret, M_ret, read. rewrite Hfind.
  unfold Evidence_save, Evidence_super_save, EvidenceTransfer_objects_create.
  revert Hsave R1 R4. unfold bulk_changed, bulk_logged, bulk_rows, bulk_assigned.
  destruct (String.eqb action "department").
  - change (received_date (with_department value e)) with (received_date e).
    destruct (String.eqb (current_department e) value); cbn [negb]; intros Hsave R1 R4.
    + destruct (received_date e); rewrite Hsave; by rewrite set_items_no_rows.
    + cbn [add_transfer evidence_items].
      destruct (received_date e); rewrite Hsave; by rewrite R1, R4.
  - destruct (String.eqb action "status"); intros -> _ _; by rewrite set_items_no_rows.
Qed.

Lemma bulk_update_one_missing now action value n pk db :
  find_pk evidence_pk pk (evidence_items db) = None ->
  bulk_update_one md5 sha1 sha256 now action value n pk db = (Ok n, db).
Proof.
  intros Hfind. unfold bulk_update_one, mbind, M_bind, mret, M_ret, read.
  by rewrite Hfind.
Qed.

Lemma save_keeps_keys (r : Evidence) t t' id :
  pk_exists evidence_pk (evidence_pk r) t = true ->
  esave false r t = Some t' ->
  pk_exists evidence_pk id t' = pk_exists evidence_pk id t.
Proof.
  intros Hex Hsave. pose proof (model_save_find _ _ _ _ _ _ _ id Hsave) as Hfind.
  destruct (String.eqb (evidence_pk r) id) eqn:E.
  - apply String.eqb_eq in E. subst id. rewrite Hex. apply pk_exists_find.
    rewrite Hfind. by eexists.
  - destruct (pk_exists evidence_pk id t) eqn:Ht.
    + apply pk_exists_find. rewrite Hfind. by apply pk_exists_find.
    + destruct (pk_exists evidence_pk id t') eqn:Ht'; [|done].
      apply pk_exists_find in Ht'. rewrite Hfind in Ht'. apply pk_exists_find in Ht'.
      congruence.
Qed.

End BulkLoop.

(** ** The bulk action and the quick update, when they answer *)

Section Answered.
Variables md5 sha1 sha256 : list byte -> string.

Abbreviation fp := (fingerprint md5 sha1 sha256).
Abbreviation esave := (model_save evidence_pk evidence_number evidence_not_null).

(** One turn of the bulk loop on a stored item: all hangs on the save. *)
Lemma bulk_update_one_shape now action value n pk db e :
  find_pk evidence_pk pk (evidence_items db) = Some e ->
  bulk_update_one md5 sha1 sha256 now action value n pk db
  = match esave false (fp (bulk_changed now action value e)) (evidence_items db) with
    | Some t' =>
        (Ok (S n), mkDB (cases db) t' (transfers db ++ bulk_logged now action value e))
    | None =>
        (Raise IntegrityError,
         mkDB (cases db) (evidence_items db) (transfers db ++ bulk_logged now action value e))
    end.
Proof.
  intros Hfind. pose proof (find_pk_Some _ _ _ _ Hfind) as [_ Hpk].
  unfold bulk_update_one, mbind, M_bind, mret, M_ret, read. rewrite Hfind.
  unfold Evidence_save, Evidence_super_save, EvidenceTransfer_objects_create.
  unfold bulk_changed, bulk_logged, bulk_rows, bulk_assigned.
  destruct (String.eqb action "department").
  - change (received_date (with_department value e)) with (received_date e).
    destruct (String.eqb (current_department e) value); cbn [negb].
    + destruct (received_date e); destruct (esave false _ _);
        cbn [set_evidence_items cases evidence_items transfers];
        rewrite ?app_nil_r; by destruct db.
    + cbn [add_transfer evidence_items cases transfers].
      by destruct (received_date e); destruct (esave false _ _).
  - destruct (String.eqb action "status"); destruct (esave false _ _);
      cbn [set_evidence_items cases evidence_items transfers];
      rewrite ?app_nil_r; by destruct db.
Qed.

Lemma bulk_update_one_ok now action value n pk db k db1 :
  bulk_update_one md5 sha1 sha256 now action value n pk db = (Ok k, db1) ->
  k = (n + length (stored_ids [pk] db))%nat
  /\ cases db1 = cases db
  /\ (forall id, pk_exists evidence_pk id (evidence_items db1)
                 = pk_exists evidence_pk id (evidence_items db)).
Proof.
  unfold stored_ids. cbn [List.filter].
  destruct (find_pk evidence_pk pk (evidence_items db)) as [e|] eqn:Hfind.
  - rewrite (bulk_update_one_shape now action value n pk db e Hfind).
    rewrite (find_pk_exists _ _ _ _ Hfind).
    destruct (esave false _ (evidence_items db)) as [t'|] eqn:Hsave; [|done].
    intros [= <- <-]. cbn [length cases evidence_items]. split; [lia|]. split; [done|].
    intros id. refine (save_keeps_keys _ _ _ id _ Hsave).
    destruct (fingerprint_keeps md5 sha1 sha256 (bulk_changed now action value e))
      as (-> & _).
    destruct (bulk_changed_keeps now action value e) as (-> & _).
    pose proof (find_pk_Some _ _ _ _ Hfind) as [_ ->].
    by apply (find_pk_exists _ _ _ _ Hfind).
  - rewrite (bulk_update_one_missing md5 sha1 sha256 now action value n pk db Hfind).
    intros [= <- <-].
    assert (pk_exists evidence_pk pk (evidence_items db) = false) as ->.
    { destruct (pk_exists evidence_pk pk (evidence_items db)) eqn:E; [|done].
      apply pk_exists_find in E. rewrite Hfind in E. by destruct E. }
    cbn [length]. split; [lia|done].
Qed.

Lemma bulk_loop_ok now action value ids : forall n db m db',
  for_each_M (bulk_update_one md5 sha1 sha256 now action value) ids n db = (Ok m, db') ->
  m = (n + length (stored_ids ids db))%nat
  /\ cases db' = cases db
  /\ (forall id, pk_exists evidence_pk id (evidence_items db')
                 = pk_exists evidence_pk id (evidence_items db)).
Proof.
  induction ids as [|pk ids IH]; intros n db m db'.
  - cbn. intros [= <- <-]. split; [lia|done].
  - cbn [for_each_M]. unfold mbind, M_bind at 1.
    destruct (bulk_update_one md5 sha1 sha256 now action value n pk db) as [[k|x] db1]
      eqn:Hstep; [|done].
    apply bulk_update_one_ok in Hstep as (-> & Hcases & Hkeys).
    intros Hrest. apply IH in Hrest as (-> & Hcases' & Hkeys').
    split; [|split].
    + unfold stored_ids. cbn [List.filter].
      rewrite (filter_ext _ (fun id => pk_exists evidence_pk id (evidence_items db)))
        by (intros id; apply Hkeys).
      destruct (pk_exists evidence_pk pk (evidence_items db)); cbn [length]; lia.
    + by rewrite Hcases'.
    + intros id. by rewrite Hkeys'.
Qed.

(** The quick update of a field other than the department, on a stored
    item: all hangs on the save. *)
Lemma quick_update_other_shape now pk field value db e :
  find_pk evidence_pk pk (evidence_items db) = Some e ->
  field <> "current_department" ->
  let r := if String.eqb field "received_by" then with_received_by value e else e in
  evidence_quick_update_department md5 sha1 sha256 now pk field value db
  = match esave false (fp r) (evidence_items db) with
    | Some t' => (Ok (JsonResponse true 0), set_evidence_items t' db)
    | None => (Raise IntegrityError, db)
    end.
Proof.
  intros Hfind Hfield r. unfold evidence_quick_update_department, get_evidence_or_404.
  unfold mbind, M_bind, mret, M_ret. rewrite Hfind.
  apply String.eqb_neq in Hfield. rewrite Hfield.
  unfold Evidence_save, Evidence_super_save. unfold r.
  by destruct (String.eqb field "received_by"); destruct (esave false _ _).
Qed.

End Answered.

(** X9.  When the bulk action answers, the count it reports is the number
    of submitted ids that name a stored item, repeats counted: ids that are
    not stored were skipped, no item was added or removed, and the case
    table is as it was. *)
Theorem bulk_update_counts_stored md5 sha1 sha256 now ids action value db answer db' :
  evidence_bulk_update md5 sha1 sha256 now ids action value db = (Ok answer, db') ->
  answer = JsonResponse true (length (stored_ids ids db))
  /\ cases db' = cases db
  /\ (forall id, pk_exists evidence_pk id (evidence_items db')
                 = pk_exists evidence_pk id (evidence_items db)).
Proof.
  unfold evidence_bulk_update, mbind, M_bind, mret, M_ret.
  destruct (for_each_M _ ids 0%nat db) as [[m|x] db1] eqn:Hloop; [|done].
  intros [= <- <-]. by apply bulk_loop_ok in Hloop as (-> & Hcases & Hkeys).
Qed.

Lemma bulk_update_counts_stored_witness :
  JsonResponse true 3 = JsonResponse true (length (stored_ids ["e1"; "gone"; "e2"; "e1"]
                                                     db_two_items))
  /\ cases (evidence_bulk_update empty_md5 empty_sha1 empty_sha256 now25
              ["e1"; "gone"; "e2"; "e1"] "status" "analyzed" db_two_items).2
     = cases db_two_items
  /\ (forall id,
        pk_exists evidence_pk id
          (evidence_items
             (evidence_bulk_update empty_md5 empty_sha1 empty_sha256 now25
                ["e1"; "gone"; "e2"; "e1"] "status" "analyzed" db_two_items).2)
        = pk_exists evidence_pk id (evidence_items db_two_items)).
Proof.
  apply (bulk_update_counts_stored empty_md5 empty_sha1 empty_sha256 now25
           ["e1"; "gone"; "e2"; "e1"] "status" "analyzed" db_two_items).
  reflexivity.
Defined.

Section BulkQuiet.
Variables md5 sha1 sha256 : list byte -> string.

Abbreviation fp := (fingerprint md5 sha1 sha256).

Lemma bulk_loop_quiet now action value ids : forall n db,
  action <> "department" ->
  store_ok db ->
  let db' := (for_each_M (bulk_update_one md5 sha1 sha256 now action value) ids n db).2 in
  transfers db' = transfers db
  /\ (forall id e,
        find_pk evidence_pk id (evidence_items db) = Some e ->
        exists e',
          find_pk evidence_pk id (evidence_items db') = Some e'
          /\ current_department e' = current_department e
          /\ evidence_number e' = evidence_number e
          /\ status e' = if bool_decide (id ∈ ids) && String.eqb action "status"
                         then Some value else status e).
Proof.
  induction ids as [|pk ids IH]; intros n db Hact Hok db'; subst db'.
  - cbn. split; [done|]. intros id e Hfind. exists e. by rewrite bool_decide_eq_false_2
      by apply not_elem_of_nil.
  - destruct (find_pk evidence_pk pk (evidence_items db)) as [e0|] eqn:Hfind0.
    + destruct (bulk_update_one_found md5 sha1 sha256 now action value n pk db e0 Hok Hfind0)
        as (t' & Hstep & Hsave).
      assert (for_each_M (bulk_update_one md5 sha1 sha256 now action value) (pk :: ids) n db
              = for_each_M (bulk_update_one md5 sha1 sha256 now action value) ids (S n)
                  (mkDB (cases db) t' (transfers db ++ bulk_logged now action value e0)))
        as -> by (cbn [for_each_M]; unfold mbind, M_bind; by rewrite Hstep).
      pose proof (find_pk_Some _ _ _ _ Hfind0) as [_ Hpk0].
      set (r := bulk_changed now action value e0) in *.
      destruct (fingerprint_keeps md5 sha1 sha256 r) as (Fpk & Fnum & _ & Fdep & _).
      destruct (bulk_changed_keeps now action value e0) as (R1 & R2 & _). fold r in R1, R2.
      assert (bulk_logged now action value e0 = []) as Hquiet.
      { unfold bulk_logged. apply String.eqb_neq in Hact. by rewrite Hact. }
      assert (current_department r = current_department e0
              /\ status r = if String.eqb action "status" then Some value else status e0)
        as [Rdep Rst].
      { unfold r, bulk_changed. apply String.eqb_neq in Hact. rewrite Hact.
        by destruct (String.eqb action "status"). }
      rewrite Hquiet in *. set (db1 := mkDB _ _ _).
      destruct (IH (S n) db1 Hact) as [Hrows Hitems].
      { apply (store_step db false _ t' _ Hok Hsave). by intros row ?%elem_of_nil. }
      split; [by rewrite Hrows; cbn; rewrite app_nil_r|].
      intros id e Hfind.
      pose proof (model_save_find _ _ _ _ _ _ _ id Hsave) as Hfind1.
      rewrite Fpk, R1, Hpk0 in Hfind1.
      destruct (String.eqb pk id) eqn:E.
      * apply String.eqb_eq in E. subst id. rewrite Hfind0 in Hfind. injection Hfind as <-.
        destruct (Hitems pk (fp r) Hfind1) as (e' & Hfind' & Hdep & Hnum & Hst).
        exists e'. split; [done|]. split; [congruence|]. split; [congruence|].
        rewrite Hst, fingerprint_status, Rst.
        rewrite (bool_decide_eq_true_2 (pk ∈ pk :: ids)) by left.
        destruct (String.eqb action "status"); [by destruct (bool_decide _)|].
        by rewrite andb_false_r.
      * rewrite Hfind in Hfind1.
        destruct (Hitems id e Hfind1) as (e' & Hfind' & Hdep & Hnum & Hst).
        exists e'. split; [done|]. split; [done|]. split; [done|].
        rewrite Hst. apply String.eqb_neq in E.
        destruct (decide (id ∈ ids)) as [Hin|Hnin].
        -- rewrite !bool_decide_eq_true_2; [done|by right|done].
        -- rewrite !bool_decide_eq_false_2; [done| |done].
           intros [?|?]%elem_of_cons; congruence.
    + assert (for_each_M (bulk_update_one md5 sha1 sha256 now action value) (pk :: ids) n db
              = for_each_M (bulk_update_one md5 sha1 sha256 now action value) ids n db)
        as -> by (cbn [for_each_M]; unfold mbind, M_bind;
                  by rewrite (bulk_update_one_missing md5 sha1 sha256 now action value n pk
                                db Hfind0)).
      destruct (IH n db Hact Hok) as [Hrows Hitems]. split; [done|].
      intros id e Hfind. destruct (Hitems id e Hfind) as (e' & Hfind' & Hdep & Hnum & Hst).
      exists e'. split; [done|]. split; [done|]. split; [done|]. rewrite Hst.
      assert (id <> pk) as Hne by congruence.
      destruct (decide (id ∈ ids)) as [Hin|Hnin].
      * rewrite !bool_decide_eq_true_2; [done|by right|done].
      * rewrite !bool_decide_eq_false_2; [done| |done].
        intros [?|?]%elem_of_cons; congruence.
Qed.

End BulkQuiet.

(** X10.  A bulk action other than [department] leaves custody alone: no
    ledger row is written and no item changes department or number.  The
    [status] action sets the status of exactly the listed items; any other
    action changes no status. *)
Theorem bulk_status_leaves_custody md5 sha1 sha256 now ids action value db :
  action <> "department" ->
  store_ok db ->
  let db' := (evidence_bulk_update md5 sha1 sha256 now ids action value db).2 in
  transfers db' = transfers db
  /\ (forall id e,
        find_pk evidence_pk id (evidence_items db) = Some e ->
        exists e',
          find_pk evidence_pk id (evidence_items db') = Some e'
          /\ current_department e' = current_department e
          /\ evidence_number e' = evidence_number e
          /\ status e' = if bool_decide (id ∈ ids) && String.eqb action "status"
                         then Some value else status e).
Proof.
  intros Hact Hok db'.
  pose proof (bulk_loop_quiet md5 sha1 sha256 now action value ids 0%nat db Hact Hok) as H.
  subst db'. unfold evidence_bulk_update, mbind, M_bind, mret, M_ret.
  by destruct (for_each_M _ ids 0%nat db) as [[k|x] db1].
Qed.

Lemma bulk_status_leaves_custody_witness :
  let db' := (evidence_bulk_update empty_md5 empty_sha1 empty_sha256 now25
                ["e1"; "gone"] "status" "analyzed" db_two_items).2 in
  transfers db' = transfers db_two_items
  /\ (forall id e,
        find_pk evidence_pk id (evidence_items db_two_items) = Some e ->
        exists e',
          find_pk evidence_pk id (evidence_items db') = Some e'
          /\ current_department e' = current_department e
          /\ evidence_number e' = evidence_number e
          /\ status e' = if bool_decide (id ∈ ["e1"; "gone"]) && true
                         then Some "analyzed" else status e).
Proof.
  apply (bulk_status_leaves_custody empty_md5 empty_sha1 empty_sha256 now25
           ["e1"; "gone"] "status" "analyzed" db_two_items).
  - discriminate.
  - apply (serve_all_in_order empty_md5 empty_sha1 empty_sha256 no_dates),
      in_order_no_evidence.
Defined.

(** ** Saving again *)

Section SavingAgain.
Context {R : Type} (pk ukey : R -> string) (not_null : R -> bool).

(** Saving the row that was just saved writes the table it finds. *)
Lemma model_save_again fi r (t t' : list R) :
  model_save pk ukey not_null fi r t = Some t' ->
  model_save pk ukey not_null false r t' = Some t'.
Proof.
  intros Hsave.
  destruct (model_save_Some _ _ _ _ _ _ _ Hsave) as [Hnn Hfree].
  pose proof (fun x => model_save_elem _ _ _ _ _ _ _ x Hsave) as Helem.
  pose proof (model_save_find _ _ _ _ _ _ _ (pk r) Hsave) as Hfind.
  rewrite String.eqb_refl in Hfind.
  unfold model_save. rewrite (find_pk_exists _ _ _ _ Hfind).
  unfold sql_update. rewrite Hnn.
  assert (taken_by_other pk ukey (pk r) (ukey r) t' = false) as ->.
  { apply taken_by_other_false. intros x Hx Hne.
    apply Helem in Hx as [->|[Hx _]]; [done|].
    rewrite taken_by_other_false in Hfree. by apply Hfree. }
  cbn [andb negb]. f_equal.
  assert (Forall (fun x => (if String.eqb (pk x) (pk r) then r else x) = x) t') as Hid.
  { apply Forall_forall. intros x Hx. apply Helem in Hx as [->|[_ Hne]].
    - by rewrite String.eqb_refl.
    - apply String.eqb_neq in Hne. by rewrite Hne. }
  clear -Hid. induction Hid as [|x l Hx _ IH]; [done|].
  cbn [fmap list_fmap]. rewrite Hx. f_equal. exact IH.
Qed.

End SavingAgain.

Section Fingerprints.
Variables md5 sha1 sha256 : list byte -> string.

Lemma fingerprint_idem e :
  fingerprint md5 sha1 sha256 (fingerprint md5 sha1 sha256 e) = fingerprint md5 sha1 sha256 e.
Proof.
  unfold fingerprint. destruct (file_path e) as [content|] eqn:Hf.
  - destruct (negb (Py.nonempty (hash_md5 e))) eqn:Hh.
    + cbn [file_path with_fingerprint]. rewrite Hf.
      by destruct (negb (Py.nonempty (hash_md5 (with_fingerprint md5 sha1 sha256 content e)))).
    + by rewrite Hf, Hh.
  - by rewrite Hf.
Qed.

End Fingerprints.

(** X11.  Saving again is accepted: the instance a save returns is a
    fixed point of the fingerprinting step, and saving it again meets no
    constraint violation, returns the same instance and leaves every column
    the rows carry here as the first save left it.  (The [updated_at] stamp,
    which every save rewrites, is not among these columns.) *)
Theorem evidence_resave_accepted md5 sha1 sha256 fi e db e1 db1 :
  Evidence_save md5 sha1 sha256 fi e db = (Ok e1, db1) ->
  fingerprint md5 sha1 sha256 e1 = e1
  /\ Evidence_save md5 sha1 sha256 false e1 db1 = (Ok e1, db1).
Proof.
  unfold Evidence_save, Evidence_super_save.
  destruct (model_save _ _ _ fi _ (evidence_items db)) as [t|] eqn:Hsave; [|done].
  intros [= <- <-]. rewrite fingerprint_idem. split; [done|].
  cbn [set_evidence_items evidence_items]. by rewrite (model_save_again _ _ _ _ _ _ _ Hsave).
Qed.

Lemma evidence_resave_accepted_witness :
  fingerprint empty_md5 empty_sha1 empty_sha256 sample_evidence_ar = sample_evidence_ar
  /\ Evidence_save empty_md5 empty_sha1 empty_sha256 false sample_evidence_ar
       (mkDB [case_25_0008] [sample_evidence_ar] [])
     = (Ok sample_evidence_ar, mkDB [case_25_0008] [sample_evidence_ar] []).
Proof.
  apply (evidence_resave_accepted empty_md5 empty_sha1 empty_sha256 true
           sample_evidence_ar db_case8).
  reflexivity.
Defined.

(** X12.  On a store in order the location search reads the ledger: the
    items it lists for a department are those whose latest ledger row leads
    there, and [unassigned] lists those whose ledger is empty or leads
    nowhere; without a department every item is listed. *)
Theorem location_search_follows_ledger department db :
  in_order db ->
  (department <> "" ->
   forall e,
     e ∈ filter_by_location (Some department) (evidence_items db)
     <-> e ∈ evidence_items db
         /\ last_to_department (evidence_pk e) db
            = if String.eqb department "unassigned" then "" else department)
  /\ filter_by_location (Some "") (evidence_items db) = evidence_items db
  /\ filter_by_location None (evidence_items db) = evidence_items db.
Proof.
  intros [_ Hcust]. split; [|done]. intros Hne e.
  unfold filter_by_location. cbn [str_truthy default]. rewrite (nonempty_neq _ Hne).
  change (id department) with department.
  destruct (String.eqb department "unassigned");
    rewrite list_elem_of_In, filter_In, <- list_elem_of_In, String.eqb_eq;
    split; intros [Hin Heq]; (split; [done|]);
    specialize (Hcust e Hin); congruence.
Qed.

Lemma location_search_follows_ledger_witness :
  ("ar" <> "" ->
   forall e,
     e ∈ filter_by_location (Some "ar") (evidence_items db_two_items)
     <-> e ∈ evidence_items db_two_items
         /\ last_to_department (evidence_pk e) db_two_items = "ar")
  /\ filter_by_location (Some "") (evidence_items db_two_items) = evidence_items db_two_items
  /\ filter_by_location None (evidence_items db_two_items) = evidence_items db_two_items.
Proof.
  apply (location_search_follows_ledger "ar" db_two_items).
  apply (serve_all_in_order empty_md5 empty_sha1 empty_sha256 no_dates),
    in_order_no_evidence.
Defined.

(** X13.  The additional IMEI numbers kept from a form are the trimmed
    entries that are not blank, in the order typed; cleaning what was
    cleaned changes nothing. *)
Theorem additional_imeis_cleaned (additional_imeis : list string) :
  (forall x, x ∈ clean_imeis additional_imeis
     <-> x <> "" /\ exists y, y ∈ additional_imeis /\ x = Py.strip y)
  /\ Forall (fun x => Py.strip x = x) (clean_imeis additional_imeis)
  /\ clean_imeis additional_imeis
     = List.filter Py.nonempty (Py.strip <$> additional_imeis)
  /\ clean_imeis (clean_imeis additional_imeis) = clean_imeis additional_imeis.
Proof.
  assert (clean_imeis additional_imeis
          = List.filter Py.nonempty (Py.strip <$> additional_imeis)) as Hshape.
  { unfold clean_imeis. induction additional_imeis as [|y l IH]; [done|].
    cbn [List.filter fmap list_fmap].
    destruct (Py.nonempty (Py.strip y)); cbn [fmap list_fmap]; by rewrite <- IH. }
  assert (Forall (fun x => Py.strip x = x /\ Py.nonempty x = true)
            (clean_imeis additional_imeis)) as Hclean.
  { rewrite Hshape. apply Forall_forall. intros x Hx.
    apply list_elem_of_In, filter_In in Hx as [Hx Hne]. split; [|done].
    apply list_elem_of_In, list_elem_of_fmap in Hx as (y & -> & _).
    apply PyFacts.strip_idem. }
  split; [|split; [|split]].
  - intros x. rewrite Hshape, list_elem_of_In, filter_In, <- list_elem_of_In.
    rewrite list_elem_of_fmap. split.
    + intros [(y & -> & Hy) Hne]. split; [by intros Heq; rewrite Heq in Hne|].
      by exists y.
    + intros [Hne (y & Hy & ->)]. split; [by exists y|]. by apply nonempty_neq.
  - eapply Forall_impl; [exact Hclean|]. by intros x [? _].
  - exact Hshape.
  - revert Hclean. generalize (clean_imeis additional_imeis). intros l Hl.
    unfold clean_imeis. induction Hl as [|x l [Hs Hn] _ IH]; [done|].
    cbn [List.filter]. rewrite Hs, Hn. cbn [fmap list_fmap]. rewrite Hs. f_equal. exact IH.
Qed.

(** X14.  Editing a case: when no other case holds the number the edit
    arrives at (the typed one, or the stored one when the field is left
    blank), the edit succeeds and the case carries that number; the other
    cases, the evidence table, with the numbers minted under the old case
    number, and the ledger are not touched. *)
Theorem case_update_keeps_or_renumbers now pk POST db c name st pr :
  find_pk case_pk pk (cases db) = Some c ->
  case_number c <> "" ->
  Form.get POST "case_name" = Some name ->
  Form.get POST "status" = Some st ->
  Form.get POST "priority" = Some pr ->
  let typed := Py.strip (Form.get_or POST "case_number" "") in
  let number := if Py.nonempty typed then typed else case_number c in
  (forall c', c' ∈ cases db -> case_pk c' <> pk -> case_number c' <> number) ->
  exists c' db',
    case_update now pk POST db = (Ok (Success "Case updated successfully!"), db')
    /\ find_pk case_pk pk (cases db') = Some c'
    /\ case_number c' = number
    /\ (forall pk', pk' <> pk -> find_pk case_pk pk' (cases db') = find_pk case_pk pk' (cases db))
    /\ evidence_items db' = evidence_items db
    /\ transfers db' = transfers db.
Proof.
  intros Hfind Hstored Hname Hst Hpr typed number Hfree.
  pose proof (find_pk_Some _ _ _ _ Hfind) as [_ Hpk].
  unfold case_update, get_case_or_404, mbind, M_bind, mret, M_ret, read.
  rewrite Hfind. fold typed. cbv beta iota zeta.
  set (renumber := Py.nonempty typed && negb (String.eqb typed (case_number c))).
  assert ((if renumber then typed else case_number c) = number) as Hnumber.
  { unfold renumber, number. destruct (Py.nonempty typed); [|done].
    destruct (String.eqb typed (case_number c)) eqn:E; [|done].
    by apply String.eqb_eq in E. }
  rewrite Hnumber, Hname, Hst, Hpr.
  assert (number <> "") as Hne.
  { unfold number. destruct typed; [done|]. done. }
  assert (taken_by_other case_pk case_number (case_pk c) number (cases db) = false) as Hnot.
  { apply taken_by_other_false. intros c' Hin Hother. apply Hfree; congruence. }
  assert (renumber
          && taken_by_other case_pk case_number (case_pk c) typed (cases db) = false) as ->.
  { assert (renumber = true -> typed = number) as Hty
      by (intros E; by rewrite <- Hnumber, E).
    destruct renumber; [|done]. by rewrite Hty. }
  set (r := mkCase (case_pk c) number (Some name) (Some st) (Some pr) _ _ _).
  unfold Case_save, Case_super_save, mbind, M_bind, read.
  change (case_number r) with number. rewrite (nonempty_neq _ Hne). cbn [negb].
  rewrite (model_save_update case_pk case_number case_not_null r (cases db));
    [|change (case_pk r) with (case_pk c); rewrite Hpk;
      by apply (find_pk_exists _ _ _ _ Hfind)|done|done].
  eexists r, _. split; [reflexivity|]. cbn [set_cases cases evidence_items transfers].
  split; [|split; [done|split; [|done]]].
  - rewrite find_pk_replace. change (case_pk r) with (case_pk c).
    rewrite Hpk, String.eqb_refl.
    by rewrite (find_pk_exists _ _ _ _ Hfind).
  - intros pk' Hne'. rewrite find_pk_replace. change (case_pk r) with (case_pk c).
    rewrite Hpk. apply not_eq_sym, String.eqb_neq in Hne'. by rewrite Hne'.
Qed.

Lemma case_update_keeps_or_renumbers_witness :
  exists c' db',
    case_update now25 "c8" post_renumber db_item_ar
    = (Ok (Success "Case updated successfully!"), db')
    /\ find_pk case_pk "c8" (cases db') = Some c'
    /\ case_number c' = "25-0009"
    /\ (forall pk', pk' <> "c8" ->
          find_pk case_pk pk' (cases db') = find_pk case_pk pk' (cases db_item_ar))
    /\ evidence_items db' = evidence_items db_item_ar
    /\ transfers db' = transfers db_item_ar.
Proof.
  apply (case_update_keeps_or_renumbers now25 "c8" post_renumber db_item_ar case_25_0008
           "Case" "active" "high"); try reflexivity; try discriminate.
  intros c' [->|Hin]%elem_of_cons; [done|]. by apply elem_of_nil in Hin.
Defined.

(** ** Numbers of the items bound to no case *)

Section UnboundNumbers.
Import Py PyFacts.
Variables md5 sha1 sha256 : list byte -> string.
Variable parse_datetime : string -> result (option datetime).

Abbreviation fp := (fingerprint md5 sha1 sha256).
Abbreviation esave := (model_save evidence_pk evidence_number evidence_not_null).

Lemma append_assoc_3 a b c : (a +:+ b) +:+ c = a +:+ b +:+ c.
Proof. induction a as [|x a IH]; [done|]. by rewrite !append_cons, IH. Qed.

Lemma unassigned_minted yy k :
  yy +:+ "-UNASSIGNED-" +:+ format_0d 3 (Z.of_nat k) = minted (yy +:+ "-UNASSIGNED") k.
Proof. unfold minted. by rewrite append_assoc_3. Qed.

Lemma startswith_unassigned yy k :
  startswith (yy +:+ "-UNASSIGNED-") (minted (yy +:+ "-UNASSIGNED") k) = true.
Proof.
  rewrite <- unassigned_minted.
  change (yy +:+ "-UNASSIGNED-" +:+ format_0d 3 (Z.of_nat k))
    with (yy +:+ ("-UNASSIGNED-" +:+ format_0d 3 (Z.of_nat k))).
  rewrite <- append_assoc_3. apply startswith_app.
Qed.

Lemma unassigned_snoc yy items e :
  startswith (yy +:+ "-UNASSIGNED-") (evidence_number e) = true ->
  unassigned_numbers yy (items ++ [e]) = unassigned_numbers yy items ++ [evidence_number e].
Proof.
  intros H. unfold unassigned_numbers. rewrite List.filter_app, fmap_app.
  cbn [List.filter]. by rewrite H.
Qed.

End UnboundNumbers.

Section UnboundOnSuccess.
Import Py PyFacts.
Variables md5 sha1 sha256 : list byte -> string.
Variable parse_datetime : string -> result (option datetime).

Abbreviation fp := (fingerprint md5 sha1 sha256).
Abbreviation create := (evidence_create md5 sha1 sha256 parse_datetime).

Lemma unbound_number_after now case_ref db n :
  str_truthy case_ref = false ->
  (n <= 999)%nat ->
  unassigned_numbers (strftime_y now) (evidence_items db)
  = minted (strftime_y now +:+ "-UNASSIGNED") <$> seq 1 n ->
  auto_evidence_number now case_ref db
  = Some (minted (strftime_y now +:+ "-UNASSIGNED") (S n)).
Proof.
  intros Hget Hn Hscope. unfold auto_evidence_number. rewrite Hget. cbv zeta.
  rewrite Hscope, greatest_minted by lia.
  rewrite <- (unassigned_minted _ (S n)). do 4 f_equal.
  destruct (decide (n = 0%nat)) as [->|Hne]; [done|].
  rewrite Nat.min_l by lia. unfold next_num_after, minted.
  rewrite minted_reads_back by lia. lia.
Qed.

Lemma unbound_create_step_success now uuid POST db n msg :
  unbound_form parse_datetime POST ->
  (n <= 999)%nat ->
  unassigned_numbers (strftime_y now) (evidence_items db)
  = minted (strftime_y now +:+ "-UNASSIGNED") <$> seq 1 n ->
  (create now uuid POST db).1 = Ok (Success msg) ->
  exists e rows,
    (create now uuid POST db).2
    = mkDB (cases db) (evidence_items db ++ [e]) (transfers db ++ rows)
    /\ evidence_pk e = uuid
    /\ evidence_number e = minted (strftime_y now +:+ "-UNASSIGNED") (S n)
    /\ case_id e = None.
Proof.
  intros (Hget & Hblank & (received & Hr) & (seizure & Hs) & (acquisition & Ha))
    Hn Hscope Hmsg.
  set (prefix := strftime_y now +:+ "-UNASSIGNED") in *.
  set (r := created_evidence now uuid (minted prefix (S n)) POST
              (extract_form POST) received seizure acquisition).
  destruct (fingerprint_keeps md5 sha1 sha256 r) as (Fpk & Fnum & _).
  exists (fp r), (created_rows now (fp r)). split; [|split; [|split]].
  - apply (create_success_stored md5 sha1 sha256 parse_datetime now uuid POST db _
             received seizure acquisition msg); [|done|done|done|done].
    rewrite Hblank. cbn [nonempty negb]. by apply unbound_number_after.
  - by rewrite Fpk.
  - by rewrite Fnum.
  - rewrite (fingerprint_case_id md5 sha1 sha256). cbn [r created_evidence case_id].
    by rewrite Hget.
Qed.

Lemma unbound_run_success yy reqs : forall db n,
  unassigned_numbers yy (evidence_items db) = minted (yy +:+ "-UNASSIGNED") <$> seq 1 n ->
  Forall (unbound_create parse_datetime yy) reqs ->
  all_succeed (serve md5 sha1 sha256 parse_datetime) reqs db ->
  (n + length reqs <= 1000)%nat ->
  exists news,
    evidence_items (serve_all md5 sha1 sha256 parse_datetime reqs db)
    = evidence_items db ++ news
    /\ evidence_pk <$> news = request_uuid <$> reqs
    /\ evidence_number <$> news = minted (yy +:+ "-UNASSIGNED") <$> seq (S n) (length reqs)
    /\ Forall (fun e => case_id e = None) news.
Proof.
  induction reqs as [|r reqs IH]; intros db n Hscope Hforms Hall Hlen.
  - exists []. by rewrite app_nil_r.
  - apply Forall_cons in Hforms as [Hr Hforms]. destruct Hall as [[msg Hmsg] Hall].
    cbn [length] in Hlen.
    destruct r as [now uuid POST| | |]; try done. cbn [unbound_create serve] in *.
    destruct Hr as [<- Hform].
    destruct (unbound_create_step_success now uuid POST db n msg)
      as (e & rows & Hrun & Epk & Enum & Eid); [done|lia|done|done|].
    cbn [serve_all fold_left serve]. rewrite Hrun in *.
    destruct (IH (mkDB (cases db) (evidence_items db ++ [e]) (transfers db ++ rows)) (S n))
      as (news & Hitems & Hpks & Hnums & Hids); [|done|done|cbn; lia|].
    { cbn [evidence_items]. rewrite unassigned_snoc, Hscope, Enum.
      - by rewrite seq_S, fmap_app.
      - rewrite Enum. apply startswith_unassigned. }
    exists (e :: news). unfold serve_all in Hitems. rewrite Hitems.
    cbn [evidence_items fmap list_fmap length seq request_uuid].
    split; [by rewrite <- app_assoc|]. split; [by rewrite Epk, <- Hpks|].
    split; [by rewrite Enum, <- Hnums|]. by constructor.
Qed.

End UnboundOnSuccess.

(** X15.  Items created for no case are numbered per year, in the order
    they are served: when no stored number starts with [YY-UNASSIGNED-] and
    each of up to a thousand creations in a row, made in the year [YY] with
    the case and the number left blank, is answered with a success, the items
    they stored are, in order, [YY-UNASSIGNED-001], [YY-UNASSIGNED-002], ...,
    each bound to no case. *)
Theorem unassigned_numbers_in_sequence md5 sha1 sha256 parse_datetime yy db reqs :
  unassigned_numbers yy (evidence_items db) = [] ->
  Forall (unbound_create parse_datetime yy) reqs ->
  all_succeed (serve md5 sha1 sha256 parse_datetime) reqs db ->
  (length reqs <= 1000)%nat ->
  exists news,
    evidence_items (serve_all md5 sha1 sha256 parse_datetime reqs db)
    = evidence_items db ++ news
    /\ evidence_pk <$> news = request_uuid <$> reqs
    /\ evidence_number <$> news
       = (fun k => yy +:+ "-UNASSIGNED-" +:+ Py.format_0d 3 (Z.of_nat k))
           <$> seq 1 (length reqs)
    /\ Forall (fun e => case_id e = None) news.
Proof.
  intros Hscope Hforms Hall Hlen.
  destruct (unbound_run_success md5 sha1 sha256 parse_datetime yy reqs db 0)
    as (news & Hitems & Hpks & Hnums & Hids); [done|done|done|done|].
  exists news. split; [done|]. split; [done|]. split; [|done].
  rewrite Hnums. apply list_fmap_ext. intros i k _. symmetry. apply unassigned_minted.
Qed.

Lemma unassigned_numbers_in_sequence_witness :
  exists news,
    evidence_items
      (serve_all empty_md5 empty_sha1 empty_sha256 no_dates
         [Create now25 "u1" post_unbound; Create now25 "u2" post_unbound] db_item_ar)
    = evidence_items db_item_ar ++ news
    /\ evidence_pk <$> news = ["u1"; "u2"]
    /\ evidence_number <$> news = ["25-UNASSIGNED-001"; "25-UNASSIGNED-002"]
    /\ Forall (fun e => case_id e = None) news.
Proof.
  apply (unassigned_numbers_in_sequence empty_md5 empty_sha1 empty_sha256 no_dates "25"
           db_item_ar
           [Create now25 "u1" post_unbound; Create now25 "u2" post_unbound]).
  - reflexivity.
  - repeat constructor; try reflexivity; by eexists.
  - repeat split; by eexists.
  - cbn. lia.
Defined.

(** X16.  When the quick update of a field other than the department
    answers, it wrote no ledger row and touched no other item, and the item
    keeps its department and its number; for [received_by] the item carries
    the value sent, for any other field its [received_by] is as it was. *)
Theorem quick_update_other_fields md5 sha1 sha256 now pk field value db e answer db' :
  find_pk evidence_pk pk (evidence_items db) = Some e ->
  field <> "current_department" ->
  evidence_quick_update_department md5 sha1 sha256 now pk field value db = (Ok answer, db') ->
  cases db' = cases db
  /\ transfers db' = transfers db
  /\ (exists e',
        find_pk evidence_pk pk (evidence_items db') = Some e'
        /\ current_department e' = current_department e
        /\ evidence_number e' = evidence_number e
        /\ received_by e'
           = if String.eqb field "received_by" then value else received_by e)
  /\ (forall pk', pk' <> pk ->
        find_pk evidence_pk pk' (evidence_items db')
        = find_pk evidence_pk pk' (evidence_items db)).
Proof.
  intros Hfind Hfield. pose proof (find_pk_Some _ _ _ _ Hfind) as [_ Hpk].
  rewrite (quick_update_other_shape md5 sha1 sha256 now pk field value db e Hfind Hfield).
  cbv zeta. set (r := if String.eqb field "received_by" then with_received_by value e else e).
  assert (evidence_pk r = evidence_pk e /\ evidence_number r = evidence_number e
          /\ current_department r = current_department e
          /\ received_by r = if String.eqb field "received_by" then value else received_by e)
    as (R1 & R2 & R3 & R4).
  { unfold r. by destruct (String.eqb field "received_by"). }
  destruct (model_save _ _ _ false _ (evidence_items db)) as [t'|] eqn:Hsave; [|done].
  intros [= <- <-]. cbn [set_evidence_items cases transfers evidence_items].
  destruct (fingerprint_keeps md5 sha1 sha256 r) as (Fpk & Fnum & _ & Fdep & Frec & _).
  split; [done|]. split; [done|]. split.
  - exists (fingerprint md5 sha1 sha256 r).
    rewrite (model_save_find _ _ _ _ _ _ _ pk Hsave), Fpk, R1, Hpk, String.eqb_refl.
    by rewrite Fdep, Fnum, Frec.
  - intros pk' Hne. rewrite (model_save_find _ _ _ _ _ _ _ pk' Hsave), Fpk, R1, Hpk.
    apply not_eq_sym, String.eqb_neq in Hne. by rewrite Hne.
Qed.

Lemma quick_update_other_fields_witness :
  let db' := (evidence_quick_update_department empty_md5 empty_sha1 empty_sha256 now25 "e1"
                "received_by" "Officer" db_item_ar).2 in
  cases db' = cases db_item_ar
  /\ transfers db' = transfers db_item_ar
  /\ (exists e',
        find_pk evidence_pk "e1" (evidence_items db') = Some e'
        /\ current_department e' = "ar"
        /\ evidence_number e' = "25-0008-001"
        /\ received_by e' = "Officer")
  /\ (forall pk', pk' <> "e1" ->
        find_pk evidence_pk pk' (evidence_items db')
        = find_pk evidence_pk pk' (evidence_items db_item_ar)).
Proof.
  apply (quick_update_other_fields empty_md5 empty_sha1 empty_sha256 now25 "e1"
           "received_by" "Officer" db_item_ar sample_evidence_ar (JsonResponse true 0)).
  - reflexivity.
  - discriminate.
  - reflexivity.
Defined.

(** X17.  The views that address one record look it up before they read
    the form or write anything: for a key that is not stored each of them
    raises [Http404] and leaves the store as it was. *)
Theorem missing_record_is_404 md5 sha1 sha256 parse_datetime now case_key evidence_key db :
  find_pk case_pk case_key (cases db) = None ->
  find_pk evidence_pk evidence_key (evidence_items db) = None ->
  (forall POST, case_update now case_key POST db = (Raise Http404, db))
  /\ case_delete case_key db = (Raise Http404, db)
  /\ (forall POST,
        evidence_update md5 sha1 sha256 parse_datetime now evidence_key POST db
        = (Raise Http404, db))
  /\ (forall field value,
        evidence_quick_update_department md5 sha1 sha256 now evidence_key field value db
        = (Raise Http404, db))
  /\ evidence_delete evidence_key db = (Raise Http404, db).
Proof.
  intros Hcase Hevidence. repeat split; intros;
    unfold case_update, case_delete, evidence_update, evidence_quick_update_department,
      evidence_delete, get_case_or_404, get_evidence_or_404, mbind, M_bind;
    by rewrite ?Hcase, ?Hevidence.
Qed.

Lemma missing_record_is_404_witness :
  (forall POST, case_update now25 "zz" POST db_item_ar = (Raise Http404, db_item_ar))
  /\ case_delete "zz" db_item_ar = (Raise Http404, db_item_ar)
  /\ (forall POST,
        evidence_update empty_md5 empty_sha1 empty_sha256 no_dates now25 "zz" POST db_item_ar
        = (Raise Http404, db_item_ar))
  /\ (forall field value,
        evidence_quick_update_department empty_md5 empty_sha1 empty_sha256 now25 "zz"
          field value db_item_ar
        = (Raise Http404, db_item_ar))
  /\ evidence_delete "zz" db_item_ar = (Raise Http404, db_item_ar).
Proof.
  apply (missing_record_is_404 empty_md5 empty_sha1 empty_sha256 no_dates now25 "zz" "zz"
           db_item_ar); reflexivity.
Defined.

(** X18.  What the generators write the scanners read back: the sequence
    number of a generated case number and the counter of a generated
    evidence number are recovered for every counter, also when it outgrows
    the padding, whatever dashes the prefix contains. *)
Theorem generated_numbers_read_back now prefix k :
  0 <= k ->
  case_seq (strftime_y now +:+ "-" +:+ Py.format_0d 4 k) = Some k
  /\ next_num_after (Some (prefix +:+ "-" +:+ Py.format_0d 3 k)) = k + 1
  /\ Py.int (Py.format_0d 4 k) = Some k
  /\ Py.int (Py.format_0d 3 k) = Some k.
Proof.
  intros Hk. split; [by apply case_seq_minted|]. split.
  - unfold next_num_after. by rewrite minted_reads_back.
  - split; by apply PyFacts.int_format_0d.
Qed.

Lemma generated_numbers_read_back_witness :
  case_seq (strftime_y now25 +:+ "-" +:+ Py.format_0d 4 12345) = Some 12345
  /\ next_num_after (Some ("25-UNASSIGNED" +:+ "-" +:+ Py.format_0d 3 12345)) = 12345 + 1
  /\ Py.int (Py.format_0d 4 12345) = Some 12345
  /\ Py.int (Py.format_0d 3 12345) = Some 12345.
Proof.
  apply (generated_numbers_read_back now25 "25-UNASSIGNED" 12345). lia.
Defined.

(** ** The file type of an uploaded document *)

Section FileType.
Import Py PyFacts PyPath.

Lemma rfind_from_lacks c s : forall i found,
  lacks c s = true -> rfind_from c s i found = found.
Proof.
  induction s as [|a r IH]; intros i found H; [done|].
  cbn [lacks] in H. apply andb_true_iff in H as [Ha Hr]. cbn [rfind_from].
  apply negb_true_iff in Ha. rewrite Ha. by apply IH.
Qed.

Lemma rfind_from_last c a b : forall i found,
  lacks c b = true ->
  rfind_from c (a +:+ String c b) i found = i + Z.of_nat (String.length a).
Proof.
  induction a as [|x a IH]; intros i found H.
  - rewrite append_nil. cbn [rfind_from String.length]. rewrite Ascii.eqb_refl.
    rewrite rfind_from_lacks by done. lia.
  - rewrite append_cons. cbn [rfind_from String.length]. rewrite IH by done. lia.
Qed.

Lemma rfind_from_ge c s : forall i found, found < i -> found <= rfind_from c s i found.
Proof.
  induction s as [|a r IH]; intros i found H; [done|]. cbn [rfind_from].
  destruct (Ascii.eqb a c).
  - etransitivity; [|apply IH]; lia.
  - apply IH. lia.
Qed.

Lemma rfind_lacks c s : lacks c s = true -> rfind c s = -1.
Proof. apply rfind_from_lacks. Qed.

Lemma rfind_last c a b :
  lacks c b = true -> rfind c (a +:+ String c b) = Z.of_nat (String.length a).
Proof. intros H. unfold rfind. by rewrite rfind_from_last. Qed.

Lemma rfind_ge c s : -1 <= rfind c s.
Proof. apply rfind_from_ge. lia. Qed.

(** A string either lacks [c] or splits at its last [c]. *)
Lemma last_split c s :
  lacks c s = true \/ exists a b, s = a +:+ String c b /\ lacks c b = true.
Proof.
  induction s as [|x r IH]; [by left|].
  destruct IH as [Hr|(a & b & -> & Hb)].
  - cbn [lacks]. destruct (Ascii.eqb x c) eqn:E.
    + right. exists "", r. apply Ascii.eqb_eq in E. by subst x.
    + left. by rewrite Hr.
  - right. exists (String x a), b. by rewrite append_cons.
Qed.

Lemma lacks_app c a b : lacks c (a +:+ b) = lacks c a && lacks c b.
Proof.
  induction a as [|x a IH]; [done|]. rewrite append_cons. cbn [lacks].
  by rewrite IH, andb_assoc.
Qed.

Lemma substring_prefix a b : String.substring 0 (String.length a) (a +:+ b) = a.
Proof.
  induction a as [|x a IH]; [by destruct b|].
  rewrite append_cons. cbn [String.length String.substring]. by rewrite IH.
Qed.

Lemma substring_suffix a b :
  String.substring (String.length a) (String.length b) (a +:+ b) = b.
Proof.
  induction a as [|x a IH].
  - rewrite append_nil. cbn [String.length].
    rewrite <- (substring_prefix b "") at 3.
    assert (b +:+ "" = b) as -> by (induction b as [|y b IHb]; [done|];
                                     by rewrite append_cons, IHb).
    done.
  - rewrite append_cons. cbn [String.length String.substring]. exact IH.
Qed.

Lemma string_length_app a b :
  String.length (a +:+ b) = (String.length a + String.length b)%nat.
Proof. induction a as [|x a IH]; [done|]. rewrite append_cons. cbn. by rewrite IH. Qed.

Lemma lstrip_dots_lacks s :
  lacks "." s = true -> lstrip_by (fun c => Ascii.eqb c ".") s = s.
Proof.
  destruct s as [|x r]; [done|]. cbn [lacks lstrip_by].
  intros [Hx _]%andb_true_iff. apply negb_true_iff in Hx. by rewrite Hx.
Qed.

Lemma lower_c_dot c : Ascii.eqb (lower_c c) "." = Ascii.eqb c ".".
Proof. ascii_cases c. Qed.

Lemma lower_c_idem c : lower_c (lower_c c) = lower_c c.
Proof. ascii_cases c. Qed.

Lemma lower_lacks_dot s : lacks "." (lower s) = lacks "." s.
Proof. induction s as [|x r IH]; [done|]. cbn [lower lacks]. by rewrite lower_c_dot, IH. Qed.

Lemma lower_idem s : lower (lower s) = lower s.
Proof. induction s as [|x r IH]; [done|]. cbn [lower]. by rewrite lower_c_idem, IH. Qed.

Lemma lower_nonempty s : nonempty (lower s) = nonempty s.
Proof. by destruct s. Qed.

(** The extension is empty or the last dot and what follows it. *)
Lemma splitext_ext name :
  (splitext name).2 = ""
  \/ exists a b, name = a +:+ String "." b /\ lacks "." b = true
                 /\ (splitext name).2 = String "." b.
Proof.
  unfold splitext. cbv zeta. destruct (last_split "." name) as [Hno|(a & b & -> & Hb)].
  - left. rewrite (rfind_lacks "." name Hno).
    pose proof (rfind_ge "/" name) as Hge.
    destruct (Z.gtb_spec (-1) (rfind "/" name)); [lia|done].
  - rewrite (rfind_last "." a b Hb).
    destruct (_ >? _); [|by left]. destruct (all_dots _); [by left|].
    right. exists a, b. split; [done|]. split; [done|]. cbn [snd]. unfold slice.
    rewrite !Nat2Z.id, string_length_app. cbn [String.length].
    replace (String.length a + S (String.length b) - String.length a)%nat
      with (String.length (String "." b)) by (cbn [String.length]; lia).
    apply substring_suffix.
Qed.

Lemma file_type_of_ext name b :
  lacks "." b = true -> (splitext name).2 = String "." b ->
  document_file_type name = if nonempty b then lower b else "unknown".
Proof.
  intros Hb Hext. unfold document_file_type. rewrite Hext. cbn [lstrip_by].
  rewrite Ascii.eqb_refl, lstrip_dots_lacks by done. by rewrite lower_nonempty.
Qed.

Lemma file_type_no_ext name :
  (splitext name).2 = "" -> document_file_type name = "unknown".
Proof. intros Hext. unfold document_file_type. by rewrite Hext. Qed.

End FileType.

(** X19.  The file type stored for an uploaded document is never empty,
    holds no dot and no capital letter.  For a name [stem.ext], the stem a
    file name with some character other than a dot, it is the extension in
    lower case, and [unknown] when nothing follows the dot; a name without
    a dot, and a name whose only dot is the first character, give
    [unknown]. *)
Theorem document_file_type_extension :
  (forall name,
     document_file_type name <> ""
     /\ Py.lacks "." (document_file_type name) = true
     /\ PyPath.lower (document_file_type name) = document_file_type name)
  /\ (forall stem ext,
        Py.lacks "/" stem = true -> PyPath.all_dots stem = false ->
        Py.lacks "." ext = true -> Py.lacks "/" ext = true ->
        document_file_type (stem +:+ "." +:+ ext)
        = if Py.nonempty ext then PyPath.lower ext else "unknown")
  /\ (forall name, Py.lacks "." name = true -> document_file_type name = "unknown")
  /\ (forall ext, Py.lacks "." ext = true -> document_file_type ("." +:+ ext) = "unknown").
Proof.
  split; [|split; [|split]].
  - intros name. destruct (splitext_ext name) as [Hext|(a & b & _ & Hb & Hext)].
    + by rewrite (file_type_no_ext name Hext).
    + rewrite (file_type_of_ext name b Hb Hext).
      destruct (Py.nonempty b) eqn:E; [|done].
      rewrite lower_lacks_dot, lower_idem. split; [|done].
      intros Hempty. rewrite <- lower_nonempty, Hempty in E. discriminate.
  - intros stem ext Hsep Hdots Hext Hsep'.
    apply file_type_of_ext; [done|]. unfold PyPath.splitext. cbv zeta.
    change (stem +:+ "." +:+ ext) with (stem +:+ String "." ext).
    rewrite (rfind_last "." stem ext Hext).
    rewrite (rfind_lacks "/" (stem +:+ String "." ext))
      by (rewrite lacks_app, Hsep; cbn [Py.lacks]; by rewrite Hsep').
    destruct (Z.gtb_spec (Z.of_nat (String.length stem)) (-1)); [|lia].
    unfold PyPath.slice. rewrite !Nat2Z.id. cbn [Z.add Z.to_nat]. rewrite !Nat.sub_0_r.
    rewrite substring_prefix, Hdots. cbn [snd].
    rewrite string_length_app. cbn [String.length].
    replace (String.length stem + S (String.length ext) - String.length stem)%nat
      with (String.length (String "." ext)) by (cbn [String.length]; lia).
    apply substring_suffix.
  - intros name Hno. apply file_type_no_ext. unfold PyPath.splitext. cbv zeta.
    rewrite (rfind_lacks "." name Hno).
    pose proof (rfind_ge "/" name) as Hge.
    destruct (Z.gtb_spec (-1) (PyPath.rfind "/" name)); [lia|done].
  - intros ext Hext. apply file_type_no_ext. unfold PyPath.splitext. cbv zeta.
    change ("." +:+ ext) with ("" +:+ String "." ext).
    rewrite (rfind_last "." "" ext Hext). change (Z.of_nat (String.length "")) with 0.
    pose proof (rfind_ge "/" ("" +:+ String "." ext)) as Hge.
    destruct (Z.gtb_spec 0 (PyPath.rfind "/" ("" +:+ String "." ext))); [|done].
    assert (PyPath.rfind "/" ("" +:+ String "." ext) = -1) as -> by lia.
    by cbn.
Qed.

Lemma document_file_type_extension_witness :
  document_file_type "Report.final.PDF" = "pdf"
  /\ document_file_type "notes." = "unknown"
  /\ document_file_type "README" = "unknown"
  /\ document_file_type ".gitignore" = "unknown".
Proof.
  destruct document_file_type_extension as (_ & Hext & Hnone & Hhidden).
  split; [|split; [|split]].
  - by apply (Hext "Report.final" "PDF").
  - by apply (Hext "notes" "").
  - by apply (Hnone "README").
  - by apply (Hhidden "gitignore").
Defined.

(** ** Invariants of the requests *)

Section Triples.
Context {Inv : DB -> Prop}.

Lemma triple_ret {A : Type} (a : A) (Q : A -> Prop) : Q a -> triple Inv (mret a) Q.
Proof. intros H db Hdb. split; [done|]. by intros ? [= <-]. Qed.

Lemma triple_bind {A B : Type} (m : M A) (f : A -> M B) (Q : A -> Prop) (R : B -> Prop) :
  triple Inv m Q -> (forall a, Q a -> triple Inv (f a) R) -> triple Inv (m ≫= f) R.
Proof.
  intros Hm Hf db Hdb. unfold mbind, M_bind. destruct (Hm db Hdb) as [Hinv Hval].
  destruct (m db) as [[a|e] db']; cbn [fst snd] in *.
  - apply (Hf a (Hval a eq_refl) db' Hinv).
  - split; [done|]. by intros.
Qed.

Lemma triple_weaken {A : Type} (m : M A) (Q R : A -> Prop) :
  triple Inv m Q -> (forall a, Q a -> R a) -> triple Inv m R.
Proof.
  intros Hm HQR db Hdb. destruct (Hm db Hdb) as [Hinv Hval]. split; [done|].
  intros a Ha. by apply HQR, Hval.
Qed.

Lemma triple_read : triple Inv read Inv.
Proof. intros db Hdb. split; [done|]. by intros ? [= <-]. Qed.

Lemma triple_lift {A : Type} (r : result A) : triple Inv (lift r) (fun _ => True).
Proof. by intros db Hdb. Qed.

Lemma triple_try_except {A : Type} (body handler : M A) catches (Q : A -> Prop) :
  triple Inv body Q -> triple Inv handler Q -> triple Inv (try_except body catches handler) Q.
Proof.
  intros Hb Hh db Hdb. unfold try_except. destruct (Hb db Hdb) as [Hinv Hval].
  destruct (body db) as [[a|e] db']; cbn [fst snd] in *; [done|].
  destruct (catches e); [by apply Hh|]. split; [done|]. by intros.
Qed.

Lemma triple_for_each {A B : Type} (body : B -> A -> M B) l :
  (forall acc x, triple Inv (body acc x) (fun _ => True)) ->
  forall acc, triple Inv (for_each_M body l acc) (fun _ => True).
Proof.
  intros Hbody. induction l as [|x l IH]; intros acc.
  - by apply triple_ret.
  - cbn [for_each_M]. eapply triple_bind; [apply Hbody|]. intros acc' _. apply IH.
Qed.

Lemma triple_get_case pk : triple Inv (get_case_or_404 pk) (fun _ => True).
Proof. intros db Hdb. unfold get_case_or_404. by destruct (find_pk _ _ _). Qed.

End Triples.

Section Ledger.
Variables md5 sha1 sha256 : list byte -> string.
Variable parse_datetime : string -> result (option datetime).
Variable base : list EvidenceTransfer.

Abbreviation Inv := (extends_ledger base).

Lemma ledger_get pk : triple Inv (get_evidence_or_404 pk) (fun _ => True).
Proof. intros db Hdb. unfold get_evidence_or_404. by destruct (find_pk _ _ _). Qed.

Lemma ledger_save fi e : triple Inv (Evidence_save md5 sha1 sha256 fi e) (fun _ => True).
Proof.
  intros db Hdb. unfold Evidence_save, Evidence_super_save.
  by destruct (model_save _ _ _ _ _ _).
Qed.

Lemma ledger_log now e from_dept to_dept note :
  triple Inv (EvidenceTransfer_objects_create now e from_dept to_dept note) (fun _ => True).
Proof.
  intros db [rows Hdb]. split; [|done].
  unfold EvidenceTransfer_objects_create, extends_ledger, add_transfer.
  cbn [snd transfers]. eexists. by rewrite Hdb, <- app_assoc.
Qed.

Lemma ledger_quick now pk field value :
  triple Inv (evidence_quick_update_department md5 sha1 sha256 now pk field value)
    (fun _ => True).
Proof.
  unfold evidence_quick_update_department.
  eapply triple_bind; [apply ledger_get|]. intros e _.
  eapply triple_bind with (Q := fun _ => True).
  - destruct (String.eqb field "current_department");
      [|by destruct (String.eqb field "received_by"); apply triple_ret].
    cbv zeta. eapply triple_bind with (Q := fun _ => True); [|by intros; apply triple_ret].
    destruct (negb _); [apply ledger_log|by apply triple_ret].
  - intros e' _. eapply triple_bind; [apply ledger_save|]. intros. by apply triple_ret.
Qed.

Lemma ledger_bulk_one now action value n id :
  triple Inv (bulk_update_one md5 sha1 sha256 now action value n id) (fun _ => True).
Proof.
  unfold bulk_update_one. eapply triple_bind; [apply triple_read|]. intros dbv _.
  destruct (find_pk evidence_pk id (evidence_items dbv)) as [e|]; [|by apply triple_ret].
  cbv zeta. eapply triple_bind with (Q := fun _ => True).
  - destruct (String.eqb action "department");
      [|by destruct (String.eqb action "status"); apply triple_ret].
    eapply triple_bind with (Q := fun _ => True); [|by intros; apply triple_ret].
    destruct (negb _); [apply ledger_log|by apply triple_ret].
  - intros e' _. eapply triple_bind; [apply ledger_save|]. intros. by apply triple_ret.
Qed.

Lemma ledger_bulk now ids action value :
  triple Inv (evidence_bulk_update md5 sha1 sha256 now ids action value) (fun _ => True).
Proof.
  unfold evidence_bulk_update. eapply triple_bind.
  - apply triple_for_each. intros. apply ledger_bulk_one.
  - intros. by apply triple_ret.
Qed.

Lemma ledger_update now pk POST :
  triple Inv (evidence_update md5 sha1 sha256 parse_datetime now pk POST) (fun _ => True).
Proof.
  unfold evidence_update.
  eapply triple_bind; [apply ledger_get|]. intros e _.
  eapply triple_bind; [apply triple_lift|]. intros device_data _.
  eapply triple_bind; [apply triple_read|]. intros dbv _. cbv zeta.
  destruct (_ && _); [by apply triple_ret|].
  eapply triple_bind; [apply triple_lift|]. intros received _.
  eapply triple_bind; [apply triple_lift|]. intros seizure _.
  eapply triple_bind; [apply triple_lift|]. intros acquisition _.
  eapply triple_bind; [apply ledger_save|]. intros e' _.
  eapply triple_bind with (Q := fun _ => True); [|by intros; apply triple_ret].
  destruct (negb _); [apply ledger_log|by apply triple_ret].
Qed.

Lemma ledger_create now uuid POST :
  triple Inv (evidence_create md5 sha1 sha256 parse_datetime now uuid POST) (fun _ => True).
Proof.
  unfold evidence_create. cbv zeta.
  eapply triple_bind; [apply triple_read|]. intros dbv _.
  destruct (if negb _ then _ else _) as [number|]; [|by apply triple_ret].
  eapply triple_bind; [apply triple_lift|]. intros device_data _.
  eapply triple_bind; [apply triple_lift|]. intros received _.
  eapply triple_bind; [apply triple_lift|]. intros seizure _.
  eapply triple_bind; [apply triple_lift|]. intros acquisition _.
  destruct (_ && _); [by apply triple_ret|].
  apply triple_try_except; [|by apply triple_ret].
  eapply triple_bind; [apply ledger_save|]. intros e' _.
  eapply triple_bind with (Q := fun _ => True); [|by intros; apply triple_ret].
  destruct (Py.nonempty _); [apply ledger_log|by apply triple_ret].
Qed.

Lemma ledger_serve request :
  triple Inv (serve md5 sha1 sha256 parse_datetime request) (fun _ => True).
Proof.
  destruct request; cbn [serve].
  - apply ledger_create.
  - apply ledger_quick.
  - apply ledger_update.
  - apply ledger_bulk.
Qed.

End Ledger.

Section CaseLedger.
Variable rows : list EvidenceTransfer.

Abbreviation same := (fun db => transfers db = rows).

Lemma same_case_save now fi c : triple same (Case_save now fi c) (fun _ => True).
Proof.
  intros db Hdb. unfold Case_save, Case_super_save, mbind, M_bind, read.
  by destruct (model_save _ _ _ _ _ _).
Qed.

Lemma same_case_create now key POST : triple same (case_create now key POST) (fun _ => True).
Proof.
  unfold case_create. cbv zeta. apply triple_try_except; [|by apply triple_ret].
  eapply triple_bind; [apply same_case_save|]. intros. by apply triple_ret.
Qed.

Lemma same_case_update now key POST : triple same (case_update now key POST) (fun _ => True).
Proof.
  unfold case_update.
  eapply triple_bind; [apply triple_get_case|]. intros c _.
  eapply triple_bind; [apply triple_read|]. intros dbv _. cbv zeta.
  destruct (_ && _); [by apply triple_ret|].
  eapply triple_bind; [apply same_case_save|]. intros. by apply triple_ret.
Qed.

Lemma same_case_delete key : triple same (case_delete key) (fun _ => True).
Proof.
  unfold case_delete.
  eapply triple_bind; [apply triple_get_case|]. intros c _. cbv zeta.
  eapply triple_bind with (Q := fun _ => True); [by intros db Hdb|].
  intros. by apply triple_ret.
Qed.

End CaseLedger.

(** X20.  The ledger is append-only under the requests that write it: a
    creation, an edit, a quick update or a bulk action, whether it succeeds,
    is refused or raises, leaves every existing transfer row in place and in
    order, and so does any sequence of them; the case views never touch the
    ledger. *)
Theorem ledger_append_only md5 sha1 sha256 parse_datetime :
  (forall request db,
     exists rows,
       transfers (serve md5 sha1 sha256 parse_datetime request db).2 = transfers db ++ rows)
  /\ (forall requests db,
        exists rows,
          transfers (serve_all md5 sha1 sha256 parse_datetime requests db)
          = transfers db ++ rows)
  /\ (forall now key POST db,
        transfers (case_create now key POST db).2 = transfers db
        /\ transfers (case_update now key POST db).2 = transfers db
        /\ transfers (case_delete key db).2 = transfers db).
Proof.
  assert (forall request db,
            exists rows,
              transfers (serve md5 sha1 sha256 parse_datetime request db).2
              = transfers db ++ rows) as Hone.
  { intros request db.
    apply (ledger_serve md5 sha1 sha256 parse_datetime (transfers db) request db).
    exists []. by rewrite app_nil_r. }
  split; [exact Hone|]. split.
  - intros requests. induction requests as [|r rs IH]; intros db.
    + exists []. by rewrite app_nil_r.
    + cbn [serve_all fold_left]. destruct (Hone r db) as [rows1 H1].
      destruct (IH (serve md5 sha1 sha256 parse_datetime r db).2) as [rows2 H2].
      exists (rows1 ++ rows2). unfold serve_all in H2. by rewrite H2, H1, app_assoc.
  - intros now key POST db. split; [|split].
    + by apply (same_case_create (transfers db) now key POST db).
    + by apply (same_case_update (transfers db) now key POST db).
    + by apply (same_case_delete (transfers db) key db).
Qed.

Section Frozen.
Variables md5 sha1 sha256 : list byte -> string.
Variable parse_datetime : string -> result (option datetime).
Variable pk : string.
Variable e0 : Evidence.
Hypothesis Hfrozen : hash_md5 e0 <> "".

Abbreviation fp := (fingerprint md5 sha1 sha256).
Abbreviation Inv := (holds_digests pk (digests e0)).

(** An instance that, if it is item [pk], carries the fingerprint. *)
Abbreviation keeps := (fun a : Evidence => evidence_pk a = pk -> digests a = digests e0).

Lemma digests_frozen a : digests a = digests e0 -> fp a = a.
Proof.
  intros Hd. apply fingerprint_frozen. unfold digests in Hd.
  injection Hd as _ _ Hmd5 _ _. by rewrite Hmd5.
Qed.

Lemma keeps_fingerprint a : keeps a -> keeps (fp a).
Proof.
  intros Ha Hpk. destruct (fingerprint_keeps md5 sha1 sha256 a) as (Fpk & _).
  rewrite Fpk in Hpk. by rewrite (digests_frozen a (Ha Hpk)), (Ha Hpk).
Qed.

Lemma stored_keeps db id a :
  Inv db -> find_pk evidence_pk id (evidence_items db) = Some a -> keeps a.
Proof.
  intros (e & Hfind & Hd) Ha Hpk. destruct (find_pk_Some _ _ _ _ Ha) as [_ Hid].
  rewrite Hpk in Hid. subst id. congruence.
Qed.

Lemma frozen_get id : triple Inv (get_evidence_or_404 id) keeps.
Proof.
  intros db Hdb. unfold get_evidence_or_404.
  destruct (find_pk evidence_pk id (evidence_items db)) as [a|] eqn:Ha; [|done].
  split; [done|]. intros ? [= <-]. by apply (stored_keeps db id).
Qed.

Lemma frozen_save fi r :
  (fi = true \/ keeps r) -> triple Inv (Evidence_save md5 sha1 sha256 fi r) keeps.
Proof.
  intros Hr db (e & Hfind & Hd). unfold Evidence_save, Evidence_super_save.
  destruct (model_save _ _ _ fi (fp r) (evidence_items db)) as [t'|] eqn:Hsave;
    cbn [fst snd]; [|split; [by exists e|done]].
  pose proof (model_save_find _ _ _ _ _ _ _ pk Hsave) as Hfind'.
  destruct (fingerprint_keeps md5 sha1 sha256 r) as (Fpk & _).
  assert (String.eqb (evidence_pk (fp r)) pk = true -> keeps r) as Hkeeps.
  { intros E. destruct Hr as [->|Hr]; [|done].
    apply insert_fresh in Hsave. apply String.eqb_eq in E. rewrite E in Hsave.
    by rewrite (find_pk_exists _ _ _ _ Hfind) in Hsave. }
  split.
  - unfold holds_digests. cbn [set_evidence_items evidence_items]. rewrite Hfind'.
    destruct (String.eqb (evidence_pk (fp r)) pk) eqn:E; [|by exists e].
    exists (fp r). split; [done|]. apply String.eqb_eq in E.
    by apply (keeps_fingerprint r (Hkeeps eq_refl)).
  - intros ? [= <-] Hpk. apply (keeps_fingerprint r); [|done].
    apply Hkeeps. by apply String.eqb_eq.
Qed.

Lemma frozen_log now e from_dept to_dept note :
  triple Inv (EvidenceTransfer_objects_create now e from_dept to_dept note) (fun _ => True).
Proof. by intros db Hdb. Qed.

Lemma frozen_quick now id field value :
  triple Inv (evidence_quick_update_department md5 sha1 sha256 now id field value)
    (fun _ => True).
Proof.
  unfold evidence_quick_update_department.
  eapply triple_bind; [apply frozen_get|]. intros e He.
  eapply triple_bind with (Q := keeps).
  - destruct (String.eqb field "current_department");
      [|by destruct (String.eqb field "received_by"); apply triple_ret].
    cbv zeta. eapply triple_bind with (Q := fun _ => True); [|by intros; apply triple_ret].
    destruct (negb _); [apply frozen_log|by apply triple_ret].
  - intros e' He'. eapply triple_bind; [apply frozen_save; by right|].
    intros. by apply triple_ret.
Qed.

Lemma frozen_bulk_one now action value n id :
  triple Inv (bulk_update_one md5 sha1 sha256 now action value n id) (fun _ => True).
Proof.
  unfold bulk_update_one. eapply triple_bind; [apply triple_read|]. intros dbv Hdbv.
  destruct (find_pk evidence_pk id (evidence_items dbv)) as [e|] eqn:He;
    [|by apply triple_ret].
  pose proof (stored_keeps dbv id e Hdbv He) as Hkeeps.
  cbv zeta. eapply triple_bind with (Q := keeps).
  - destruct (String.eqb action "department");
      [|by destruct (String.eqb action "status"); apply triple_ret].
    eapply triple_bind with (Q := fun _ => True).
    + destruct (negb _); [apply frozen_log|by apply triple_ret].
    + intros. apply triple_ret. by destruct (received_date (with_department value e)).
  - intros e' He'. eapply triple_bind; [apply frozen_save; by right|].
    intros. by apply triple_ret.
Qed.

Lemma frozen_bulk now ids action value :
  triple Inv (evidence_bulk_update md5 sha1 sha256 now ids action value) (fun _ => True).
Proof.
  unfold evidence_bulk_update. eapply triple_bind.
  - apply triple_for_each. intros. apply frozen_bulk_one.
  - intros. by apply triple_ret.
Qed.

Lemma frozen_update now id POST :
  triple Inv (evidence_update md5 sha1 sha256 parse_datetime now id POST) (fun _ => True).
Proof.
  unfold evidence_update.
  eapply triple_bind; [apply frozen_get|]. intros e He.
  eapply triple_bind; [apply triple_lift|]. intros device_data _.
  eapply triple_bind; [apply triple_read|]. intros dbv _. cbv zeta.
  destruct (_ && _); [by apply triple_ret|].
  eapply triple_bind; [apply triple_lift|]. intros received _.
  eapply triple_bind; [apply triple_lift|]. intros seizure _.
  eapply triple_bind; [apply triple_lift|]. intros acquisition _.
  eapply triple_bind; [apply frozen_save; by right|]. intros e' _.
  eapply triple_bind with (Q := fun _ => True); [|by intros; apply triple_ret].
  destruct (negb _); [apply frozen_log|by apply triple_ret].
Qed.

Lemma frozen_create now uuid POST :
  triple Inv (evidence_create md5 sha1 sha256 parse_datetime now uuid POST) (fun _ => True).
Proof.
  unfold evidence_create. cbv zeta.
  eapply triple_bind; [apply triple_read|]. intros dbv _.
  destruct (if negb _ then _ else _) as [number|]; [|by apply triple_ret].
  eapply triple_bind; [apply triple_lift|]. intros device_data _.
  eapply triple_bind; [apply triple_lift|]. intros received _.
  eapply triple_bind; [apply triple_lift|]. intros seizure _.
  eapply triple_bind; [apply triple_lift|]. intros acquisition _.
  destruct (_ && _); [by apply triple_ret|].
  apply triple_try_except; [|by apply triple_ret].
  eapply triple_bind; [apply frozen_save; by left|]. intros e' _.
  eapply triple_bind with (Q := fun _ => True); [|by intros; apply triple_ret].
  destruct (Py.nonempty _); [apply frozen_log|by apply triple_ret].
Qed.

Lemma frozen_serve request :
  triple Inv (serve md5 sha1 sha256 parse_datetime request) (fun _ => True).
Proof.
  destruct request; cbn [serve].
  - apply frozen_create.
  - apply frozen_quick.
  - apply frozen_update.
  - apply frozen_bulk.
Qed.

Lemma frozen_serve_all requests : forall db,
  Inv db -> Inv (serve_all md5 sha1 sha256 parse_datetime requests db).
Proof.
  induction requests as [|r rs IH]; intros db Hdb; [done|].
  cbn [serve_all fold_left]. apply IH. by apply frozen_serve.
Qed.

End Frozen.

(** X21.  A fingerprint, once taken, survives every request: whatever
    creations, edits, quick updates and bulk actions are served, and whether
    they succeed or fail, an item stored with digests is still stored with
    the same file, size and digests. *)
Theorem frozen_fingerprint_survives md5 sha1 sha256 parse_datetime requests db pk e :
  find_pk evidence_pk pk (evidence_items db) = Some e ->
  hash_md5 e <> "" ->
  exists e',
    find_pk evidence_pk pk
      (evidence_items (serve_all md5 sha1 sha256 parse_datetime requests db)) = Some e'
    /\ file_path e' = file_path e
    /\ file_size e' = file_size e
    /\ hash_md5 e' = hash_md5 e
    /\ hash_sha1 e' = hash_sha1 e
    /\ hash_sha256 e' = hash_sha256 e.
Proof.
  intros Hfind Hfrozen.
  destruct (frozen_serve_all md5 sha1 sha256 parse_datetime pk e Hfrozen requests db)
    as (e' & Hfind' & Hd); [by exists e|].
  exists e'. split; [done|]. unfold digests in Hd. by injection Hd as -> -> -> -> ->.
Qed.

Lemma frozen_fingerprint_survives_witness :
  exists e',
    find_pk evidence_pk "e1"
      (evidence_items
         (serve_all empty_md5 empty_sha1 empty_sha256 no_dates
            [Update now25 "e1" post_edit; BulkUpdate now25 ["e1"] "department" "ar";
             QuickUpdate now25 "e1" "received_by" "Officer";
             Create now25 "e1" post_case8] db_item_file)) = Some e'
    /\ file_path e' = Some []
    /\ file_size e' = Some 0
    /\ hash_md5 e' = "d41d8cd98f00b204e9800998ecf8427e"
    /\ hash_sha1 e' = "da39a3ee5e6b4b0d3255bfef95601890afd80709"
    /\ hash_sha256 e' = "e3b0c44298fc1c149afbf4c8996fb92427ae41e4649b934ca495991b7852b855".
Proof.
  eapply (frozen_fingerprint_survives empty_md5 empty_sha1 empty_sha256 no_dates _
            db_item_file "e1"
            (with_fingerprint empty_md5 empty_sha1 empty_sha256 []
               (with_file_path (Some []) sample_evidence_ar))).
  - reflexivity.
  - discriminate.
Defined.
